(** * plex-mcp-server: connection manager, tool registry and tool envelopes

    A shallow embedding of the Python sources
    - [plex_mcp_server/const.py],
    - [plex_mcp_server/plex_client.py],
    - [plex_mcp_server/common.py] and [plex_mcp_server/tools/tools.py],
    - [plex_mcp_server/tools/media_tools.py],
    - [plex_mcp_server/tools/playlist_tools.py],
    followed by the properties of the specification stated over it. *)

From Stdlib Require Import QArith.
From stdpp Require Import base strings list gmap pretty.

#[local] Set Warnings "-clear-no-such-hyp,-register-all".

Local Open Scope string_scope.
Local Open Scope list_scope.

(** ** Python exceptions and fallible computations *)

Module Py.

(** The exception classes the sources name or can meet.  All of them derive
    from [Exception], which is what every [except Exception] clause of the
    sources catches. *)
Inductive exn_class :=
  | ConnectionError
  | NotFound
  | TypeError
  | AttributeError
  | KeyError
  | OtherError (name : string).

(** An exception instance: its class, [str(e)], and [e.__cause__] (set by
    [raise ... from e]). *)
Inductive exn :=
  | Exn (cls : exn_class) (msg : string)
  | ExnFrom (cls : exn_class) (msg : string) (cause : exn).

Definition exn_cls (e : exn) : exn_class :=
  match e with Exn c _ | ExnFrom c _ _ => c end.
Definition str_exn (e : exn) : string :=
  match e with Exn _ m | ExnFrom _ m _ => m end.
Definition exn_cause (e : exn) : option exn :=
  match e with Exn _ _ => None | ExnFrom _ _ c => Some c end.

Inductive result (A : Type) :=
  | Ok (a : A)
  | Raise (e : exn).
Arguments Ok {A} a.
Arguments Raise {A} e.

Definition bind {A B} (m : result A) (k : A -> result B) : result B :=
  match m with
  | Ok a => k a
  | Raise e => Raise e
  end.

(** [try: body / except Exception as e: handler e]. *)
Definition try_except {A} (body : result A) (handler : exn -> result A) : result A :=
  match body with
  | Ok a => Ok a
  | Raise e => handler e
  end.

(** [s1 in s2] on strings. *)
Definition str_in (s1 s2 : string) : bool :=
  match String.index 0 s1 s2 with
  | Some _ => true
  | None => false
  end.

(** [sub] occurs in [s]. *)
Definition contains (sub s : string) : Prop :=
  exists pre suf, s = pre +:+ sub +:+ suf.

(** *** Values

    Python values as the tools meet them: the JSON data of an HTTP response
    ([None], booleans, integers, strings, lists, dictionaries with string
    keys; JSON numbers are taken to be integers), and any other object
    (a plexapi object, a [datetime], ...) as its class name, its [str()] and
    its attributes. *)
Inductive val :=
  | VNone
  | VBool (b : bool)
  | VInt (n : Z)
  | VStr (s : string)
  | VList (l : list val)
  | VDict (d : list (string * val))
  | VObj (cls : string) (str_ : string) (attrs : list (string * val)).

(** An entity plexapi returns: an object with attributes and with methods
    that take no argument, each given with what a call of it does. *)
Record obj := mk_obj {
  obj_cls : string;
  obj_str : string;
  obj_attrs : list (string * val);
  obj_methods : list (string * result val);
}.

Definition of_obj (o : obj) : val := VObj (obj_cls o) (obj_str o) (obj_attrs o).

Fixpoint lookup_key {A} (k : string) (d : list (string * A)) : option A :=
  match d with
  | [] => None
  | (k', v) :: d => if String.eqb k k' then Some v else lookup_key k d
  end.

(** [d[k] = v] on a dictionary that keeps insertion order. *)
Fixpoint set_key {A} (k : string) (v : A) (d : list (string * A)) : list (string * A) :=
  match d with
  | [] => [(k, v)]
  | (k', v') :: d => if String.eqb k k' then (k, v) :: d else (k', v') :: set_key k v d
  end.

(** [d.update(more)] *)
Definition update {A} (d more : list (string * A)) : list (string * A) :=
  foldl (fun d kv => set_key (fst kv) (snd kv) d) d more.

Definition type_name (v : val) : string :=
  match v with
  | VNone => "NoneType"
  | VBool _ => "bool"
  | VInt _ => "int"
  | VStr _ => "str"
  | VList _ => "list"
  | VDict _ => "dict"
  | VObj cls _ _ => cls
  end.

(** Truth value testing.  Objects are taken to define neither [__bool__] nor
    [__len__]. *)
Definition truthy (v : val) : bool :=
  match v with
  | VNone => false
  | VBool b => b
  | VInt n => negb (n =? 0)%Z
  | VStr s => negb (String.eqb s "")
  | VList l => match l with [] => false | _ => true end
  | VDict d => match d with [] => false | _ => true end
  | VObj _ _ _ => true
  end.

Definition opt_str (o : option string) : val :=
  match o with Some s => VStr s | None => VNone end.

(** An [Optional[str]] inside an f-string. *)
Definition format_opt (o : option string) : string :=
  match o with Some s => s | None => "None" end.

Definition opt_int (o : option Z) : val :=
  match o with Some n => VInt n | None => VNone end.

(** [==] between a value and a string. *)
Definition eq_str (v : val) (s : string) : bool :=
  match v with VStr s' => String.eqb s' s | _ => false end.

Definition type_error (msg : string) : exn := Exn TypeError msg.
Definition attribute_error (v : val) (name : string) : exn :=
  Exn AttributeError
      ("'" +:+ type_name v +:+ "' object has no attribute '" +:+ name +:+ "'").

(** [getattr(o, name, default)] *)
Definition getattr (v : val) (name : string) (dflt : val) : val :=
  match v with
  | VObj _ _ attrs => default dflt (lookup_key name attrs)
  | _ => dflt
  end.

(** [v.name] and [hasattr(v, name)].  Only objects carry the attributes the
    tools read this way. *)
Definition attr (v : val) (name : string) : result val :=
  match v with
  | VObj _ _ attrs =>
      match lookup_key name attrs with
      | Some x => Ok x
      | None => Raise (attribute_error v name)
      end
  | _ => Raise (attribute_error v name)
  end.

Definition hasattr (v : val) (name : string) : bool :=
  match v with
  | VObj _ _ attrs => bool_decide (is_Some (lookup_key name attrs))
  | _ => false
  end.

(** [k in v] for a string [k]. *)
Definition contains_key (k : string) (v : val) : result bool :=
  match v with
  | VDict d => Ok (bool_decide (is_Some (lookup_key k d)))
  | VList l => Ok (existsb (fun x => eq_str x k) l)
  | VStr s => Ok (str_in k s)
  | _ => Raise (type_error ("argument of type '" +:+ type_name v +:+ "' is not iterable"))
  end.

(** [v[k]] for a string [k]. *)
Definition getitem (v : val) (k : string) : result val :=
  match v with
  | VDict d =>
      match lookup_key k d with
      | Some x => Ok x
      | None => Raise (Exn KeyError ("'" +:+ k +:+ "'"))
      end
  | VList _ => Raise (type_error "list indices must be integers or slices, not str")
  | VStr _ => Raise (type_error "string indices must be integers, not 'str'")
  | _ => Raise (type_error ("'" +:+ type_name v +:+ "' object is not subscriptable"))
  end.

(** [v.get(k, dflt)] *)
Definition dict_get (v : val) (k : string) (dflt : val) : result val :=
  match v with
  | VDict d => Ok (default dflt (lookup_key k d))
  | _ => Raise (attribute_error v "get")
  end.

(** [d.get(k, dflt)] on a value known to be a dictionary. *)
Definition get (d : list (string * val)) (k : string) (dflt : val) : val :=
  default dflt (lookup_key k d).

Definition chars (s : string) : list val :=
  (fun c => VStr (String c "")) <$> String.list_ascii_of_string s.

(** The elements [for x in v] runs over. *)
Definition iter (v : val) : result (list val) :=
  match v with
  | VList l => Ok l
  | VDict d => Ok ((fun kv => VStr (fst kv)) <$> d)
  | VStr s => Ok (chars s)
  | _ => Raise (type_error ("'" +:+ type_name v +:+ "' object is not iterable"))
  end.

(** [v[:n]] *)
Definition slice_to (n : nat) (v : val) : result val :=
  match v with
  | VList l => Ok (VList (take n l))
  | VStr s => Ok (VStr (String.substring 0 n s))
  | _ => Raise (type_error ("'" +:+ type_name v +:+ "' object is not subscriptable"))
  end.

(** A loop [for x in l: body] over a state, in which the body may raise. *)
Fixpoint for_each {S A} (l : list A) (s : S) (body : S -> A -> result S) : result S :=
  match l with
  | [] => Ok s
  | x :: l => bind (body s x) (fun s => for_each l s body)
  end.

(** A list comprehension [[f x for x in l]] whose element expression may
    raise. *)
Fixpoint comprehension {A B} (f : A -> result B) (l : list A) : result (list B) :=
  match l with
  | [] => Ok []
  | x :: l => bind (f x) (fun y => bind (comprehension f l) (fun ys => Ok (y :: ys)))
  end.

(** *** Dictionary keys

    The hashable values among JSON data.  [True] and [1] are the same key, as
    are [False] and [0]. *)
Definition hashable (v : val) : bool :=
  match v with
  | VNone | VBool _ | VInt _ | VStr _ => true
  | _ => false
  end.

Definition key_eqb (a b : val) : bool :=
  match a, b with
  | VNone, VNone => true
  | VStr x, VStr y => String.eqb x y
  | VInt x, VInt y => (x =? y)%Z
  | VBool x, VBool y => Bool.eqb x y
  | VBool x, VInt y | VInt y, VBool x => ((if x then 1 else 0) =? y)%Z
  | _, _ => false
  end.

Definition unhashable (v : val) : exn :=
  type_error ("unhashable type: '" +:+ type_name v +:+ "'").

(** The key [json.dumps] writes for a dictionary key. *)
Definition json_key (k : val) : string :=
  match k with
  | VStr s => s
  | VInt n => pretty n
  | VBool true => "true"
  | VBool false => "false"
  | _ => "null"
  end.

(** *** json.dumps

    The tools return [json.dumps(document)].  The text is represented by the
    document it serialises; [json.dumps] raises [TypeError] at the first
    value that is not JSON data. *)
Fixpoint not_serializable (v : val) : option string :=
  match v with
  | VNone | VBool _ | VInt _ | VStr _ => None
  | VList l =>
      (fix go (l : list val) : option string :=
         match l with
         | [] => None
         | x :: l => match not_serializable x with Some c => Some c | None => go l end
         end) l
  | VDict d =>
      (fix go (d : list (string * val)) : option string :=
         match d with
         | [] => None
         | (_, x) :: d => match not_serializable x with Some c => Some c | None => go d end
         end) d
  | VObj cls _ _ => Some cls
  end.

(** The text a tool returns, as the document it serialises. *)
Definition json_text := val.

Definition json_dumps (v : val) : result json_text :=
  match not_serializable v with
  | None => Ok v
  | Some cls =>
      Raise (type_error ("Object of type " +:+ cls +:+ " is not JSON serializable"))
  end.

(** [str(v)]; [repr] is Python's rendering of lists and dictionaries. *)
Definition str (repr : val -> string) (v : val) : string :=
  match v with
  | VNone => "None"
  | VBool true => "True"
  | VBool false => "False"
  | VInt n => pretty n
  | VStr s => s
  | VObj _ s _ => s
  | VList _ | VDict _ => repr v
  end.

(** *** String methods (on ASCII text) *)

Abbreviation ascii := Ascii.ascii.

Definition is_space (c : ascii) : bool :=
  let n := Ascii.nat_of_ascii c in
  ((9 <=? n) && (n <=? 13) || (28 <=? n) && (n <=? 32))%nat.

Fixpoint lstrip_chars (l : list ascii) : list ascii :=
  match l with
  | c :: l' => if is_space c then lstrip_chars l' else l
  | [] => []
  end.

(** [s.strip()] *)
Definition strip (s : string) : string :=
  String.string_of_list_ascii
    (rev (lstrip_chars (rev (lstrip_chars (String.list_ascii_of_string s))))).

Definition lower_char (c : ascii) : ascii :=
  let n := Ascii.nat_of_ascii c in
  if ((65 <=? n) && (n <=? 90))%nat then Ascii.ascii_of_nat (n + 32) else c.

(** [s.lower()] on ASCII text: the letters [A]-[Z] are lowered and every
    other byte is kept.  It stands for [str.lower] in [playlist_list],
    where [content_type] is checked against the ASCII words ["audio"],
    ["video"] and ["photo"]; the tools that compare titles and user names
    take [str.lower] as a parameter instead. *)
Definition lower (s : string) : string :=
  String.string_of_list_ascii (lower_char <$> String.list_ascii_of_string s).

(** [", ".join(l)] and the like. *)
Fixpoint join (sep : string) (l : list string) : string :=
  match l with
  | [] => ""
  | [x] => x
  | x :: l => x +:+ sep +:+ join sep l
  end.

End Py.
Import Py.

Declare Scope py_scope.
Delimit Scope py_scope with py.
Notation "x <- m ;; k" := (Py.bind m (fun x => k))
  (at level 100, m at next level, right associativity) : py_scope.

(** ** const.py *)

Module Const.

Inductive PermissionsType := READ | WRITE | DELETE.

(** [CONNECTION_TIMEOUT = 5  # seconds] *)
Definition CONNECTION_TIMEOUT : Z := 5.

(** [SESSION_TIMEOUT = 60 * 30  # seconds] *)
Definition SESSION_TIMEOUT : Z := 60 * 30.

End Const.
Import Const.

(** ** plex_client.py *)

Module PlexClient.

Section Client.

(** The [plexapi.server.PlexServer] session object. *)
Context {PlexServer : Type}.

(** Instance attributes of [PlexClient].  [datetime.now().timestamp()] is a
    number of seconds; it is modelled as a rational. *)
Record t := mk {
  _plex_url : string;
  _plex_token : string;
  _connection : option PlexServer;
  _last_connection_time : Q;
}.

Definition __init__ (plex_url plex_token : string) : t :=
  {| _plex_url := plex_url;
     _plex_token := plex_token;
     _connection := None;
     _last_connection_time := 0 |}.

(** What the remote side does during one run of [_connect]:
    - the [PlexServer(...)] constructor raises;
    - the constructor returns a session, then [.library] or
      [library.sections()] raises;
    - construction and probe both succeed, and [datetime.now().timestamp()]
      then reads [now]. *)
Inductive remote :=
  | ConstructorRaises (e : exn)
  | ProbeRaises (srv : PlexServer) (e : exn)
  | Probed (srv : PlexServer) (now : Q).

Definition connect_error (self : t) (e : exn) : exn :=
  ExnFrom ConnectionError
          ("Failed to connect to Plex server at " +:+ _plex_url self +:+ ": " +:+ str_exn e)
          e.

(** The [except Exception as e:] suite of [_connect]. *)
Definition connect_failed (self : t) (e : exn) : t * result unit :=
  ({| _plex_url := _plex_url self;
      _plex_token := _plex_token self;
      _connection := None;
      _last_connection_time := 0 |},
   Raise (connect_error self e)).

Definition _connect (self : t) (r : remote) : t * result unit :=
  match r with
  | ConstructorRaises e => connect_failed self e
  | ProbeRaises srv e =>
      (* [self._connection = PlexServer(...)] has already been executed *)
      let self := {| _plex_url := _plex_url self;
                     _plex_token := _plex_token self;
                     _connection := Some srv;
                     _last_connection_time := _last_connection_time self |} in
      connect_failed self e
  | Probed srv now =>
      ({| _plex_url := _plex_url self;
          _plex_token := _plex_token self;
          _connection := Some srv;
          _last_connection_time := now |},
       Ok ())
  end.

(** The guard of the [connection] property:
    [self._connection is None or
     datetime.now().timestamp() - self._last_connection_time > SESSION_TIMEOUT]. *)
Definition stale (self : t) (now : Q) : bool :=
  match _connection self with
  | None => true
  | Some _ =>
      negb (Qle_bool (now - _last_connection_time self) (inject_Z SESSION_TIMEOUT))
  end.

Definition fallback_error : exn :=
  Exn ConnectionError "Failed to connect to Plex server.".

(** One evaluation of the [connection] property.  [now] is the clock reading
    of the guard, [r] what the remote side does if [_connect] is called.
    [attempts] counts the calls of [_connect] made by this evaluation. *)
Record step := mk_step {
  after : t;
  outcome : result PlexServer;
  attempts : nat;
}.

Definition connection (self : t) (now : Q) (r : remote) : step :=
  let '(self1, connected, n) :=
    if stale self now
    then let '(s, c) := _connect self r in (s, c, 1%nat)
    else (self, Ok (), 0%nat) in
  match connected with
  | Raise e => mk_step self1 (Raise e) n
  | Ok _ =>
      match _connection self1 with
      | None => mk_step self1 (Raise fallback_error) n
      | Some srv => mk_step self1 (Ok srv) n
      end
  end.

(** A sequence of evaluations of the property on one client, each with its
    clock reading and remote behaviour; the steps are returned in order. *)
Fixpoint run (self : t) (calls : list (Q * remote)) : t * list step :=
  match calls with
  | [] => (self, [])
  | (now, r) :: calls =>
      let s := connection self now r in
      let '(self', ss) := run (after s) calls in
      (self', s :: ss)
  end.

(** The successful probes made during a run, with the time recorded for
    each: the pairs [(srv, t)] for which [_connect] completed. *)
Fixpoint probes (self : t) (calls : list (Q * remote)) : list (PlexServer * Q) :=
  match calls with
  | [] => []
  | (now, r) :: calls =>
      let here :=
        if stale self now
        then match r with Probed srv t => [(srv, t)] | _ => [] end
        else [] in
      here ++ probes (after (connection self now r)) calls
  end.

(** The stored handle, when there is one, is a handle whose probe succeeded,
    stored with the time recorded for that probe. *)
Definition stored_is_probed (self : t) (log : list (PlexServer * Q)) : Prop :=
  forall srv, _connection self = Some srv ->
    In (srv, _last_connection_time self) log.

(** The exception a remote behaviour makes establishment fail with. *)
Definition failure (r : remote) : option exn :=
  match r with
  | ConstructorRaises e | ProbeRaises _ e => Some e
  | Probed _ _ => None
  end.

End Client.

Arguments t : clear implicits.
Arguments remote : clear implicits.
Arguments step : clear implicits.

End PlexClient.

(** ** common.py and tools/tools.py *)

Module Tools.

(** A tool handed to the registry: the bound method [self.<name>] of a tools
    class.  [__name__] is the name under which it is registered. *)
Record AnyFunction := method {
  __self__ : string;
  __name__ : string;
}.

#[global] Instance AnyFunction_eq_dec : EqDecision AnyFunction.
Proof. solve_decision. Defined.

Section FastMCP.

(** Modelled from the spec: the dispatch surface
    [mcp = FastMCP("plex", warn_on_duplicate_tools=False)] of common.py is
    an object of the external [mcp] package.  It is a table of tools keyed
    by name, and [add_tool] on a name already present does not raise.
    Which of the two tools the table holds afterwards is decided inside
    that package; it is the parameter [on_duplicate] (existing tool, new
    tool). *)
Variable on_duplicate : AnyFunction -> AnyFunction -> AnyFunction.

Definition add_tool (mcp : gmap string AnyFunction) (fn : AnyFunction)
    : gmap string AnyFunction :=
  match mcp !! __name__ fn with
  | None => <[__name__ fn := fn]> mcp
  | Some existing => <[__name__ fn := on_duplicate existing fn]> mcp
  end.

(** Instance attributes of [PlexMcpTools]. *)
Record PlexMcpTools {PlexServer : Type} := mk {
  _plex_url : string;
  _plex_token : string;
  _plex_client : PlexClient.t PlexServer;
  _permissions : PermissionsType;
}.

(** [PlexMcpTools.__init__]: the new object, and the dispatch surface after
    [for tool in tools: mcp.add_tool(tool)]. *)
Definition __init__ {PlexServer : Type} (plex_url plex_token : string)
    (permissions : PermissionsType) (tools : list AnyFunction)
    (mcp : gmap string AnyFunction)
    : @PlexMcpTools PlexServer * gmap string AnyFunction :=
  ({| _plex_url := plex_url;
      _plex_token := plex_token;
      _plex_client := PlexClient.__init__ plex_url plex_token;
      _permissions := permissions |},
   foldl add_tool mcp tools).

End FastMCP.

Arguments PlexMcpTools : clear implicits.

(** The order [read < write < delete] of the trust tiers. *)
Definition tier_rank (p : PermissionsType) : nat :=
  match p with READ => 0 | WRITE => 1 | DELETE => 2 end.

Definition tier_le (required configured : PermissionsType) : bool :=
  bool_decide (tier_rank required <= tier_rank configured)%nat.

(** [permissions in [PermissionsType.WRITE, PermissionsType.DELETE]] *)
Definition in_write_delete (permissions : PermissionsType) : bool :=
  match permissions with WRITE | DELETE => true | READ => false end.

(** [permissions == PermissionsType.DELETE] *)
Definition is_delete (permissions : PermissionsType) : bool :=
  match permissions with DELETE => true | _ => false end.

End Tools.

(** ** tools/media_tools.py: the tools registered by [PlexMediaTools] *)

Module PlexMediaToolsInit.
Import Tools.

Definition self_ (name : string) : AnyFunction := method "PlexMediaTools" name.

(** The three blocks of [PlexMediaTools.__init__]. *)
Definition read_block : list AnyFunction :=
  [self_ "media_search"; self_ "media_get_details"; self_ "media_get_artwork";
   self_ "media_list_available_artwork"].
Definition write_block : list AnyFunction :=
  [self_ "media_edit_metadata"; self_ "media_set_artwork"].
Definition delete_block : list AnyFunction :=
  [self_ "media_delete"].

Definition tools (permissions : PermissionsType) : list AnyFunction :=
  let tools := read_block in
  let tools := if in_write_delete permissions then tools ++ write_block else tools in
  let tools := if is_delete permissions then tools ++ delete_block else tools in
  tools.

Definition __init__ {PlexServer : Type} on_duplicate
    (plex_url plex_token : string) (permissions : PermissionsType)
    (mcp : gmap string AnyFunction)
    : PlexMcpTools PlexServer * gmap string AnyFunction :=
  Tools.__init__ on_duplicate plex_url plex_token permissions (tools permissions) mcp.

End PlexMediaToolsInit.

(** ** tools/playlist_tools.py: the tools registered by [PlexPlaylistTools] *)

Module PlexPlaylistToolsInit.
Import Tools.

Definition self_ (name : string) : AnyFunction := method "PlexPlaylistTools" name.

Definition read_block : list AnyFunction :=
  [self_ "playlist_list"; self_ "playlist_get_contents"].
Definition write_block : list AnyFunction :=
  [self_ "playlist_create"; self_ "playlist_edit"; self_ "playlist_upload_poster";
   self_ "playlist_copy_to_user"; self_ "playlist_add_to"].
Definition delete_block : list AnyFunction :=
  [self_ "playlist_delete"; self_ "playlist_remove_from"].

Definition tools (permissions : PermissionsType) : list AnyFunction :=
  let tools := read_block in
  let tools := if in_write_delete permissions then tools ++ write_block else tools in
  let tools := if is_delete permissions then tools ++ delete_block else tools in
  tools.

Definition __init__ {PlexServer : Type} on_duplicate
    (plex_url plex_token : string) (permissions : PermissionsType)
    (mcp : gmap string AnyFunction)
    : PlexMcpTools PlexServer * gmap string AnyFunction :=
  Tools.__init__ on_duplicate plex_url plex_token permissions (tools permissions) mcp.

End PlexPlaylistToolsInit.

(** ** The remote interfaces the tools call *)

Module Requests.

(** A [requests.Response], as far as the tools read it. *)
Record Response := {
  raise_for_status : result unit;
  json : result val;
  content : string;
  (** [response.headers.get(name)] *)
  headers : string -> option string;
}.

End Requests.

Module Plex.

(** A [plexapi] library section: [library.search(title=...)] and
    [library.playlists(playlistType=...)]. *)
Record LibrarySection := {
  section_search : option string -> result (list obj);
  section_playlists : option string -> result (list obj);
}.

(** A [plexapi.server.PlexServer], as far as the tools call it:
    [plex.fetchItem(id)], [plex.library.section(name)], [plex.search(title)]
    and [plex.playlists(playlistType=...)]. *)
Record PlexServer := {
  fetchItem : Z -> result obj;
  library_section : string -> result LibrarySection;
  search : option string -> result (list obj);
  playlists : option string -> result (list obj);
}.

End Plex.

(** ** tools/media_tools.py: [media_search] *)

Module MediaSearch.
Import Tools.

(** The results grouped by type: a dictionary whose keys are the [type]
    members met, in order of first insertion. *)
Definition groups := list (val * list val).

Definition group_mem (k : val) (m : groups) : bool :=
  existsb (fun kv => key_eqb (fst kv) k) m.

Fixpoint group_get (k : val) (m : groups) : list val :=
  match m with
  | [] => []
  | (k', items) :: m => if key_eqb k' k then items else group_get k m
  end.

(** [m[k] = items] *)
Fixpoint group_set (k : val) (items : list val) (m : groups) : groups :=
  match m with
  | [] => [(k, items)]
  | (k', items') :: m =>
      if key_eqb k' k then (k', items) :: m else (k', items') :: group_set k items m
  end.

Definition content_type_map : list (string * string) :=
  [("movie", "movies"); ("show", "tv"); ("episode", "tv");
   ("track", "music"); ("album", "music"); ("artist", "music")].

Definition in_content_type_map (content_type : string) : bool :=
  bool_decide (is_Some (lookup_key content_type content_type_map)).

(** [if content_type:] on the [Optional[str]] argument. *)
Definition given (content_type : option string) : bool := truthy (opt_str content_type).

(** Lines 57-87: the query parameters. *)
Definition params (plex_token query : string) (content_type : option string)
    : list (string * val) :=
  let params :=
    [("query", VStr query); ("X-Plex-Token", VStr plex_token); ("limit", VInt 100);
     ("includeCollections", VInt 1); ("includeExternalMedia", VInt 1)] in
  match content_type with
  | Some ct =>
      if given content_type then
        if str_in "," ct then set_key "searchTypes" (VStr ct) params
        else
          match lookup_key ct content_type_map with
          | Some search_types =>
              set_key "type" (VStr ct) (set_key "searchTypes" (VStr search_types) params)
          | None => set_key "type" (VStr ct) params
          end
      else params
  | None => params
  end.

(** Lines 126-130: the guard
    [content_type and "," not in content_type and content_type not in content_type_map]. *)
Definition unmapped_guard (content_type : option string) : bool :=
  match content_type with
  | Some ct => given content_type && negb (str_in "," ct) && negb (in_content_type_map ct)
  | None => false
  end.

(** Lines 136-140: the guard
    [content_type and content_type in content_type_map and "," not in content_type]. *)
Definition mapped_guard (content_type : option string) : bool :=
  match content_type with
  | Some ct => given content_type && in_content_type_map ct && negb (str_in "," ct)
  | None => false
  end.

(** Lines 126-142: whether the two filters let an item of type [item_type]
    through ([false]: the loop [continue]s). *)
Definition passes_filters (content_type : option string) (item_type : val) : bool :=
  let ct := default "" content_type in
  if unmapped_guard content_type && negb (eq_str item_type ct) then false
  else if mapped_guard content_type && negb (eq_str item_type ct) then false
  else true.

Definition is_one_of (item_type : val) (names : list string) : bool :=
  existsb (eq_str item_type) names.

(** Lines 148-193: the fields taken from the item by type. *)
Definition formatted (item : list (string * val)) (item_type : val)
    : list (string * val) :=
  let formatted_item :=
    [("title", get item "title" (VStr "Unknown"));
     ("type", item_type);
     ("rating_key", get item "ratingKey" VNone)] in
  if eq_str item_type "movie" then
    update formatted_item
      [("year", get item "year" VNone); ("rating", get item "rating" VNone);
       ("summary", get item "summary" VNone)]
  else if eq_str item_type "show" then
    update formatted_item
      [("year", get item "year" VNone); ("summary", get item "summary" VNone)]
  else if eq_str item_type "season" then
    update formatted_item
      [("show_title", get item "parentTitle" (VStr "Unknown Show"));
       ("season_number", get item "index" VNone)]
  else if eq_str item_type "episode" then
    update formatted_item
      [("show_title", get item "grandparentTitle" (VStr "Unknown Show"));
       ("season_number", get item "parentIndex" VNone);
       ("episode_number", get item "index" VNone)]
  else if eq_str item_type "track" then
    update formatted_item
      [("artist", get item "grandparentTitle" (VStr "Unknown Artist"));
       ("album", get item "parentTitle" (VStr "Unknown Album"));
       ("track_number", get item "index" VNone);
       ("duration", get item "duration" VNone);
       ("library", get item "librarySectionTitle" VNone)]
  else if eq_str item_type "album" then
    update formatted_item
      [("artist", get item "parentTitle" (VStr "Unknown Artist"));
       ("year", get item "parentYear" VNone);
       ("library", get item "librarySectionTitle" VNone)]
  else if eq_str item_type "artist" then
    update formatted_item
      [("art", get item "art" VNone); ("thumb", get item "thumb" VNone);
       ("library", get item "librarySectionTitle" VNone)]
  else formatted_item.

(** Lines 196-212: media info. *)
Definition with_media_info (item : list (string * val)) (item_type : val)
    (formatted_item : list (string * val)) : list (string * val) :=
  match lookup_key "Media" item with
  | None => formatted_item
  | Some media =>
      let media_info :=
        match media with
        | VList (first :: _) => first
        | _ => media
        end in
      match media_info with
      | VDict media_info =>
          if is_one_of item_type ["movie"; "show"; "episode"] then
            update formatted_item
              [("resolution", get media_info "videoResolution" VNone);
               ("container", get media_info "container" VNone);
               ("codec", get media_info "videoCodec" VNone)]
          else if is_one_of item_type ["track"] then
            update formatted_item
              [("audio_codec", get media_info "audioCodec" VNone);
               ("bitrate", get media_info "bitrate" VNone);
               ("container", get media_info "container" VNone)]
          else formatted_item
      | _ => formatted_item
      end
  end.

(** [if key in item: formatted_item[field] = item.get(key)] *)
Definition copy_if_present (item : list (string * val)) (key field : string)
    (formatted_item : list (string * val)) : list (string * val) :=
  match lookup_key key item with
  | Some v => set_key field v formatted_item
  | None => formatted_item
  end.

(** Lines 215-223: thumbnail and artwork info of tracks. *)
Definition with_thumbs (item : list (string * val)) (item_type : val)
    (formatted_item : list (string * val)) : list (string * val) :=
  if eq_str item_type "track" then
    copy_if_present item "art" "art"
      (copy_if_present item "grandparentThumb" "artist_thumb"
         (copy_if_present item "parentThumb" "album_thumb"
            (copy_if_present item "thumb" "thumb" formatted_item)))
  else formatted_item.

(** Lines 117-226: the body of the loop over the search results. *)
Definition search_result_step (content_type : option string)
    (state : groups * Z) (search_result : val) : result (groups * Z) :=
  let '(results_by_type, total_count) := state in
  (has_metadata <- contains_key "Metadata" search_result ;;
   if negb has_metadata then Ok state
   else
     item <- getitem search_result "Metadata" ;;
     item_type <- dict_get item "type" (VStr "unknown") ;;
     match item with
     | VDict item =>
         if negb (passes_filters content_type item_type) then Ok state
         else if negb (hashable item_type) then Raise (unhashable item_type)
         else
           let results_by_type :=
             if negb (group_mem item_type results_by_type)
             then group_set item_type [] results_by_type
             else results_by_type in
           let formatted_item :=
             with_thumbs item item_type
               (with_media_info item item_type (formatted item item_type)) in
           Ok (group_set item_type
                 (group_get item_type results_by_type ++ [VDict formatted_item])
                 results_by_type,
               (total_count + 1)%Z)
     | _ => Raise (attribute_error item "get")
     end)%py.

Definition type_order : list string :=
  ["track"; "album"; "artist"; "movie"; "show"; "season"; "episode"].

(** Lines 238-246: the groups in display order. *)
Definition ordered (results_by_type : groups) : groups :=
  let ordered_results :=
    foldl (fun ordered_results type_name =>
             if group_mem (VStr type_name) results_by_type
             then group_set (VStr type_name)
                    (group_get (VStr type_name) results_by_type) ordered_results
             else ordered_results)
          [] type_order in
  foldl (fun ordered_results type_name =>
           if negb (group_mem type_name ordered_results)
           then group_set type_name (group_get type_name results_by_type) ordered_results
           else ordered_results)
        ordered_results (fst <$> results_by_type).

Section Search.

(** [urllib.parse.urlencode] *)
Variable urlencode : list (string * val) -> string.

(** [requests.get(url, headers=headers, timeout=10)] *)
Variable requests_get : string -> list (string * string) -> result Requests.Response.

Definition search_body (plex_url plex_token query : string)
    (content_type : option string) : result json_text :=
  (let params := params plex_token query content_type in
   let headers := [("Accept", "application/json")] in
   let search_url := plex_url +:+ "/library/search?" +:+ urlencode params in
   response <- requests_get search_url headers ;;
   _ <- Requests.raise_for_status response ;;
   data <- Requests.json response ;;
   has_container <- contains_key "MediaContainer" data ;;
   no_results <-
     (if negb has_container then Ok true
      else
        container <- dict_get data "MediaContainer" (VDict []) ;;
        has_results <- contains_key "SearchResult" container ;;
        Ok (negb has_results)) ;;
   if (no_results : bool) then
     json_dumps
       (VDict [("status", VStr "success");
               ("message", VStr ("No results found for '" +:+ query +:+ "'."));
               ("count", VInt 0);
               ("results", VList [])])
   else
     container <- getitem data "MediaContainer" ;;
     search_results <- getitem container "SearchResult" ;;
     search_results <- iter search_results ;;
     state <- for_each search_results ([], 0%Z) (search_result_step content_type) ;;
     let '(results_by_type, total_count) := state in
     let ordered_results := ordered results_by_type in
     json_dumps
       (VDict [("status", VStr "success");
               ("message",
                VStr ("Found " +:+ pretty total_count +:+ " results for '"
                        +:+ query +:+ "'"));
               ("query", VStr query);
               ("content_type", opt_str content_type);
               ("total_count", VInt total_count);
               ("results_by_type",
                VDict ((fun kv => (json_key (fst kv), VList (snd kv)))
                         <$> ordered_results))]))%py.

(** [PlexMediaTools.media_search] *)
Definition media_search {PlexServer} (self : PlexMcpTools PlexServer)
    (query : string) (content_type : option string) : result json_text :=
  try_except
    (search_body (Tools._plex_url self) (Tools._plex_token self) query content_type)
    (fun e =>
       json_dumps
         (VDict [("status", VStr "error");
                 ("message", VStr ("Error searching for media: " +:+ str_exn e))])).

End Search.

End MediaSearch.

(** ** tools/media_tools.py: looking a media item up *)

Module MediaLookup.
Import Tools.

(** [except NotFound] *)
Definition is_NotFound (e : exn) : bool :=
  match exn_cls e with NotFound => true | _ => false end.

Definition error (message : string) : result json_text :=
  json_dumps (VDict [("status", VStr "error"); ("message", VStr message)]).

(** [if not media_id and not media_title:] *)
Definition no_identifier (media_title : option string) (media_id : option Z) : bool :=
  negb (truthy (opt_int media_id)) && negb (truthy (opt_str media_title)).

(** The search by title shared by [media_get_details], [media_get_artwork]
    and [media_list_available_artwork]:
[[
  if library_name:
      try:
          library = plex.library.section(library_name)
          results = library.search(title=media_title)
      except NotFound:
          return json.dumps({"status": "error",
                             "message": f"Library '{library_name}' not found"})
  else:
      results = plex.search(media_title)
]]
    [k] is the code that follows, run on [results]. *)
Definition search_by_title (plex : Plex.PlexServer)
    (media_title library_name : option string)
    (k : list obj -> result json_text) : result json_text :=
  if truthy (opt_str library_name) then
    match (library <- Plex.library_section plex (default "" library_name) ;;
           Plex.section_search library media_title)%py with
    | Ok results => k results
    | Raise e =>
        if is_NotFound e
        then error ("Library '" +:+ default "" library_name +:+ "' not found")
        else Raise e
    end
  else
    (results <- Plex.search plex media_title ;; k results)%py.

(** The entities the title matches: [results], when the search returns. *)
Definition title_matches (plex : Plex.PlexServer)
    (media_title library_name : option string) : result (list obj) :=
  if truthy (opt_str library_name) then
    (library <- Plex.library_section plex (default "" library_name) ;;
     Plex.section_search library media_title)%py
  else Plex.search plex media_title.

(** [if not results:] and its [return]. *)
Definition no_media_found (media_title : option string) : result json_text :=
  error ("No media found matching '" +:+ format_opt media_title +:+ "'").

(** The lookup by identifier:
[[
  try:
      media = plex.fetchItem(media_id)
  except Exception:
      return json.dumps({"status": "error",
                         "message": f"Media with ID '{media_id}' not found"})
]] *)
Definition fetch_by_id (plex : Plex.PlexServer) (media_id : Z)
    (k : obj -> result json_text) : result json_text :=
  match Plex.fetchItem plex media_id with
  | Ok media => k media
  | Raise _ => error ("Media with ID '" +:+ pretty media_id +:+ "' not found")
  end.

(** [self._plex_client.connection]: the tools object after the property has
    been evaluated, and what the evaluation gave. *)
Definition acquire (self : PlexMcpTools Plex.PlexServer) (now : Q)
    (r : PlexClient.remote Plex.PlexServer)
    : PlexMcpTools Plex.PlexServer * result Plex.PlexServer :=
  let s := PlexClient.connection (Tools._plex_client self) now r in
  ({| Tools._plex_url := Tools._plex_url self;
      Tools._plex_token := Tools._plex_token self;
      Tools._plex_client := PlexClient.after s;
      Tools._permissions := Tools._permissions self |},
   PlexClient.outcome s).

End MediaLookup.

(** ** tools/media_tools.py: [media_get_details] *)

Module MediaDetails.
Import Tools MediaLookup.

(** Lines 329-352: the summary of one candidate; [i] counts from 1. *)
Definition candidate (i : nat) (item : obj) : val :=
  let item := of_obj item in
  let media_type := getattr item "type" (VStr "unknown") in
  let title := getattr item "title" (VStr "Unknown") in
  let year := getattr item "year" (VStr "") in
  let media_info :=
    [("index", VInt (Z.of_nat i)); ("title", title); ("type", media_type);
     ("rating_key", getattr item "ratingKey" VNone)] in
  let media_info := if truthy year then set_key "year" year media_info else media_info in
  let media_info :=
    if eq_str media_type "episode" then
      let show := getattr item "grandparentTitle" (VStr "Unknown Show") in
      let season := getattr item "parentIndex" (VStr "?") in
      let episode := getattr item "index" (VStr "?") in
      update media_info [("show", show); ("season", season); ("episode", episode)]
    else media_info in
  VDict media_info.

(** [for i, item in enumerate(results[:10], 1)] *)
Definition candidates (results : list obj) : list val :=
  imap (fun i item => candidate (S i) item) (take 10 results).

(** Lines 327-362. *)
Definition multiple_results (media_title : option string) (results : list obj)
    : result json_text :=
  let media_list := candidates results in
  json_dumps
    (VDict [("status", VStr "multiple_results");
            ("message",
             VStr ("Multiple items found matching '"
                     +:+ format_opt media_title
                     +:+ "'. Please specify a media_id or use a more specific title."));
            ("count", VInt (Z.of_nat (length results)));
            ("results", VList media_list)]).

Section Details.

(** Python's rendering of lists and dictionaries by [str]. *)
Variable repr : val -> string.

(** [[x.tag for x in getattr(media, name, [])]] *)
Definition tags (media : val) (name : string) : result val :=
  (l <- iter (getattr media name (VList [])) ;;
   l <- comprehension (fun x => attr x "tag") l ;;
   Ok (VList l))%py.

(** [[{"name": a.tag, "role": getattr(a, "role", "")}
      for a in getattr(media, "roles", [])[:10]]] *)
Definition actors (media : val) : result val :=
  (roles <- slice_to 10 (getattr media "roles" (VList [])) ;;
   l <- iter roles ;;
   l <- comprehension
          (fun a => name <- attr a "tag" ;;
                    Ok (VDict [("name", name); ("role", getattr a "role" (VStr ""))]))
          l ;;
   Ok (VList l))%py.

(** Lines 385-467: the fields added by type. *)
Definition type_details (media : val) (media_type : val)
    (details : list (string * val)) : result (list (string * val)) :=
  (if eq_str media_type "movie" then
     directors <- tags media "directors" ;;
     writers <- tags media "writers" ;;
     actors <- actors media ;;
     genres <- tags media "genres" ;;
     countries <- tags media "countries" ;;
     Ok (update details
           [("content_rating", getattr media "contentRating" (VStr ""));
            ("rating", getattr media "rating" VNone);
            ("studio", getattr media "studio" (VStr ""));
            ("tagline", getattr media "tagline" (VStr ""));
            ("directors", directors); ("writers", writers); ("actors", actors);
            ("genres", genres); ("countries", countries)])
   else if eq_str media_type "show" then
     genres <- tags media "genres" ;;
     actors <- actors media ;;
     Ok (update details
           [("content_rating", getattr media "contentRating" (VStr ""));
            ("rating", getattr media "rating" VNone);
            ("studio", getattr media "studio" (VStr ""));
            ("season_count", getattr media "childCount" (VInt 0));
            ("episode_count", getattr media "leafCount" (VInt 0));
            ("viewed_episode_count", getattr media "viewedLeafCount" (VInt 0));
            ("genres", genres); ("actors", actors)])
   else if eq_str media_type "episode" then
     directors <- tags media "directors" ;;
     writers <- tags media "writers" ;;
     Ok (update details
           [("show_title", getattr media "grandparentTitle" (VStr "Unknown Show"));
            ("season_title", getattr media "parentTitle" (VStr "Unknown Season"));
            ("season_number", getattr media "parentIndex" VNone);
            ("episode_number", getattr media "index" VNone);
            ("content_rating", getattr media "contentRating" (VStr ""));
            ("rating", getattr media "rating" VNone);
            ("directors", directors); ("writers", writers)])
   else if eq_str media_type "track" then
     Ok (update details
           [("artist", getattr media "grandparentTitle" (VStr "Unknown Artist"));
            ("album", getattr media "parentTitle" (VStr "Unknown Album"));
            ("track_number", getattr media "index" VNone);
            ("disc_number", getattr media "parentIndex" VNone);
            ("skip_count", getattr media "skipCount" (VInt 0));
            ("play_count", getattr media "viewCount" (VInt 0))])
   else if eq_str media_type "album" then
     genres <- tags media "genres" ;;
     Ok (update details
           [("artist", getattr media "parentTitle" (VStr "Unknown Artist"));
            ("track_count", getattr media "leafCount" (VInt 0));
            ("genres", genres)])
   else if eq_str media_type "artist" then
     genres <- tags media "genres" ;;
     similar <- tags media "similar" ;;
     Ok (update details
           [("album_count", getattr media "childCount" (VInt 0));
            ("track_count", getattr media "leafCount" (VInt 0));
            ("genres", genres); ("similar_artists", similar)])
   else Ok details)%py.

(** Lines 518-524. *)
Definition part_info (part : val) : val :=
  VDict [("id", getattr part "id" VNone);
         ("file", getattr part "file" (VStr ""));
         ("size", getattr part "size" VNone);
         ("duration", getattr part "duration" VNone);
         ("container", getattr part "container" (VStr ""))].

(** [hasattr(v, name) and v.name] as a condition. *)
Definition has_truthy (v : val) (name : string) : bool :=
  hasattr v name && truthy (getattr v name VNone).

(** Lines 473-528: the description of one media file. *)
Definition file_info (media_type : val) (media_item : val) : result val :=
  (let media_info :=
     [("id", getattr media_item "id" VNone);
      ("duration", getattr media_item "duration" VNone);
      ("bitrate", getattr media_item "bitrate" VNone);
      ("container", getattr media_item "container" (VStr ""));
      ("size", getattr media_item "size" VNone)] in
   let media_info :=
     if MediaSearch.is_one_of media_type ["movie"; "show"; "episode"] then
       update media_info
         [("video_codec", getattr media_item "videoCodec" (VStr ""));
          ("video_resolution", getattr media_item "videoResolution" (VStr ""));
          ("video_frame_rate", getattr media_item "videoFrameRate" (VStr ""));
          ("aspect_ratio", getattr media_item "aspectRatio" VNone);
          ("audio_codec", getattr media_item "audioCodec" (VStr ""));
          ("audio_channels", getattr media_item "audioChannels" VNone)]
     else if eq_str media_type "track" then
       update media_info
         [("audio_codec", getattr media_item "audioCodec" (VStr ""));
          ("audio_channels", getattr media_item "audioChannels" VNone);
          ("sample_rate", getattr media_item "audioSampleRate" VNone)]
     else media_info in
   if has_truthy media_item "parts" then
     parts <- iter (getattr media_item "parts" VNone) ;;
     Ok (VDict (set_key "parts" (VList (part_info <$> parts)) media_info))
   else Ok (VDict media_info))%py.

(** Lines 366-532: the details of the item found. *)
Definition details_of (media : obj) : result json_text :=
  (let media := of_obj media in
   let details :=
     [("title", getattr media "title" (VStr "Unknown"));
      ("type", getattr media "type" (VStr "unknown"));
      ("rating_key", getattr media "ratingKey" VNone);
      ("summary", getattr media "summary" (VStr ""));
      ("year", getattr media "year" VNone);
      ("added_at", VStr (str repr (getattr media "addedAt" (VStr ""))));
      ("updated_at", VStr (str repr (getattr media "updatedAt" (VStr ""))));
      ("duration", getattr media "duration" VNone);
      ("view_count", getattr media "viewCount" (VInt 0));
      ("last_viewed_at",
       if truthy (getattr media "lastViewedAt" VNone)
       then VStr (str repr (getattr media "lastViewedAt" (VStr "")))
       else VNone)] in
   let media_type := getattr media "type" (VStr "unknown") in
   details <- type_details media media_type details ;;
   details <-
     (if has_truthy media "media" then
        media_items <- iter (getattr media "media" VNone) ;;
        media_files <- comprehension (file_info media_type) media_items ;;
        Ok (set_key "media_files" (VList media_files) details)
      else Ok details) ;;
   json_dumps (VDict [("status", VStr "success"); ("details", VDict details)]))%py.

(** Lines 278-532: the [try] suite, once the connection has been asked
    for. *)
Definition details_body (connection : result Plex.PlexServer)
    (media_title : option string) (media_id : option Z)
    (library_name : option string) : result json_text :=
  (plex <- connection ;;
   if no_identifier media_title media_id then
     error "Either media_id or media_title must be provided"
   else if truthy (opt_int media_id) then
     fetch_by_id plex (default 0%Z media_id) details_of
   else
     search_by_title plex media_title library_name (fun results =>
       match results with
       | [] => no_media_found media_title
       | media :: others =>
           if (1 <? length results)%nat
           then multiple_results media_title results
           else details_of media
       end))%py.

(** [PlexMediaTools.media_get_details].  [now] and [r] are the clock
    reading and the remote behaviour met by [self._plex_client.connection]. *)
Definition media_get_details (self : PlexMcpTools Plex.PlexServer)
    (now : Q) (r : PlexClient.remote Plex.PlexServer)
    (media_title : option string) (media_id : option Z)
    (library_name : option string)
    : PlexMcpTools Plex.PlexServer * result json_text :=
  let '(self, connection) := acquire self now r in
  (self,
   try_except
     (details_body connection media_title media_id library_name)
     (fun e =>
        json_dumps
          (VDict [("status", VStr "error");
                  ("message", VStr ("Error getting media details: " +:+ str_exn e))]))).

End Details.

End MediaDetails.

(** ** tools/media_tools.py: [media_get_artwork] and
    [media_list_available_artwork] *)

Module MediaArtwork.
Import Tools MediaLookup.

(** [art_type not in ["poster", "art", "background"]] *)
Definition valid_art_type (art_type : string) : bool :=
  bool_decide (art_type ∈ ["poster"; "art"; "background"]).

(** Lines 848-854 and 1268-1274: more than one match of the title. *)
Definition multiple_items (media_title : option string) : result json_text :=
  error ("Multiple items found matching '" +:+ format_opt media_title
           +:+ "'. Please use media_id for specific selection.").

(** Lines 811-856 and 1231-1276: the media item the tool works on; [k] is the
    code that follows, run on [media]. *)
Definition find_media (plex : Plex.PlexServer)
    (media_title : option string) (media_id : option Z)
    (library_name : option string)
    (k : obj -> result json_text) : result json_text :=
  if truthy (opt_int media_id) then
    fetch_by_id plex (default 0%Z media_id) k
  else
    search_by_title plex media_title library_name (fun results =>
      match results with
      | [] => no_media_found media_title
      | media :: others =>
          if (1 <? length results)%nat
          then multiple_items media_title
          else k media
      end).

Section Artwork.

Variable repr : val -> string.

(** [c.isalnum()] on one character. *)
Variable isalnum : ascii -> bool.

(** [base64.b64encode(data).decode("utf-8")] *)
Variable b64encode : string -> string.

(** [requests.get(url)] *)
Variable requests_get : string -> result Requests.Response.

(** [with open(path, "wb") as f: f.write(data)] *)
Variable write_file : string -> string -> result unit.

(** [s.isalnum()] *)
Definition str_isalnum (s : string) : bool :=
  negb (String.eqb s "") && forallb isalnum (String.list_ascii_of_string s).

(** Lines 894-896:
    ["".join(c for c in media.title if c.isalnum() or c in (" ", "-", "_")).strip()] *)
Definition safe_title (title : val) : result string :=
  (cs <- iter title ;;
   kept <- comprehension
             (fun c =>
                match c with
                | VStr c =>
                    Ok (if str_isalnum c || bool_decide (c ∈ [" "; "-"; "_"])
                        then c else "")
                | _ => Raise (attribute_error c "isalnum")
                end)
             cs ;;
   Ok (strip (join "" kept)))%py.

Definition media_title_attr (media : obj) : result val := attr (of_obj media) "title".

(** Lines 858-934: the artwork of the item found. *)
Definition artwork_of (plex_url plex_token art_type : string)
    (save_to_file : bool) (output_path : option string) (media : obj)
    : result json_text :=
  (let artwork_url :=
     if String.eqb art_type "poster" then getattr (of_obj media) "thumb" VNone
     else if bool_decide (art_type ∈ ["art"; "background"])
          then getattr (of_obj media) "art" VNone
          else VNone in
   if negb (truthy artwork_url) then
     error ("No " +:+ art_type +:+ " artwork available for this media item")
   else
     let full_url :=
       plex_url +:+ str repr artwork_url +:+ "?X-Plex-Token=" +:+ plex_token in
     if save_to_file then
       response <- requests_get full_url ;;
       _ <- Requests.raise_for_status response ;;
       let content_type := default "" (Requests.headers response "content-type") in
       let ext :=
         if str_in "jpeg" content_type || str_in "jpg" content_type then ".jpg"
         else if str_in "png" content_type then ".png"
         else ".jpg" in
       output_path <-
         (if negb (truthy (opt_str output_path)) then
            title <- media_title_attr media ;;
            safe_title <- safe_title title ;;
            Ok (safe_title +:+ "_" +:+ art_type +:+ ext)
          else Ok (default "" output_path)) ;;
       _ <- write_file output_path (Requests.content response) ;;
       title <- media_title_attr media ;;
       json_dumps
         (VDict [("status", VStr "success");
                 ("message", VStr ("Artwork saved to '" +:+ output_path +:+ "'"));
                 ("title", title);
                 ("art_type", VStr art_type);
                 ("file_path", VStr output_path);
                 ("file_size",
                  VInt (Z.of_nat (String.length (Requests.content response))))])
     else
       response <- requests_get full_url ;;
       _ <- Requests.raise_for_status response ;;
       let image_data := b64encode (Requests.content response) in
       let content_type :=
         default "image/jpeg" (Requests.headers response "content-type") in
       title <- media_title_attr media ;;
       json_dumps
         (VDict [("status", VStr "success");
                 ("title", title);
                 ("art_type", VStr art_type);
                 ("content_type", VStr content_type);
                 ("size", VInt (Z.of_nat (String.length (Requests.content response))));
                 ("data", VStr image_data);
                 ("url", VStr full_url)]))%py.

(** Lines 791-934: the [try] suite of [media_get_artwork]. *)
Definition artwork_body (plex_url plex_token : string)
    (connection : result Plex.PlexServer)
    (media_title : option string) (media_id : option Z)
    (library_name : option string) (art_type : string)
    (save_to_file : bool) (output_path : option string) : result json_text :=
  (plex <- connection ;;
   if no_identifier media_title media_id then
     error "Either media_id or media_title must be provided"
   else if negb (valid_art_type art_type) then
     error "art_type must be 'poster', 'art', or 'background'"
   else
     find_media plex media_title media_id library_name
       (artwork_of plex_url plex_token art_type save_to_file output_path))%py.

(** [PlexMediaTools.media_get_artwork] *)
Definition media_get_artwork (self : PlexMcpTools Plex.PlexServer)
    (now : Q) (r : PlexClient.remote Plex.PlexServer)
    (media_title : option string) (media_id : option Z)
    (library_name : option string) (art_type : string)
    (save_to_file : bool) (output_path : option string)
    : PlexMcpTools Plex.PlexServer * result json_text :=
  let '(self', connection) := acquire self now r in
  (self',
   try_except
     (artwork_body (Tools._plex_url self) (Tools._plex_token self) connection
        media_title media_id library_name art_type save_to_file output_path)
     (fun e =>
        json_dumps
          (VDict [("status", VStr "error");
                  ("message", VStr ("Error getting media artwork: " +:+ str_exn e))]))).

(** [getattr(media, name, lambda: [])()] *)
Definition call_or_empty (media : obj) (name : string) : result val :=
  default (Ok (VList [])) (lookup_key name (obj_methods media)).

(** Lines 1290-1301: the description of one artwork. *)
Definition artwork_info (plex_url plex_token : string) (artwork : val) : val :=
  let artwork_info :=
    [("key", getattr artwork "key" (VStr ""));
     ("ratingKey", getattr artwork "ratingKey" (VStr ""));
     ("selected", getattr artwork "selected" (VBool false));
     ("provider", getattr artwork "provider" (VStr "unknown"))] in
  VDict
    (if hasattr artwork "thumb" then
       set_key "thumb_url"
         (VStr (plex_url +:+ str repr (getattr artwork "thumb" VNone)
                  +:+ "?X-Plex-Token=" +:+ plex_token))
         artwork_info
     else artwork_info).

(** Lines 1278-1315: the artwork available for the item found. *)
Definition available_of (plex_url plex_token art_type : string) (media : obj)
    : result json_text :=
  (artwork_items <-
     (if String.eqb art_type "poster" then call_or_empty media "posters"
      else if bool_decide (art_type ∈ ["art"; "background"])
           then call_or_empty media "arts"
           else Ok (VList [])) ;;
   artwork_items <- iter artwork_items ;;
   let available_artwork := artwork_info plex_url plex_token <$> artwork_items in
   json_dumps
     (VDict [("status", VStr "success");
             ("title", getattr (of_obj media) "title" (VStr "Unknown"));
             ("type", getattr (of_obj media) "type" (VStr "unknown"));
             ("art_type", VStr art_type);
             ("available_count", VInt (Z.of_nat (length available_artwork)));
             ("available_artwork", VList available_artwork)]))%py.

(** Lines 1211-1315: the [try] suite of [media_list_available_artwork]. *)
Definition available_body (plex_url plex_token : string)
    (connection : result Plex.PlexServer)
    (media_title : option string) (media_id : option Z)
    (library_name : option string) (art_type : string) : result json_text :=
  (plex <- connection ;;
   if no_identifier media_title media_id then
     error "Either media_id or media_title must be provided"
   else if negb (valid_art_type art_type) then
     error "art_type must be 'poster', 'art', or 'background'"
   else
     find_media plex media_title media_id library_name
       (available_of plex_url plex_token art_type))%py.

(** [PlexMediaTools.media_list_available_artwork] *)
Definition media_list_available_artwork (self : PlexMcpTools Plex.PlexServer)
    (now : Q) (r : PlexClient.remote Plex.PlexServer)
    (media_title : option string) (media_id : option Z)
    (library_name : option string) (art_type : string)
    : PlexMcpTools Plex.PlexServer * result json_text :=
  let '(self', connection) := acquire self now r in
  (self',
   try_except
     (available_body (Tools._plex_url self) (Tools._plex_token self) connection
        media_title media_id library_name art_type)
     (fun e =>
        json_dumps
          (VDict [("status", VStr "error");
                  ("message",
                   VStr ("Error listing available artwork: " +:+ str_exn e))]))).

End Artwork.

End MediaArtwork.

(** ** tools/playlist_tools.py: [playlist_list] *)

Module PlaylistList.
Import Tools MediaLookup.

Definition valid_types : list string := ["audio"; "video"; "photo"].

(** [{"error": message}] *)
Definition error_only (message : string) : result json_text :=
  json_dumps (VDict [("error", VStr message)]).

(** [playlist.name if hasattr(playlist, name) else dflt] *)
Definition attr_or (playlist : val) (name : string) (dflt : val) : val :=
  if hasattr playlist name then getattr playlist name dflt else dflt.

(** Lines 91-117: the entry of one playlist. *)
Definition playlist_entry (playlist : obj) : val :=
  let playlist := of_obj playlist in
  match
    (title <- attr playlist "title" ;;
     key <- attr playlist "key" ;;
     ratingKey <- attr playlist "ratingKey" ;;
     playlistType <- attr playlist "playlistType" ;;
     Ok (VDict [("title", title); ("key", key); ("ratingKey", ratingKey);
                ("type", playlistType);
                ("summary", attr_or playlist "summary" (VStr ""));
                ("duration", attr_or playlist "duration" VNone);
                ("item_count", attr_or playlist "leafCount" VNone)]))%py
  with
  | Ok entry => entry
  | Raise item_error =>
      VDict [("title", getattr playlist "title" (VStr "Unknown"));
             ("key", getattr playlist "key" (VStr "Unknown"));
             ("error", VStr (str_exn item_error))]
  end.

(** The argument [playlistType=content_type.lower()], absent when
    [content_type] is not given. *)
Definition playlist_type (content_type : option string) : option string :=
  if truthy (opt_str content_type) then lower <$> content_type else None.

(** Lines 57-119: the [try] suite. *)
Definition list_body (connection : result Plex.PlexServer)
    (library_name content_type : option string) : result json_text :=
  (plex <- connection ;;
   if truthy (opt_str content_type)
      && negb (bool_decide (lower (default "" content_type) ∈ valid_types))
   then
     error_only ("Invalid content type. Valid types are: " +:+ join ", " valid_types)
   else
     playlists <- Plex.playlists plex (playlist_type content_type) ;;
     let rest (playlists : list obj) : result json_text :=
       json_dumps (VList (playlist_entry <$> playlists)) in
     if truthy (opt_str library_name) then
       match (library <- Plex.library_section plex (default "" library_name) ;;
              Plex.section_playlists library (playlist_type content_type))%py with
       | Ok playlists => rest playlists
       | Raise e =>
           if is_NotFound e
           then error_only ("Library '" +:+ default "" library_name +:+ "' not found")
           else Raise e
       end
     else rest playlists)%py.

(** [PlexPlaylistTools.playlist_list] *)
Definition playlist_list (self : PlexMcpTools Plex.PlexServer)
    (now : Q) (r : PlexClient.remote Plex.PlexServer)
    (library_name content_type : option string)
    : PlexMcpTools Plex.PlexServer * result json_text :=
  let '(self, connection) := acquire self now r in
  (self,
   try_except
     (list_body connection library_name content_type)
     (fun e => error_only (str_exn e))).

End PlaylistList.

(** ** The modules under [tools/] and the tier each block stands for *)

Module Registry.
Import Tools.

Inductive tools_module := Media | Playlist.

Definition tools_of (m : tools_module) (permissions : PermissionsType)
    : list AnyFunction :=
  match m with
  | Media => PlexMediaToolsInit.tools permissions
  | Playlist => PlexPlaylistToolsInit.tools permissions
  end.

(** The operations a module declares, each with the tier of the block of
    [__init__] that lists it: the first list is [read], the list guarded by
    [permissions in [WRITE, DELETE]] is [write], the one guarded by
    [permissions == DELETE] is [delete]. *)
Definition block (m : tools_module) (tier : PermissionsType) : list AnyFunction :=
  match m, tier with
  | Media, READ => PlexMediaToolsInit.read_block
  | Media, WRITE => PlexMediaToolsInit.write_block
  | Media, DELETE => PlexMediaToolsInit.delete_block
  | Playlist, READ => PlexPlaylistToolsInit.read_block
  | Playlist, WRITE => PlexPlaylistToolsInit.write_block
  | Playlist, DELETE => PlexPlaylistToolsInit.delete_block
  end.

Definition names (fns : list AnyFunction) : gset string :=
  list_to_set (__name__ <$> fns).

(** The dispatch surface after constructing module [m] at tier [permissions]
    on the surface [mcp]. *)
Definition construct on_duplicate (m : tools_module)
    (plex_url plex_token : string) (permissions : PermissionsType)
    (mcp : gmap string AnyFunction) : gmap string AnyFunction :=
  match m with
  | Media =>
      snd (PlexMediaToolsInit.__init__ (PlexServer:=unit)
             on_duplicate plex_url plex_token permissions mcp)
  | Playlist =>
      snd (PlexPlaylistToolsInit.__init__ (PlexServer:=unit)
             on_duplicate plex_url plex_token permissions mcp)
  end.

End Registry.

(** ** The JSON envelope *)

Module Envelope.

Definition field (name : string) (doc : val) : option val :=
  match doc with
  | VDict d => lookup_key name d
  | _ => None
  end.

Definition is_object (doc : val) : bool :=
  match doc with VDict _ => true | _ => false end.

Definition is_array (doc : val) : bool :=
  match doc with VList _ => true | _ => false end.

Definition is_string (v : option val) : bool :=
  match v with Some (VStr _) => true | _ => false end.

(** An object with a [status] discriminator, which carries a [message]
    string when the status is ["error"]. *)
Definition well_formed (doc : val) : bool :=
  is_object doc &&
  match field "status" doc with
  | Some (VStr status) =>
      if String.eqb status "error" then is_string (field "message" doc)
      else bool_decide (status ∈ ["success"; "multiple_results"])
  | _ => false
  end.

(** The envelope the media tools answer an exception with. *)
Definition failure (context : string) (e : exn) : val :=
  VDict [("status", VStr "error"); ("message", VStr (context +:+ str_exn e))].

(** What [playlist_list] answers: an array of entries, or an object whose
    only member is [error]. *)
Definition listing (doc : val) : Prop :=
  is_array doc = true \/ exists message, doc = VDict [("error", VStr message)].

Definition is_boolean (v : option val) : bool :=
  match v with Some (VBool _) => true | _ => false end.

Definition has_status (status : string) (doc : val) : bool :=
  match field "status" doc with
  | Some (VStr s) => String.eqb s status
  | _ => false
  end.

(** [media_edit_metadata]: a well-formed envelope, or an object with
    [status = "no_changes"] and a [message] string. *)
Definition edit_answer (doc : val) : bool :=
  well_formed doc
  || (is_object doc && has_status "no_changes" doc && is_string (field "message" doc)).

(** What the playlist tools other than [playlist_create] report an error
    with: an object with an [error] string and neither [status] nor
    [message]. *)
Definition error_object (doc : val) : bool :=
  is_object doc && is_string (field "error" doc)
  && bool_decide (field "status" doc = None)
  && bool_decide (field "message" doc = None).

(** [playlist_upload_poster], [playlist_copy_to_user], [playlist_add_to],
    [playlist_remove_from] and [playlist_delete]: an error object, or an
    object with [status = "success"] and a [message] string. *)
Definition change_answer (doc : val) : bool :=
  error_object doc
  || (is_object doc && has_status "success" doc && is_string (field "message" doc)).

(** [playlist_edit]: an error object, an array (the playlists of that
    title, when there are several), or an object with a boolean [updated]
    and no [status]. *)
Definition playlist_edit_answer (doc : val) : bool :=
  error_object doc
  || is_array doc
  || (is_object doc && is_boolean (field "updated" doc)
      && bool_decide (field "status" doc = None)).

(** [playlist_get_contents]: an error object, or an object with an [items]
    array and no [status]. *)
Definition contents_answer (doc : val) : bool :=
  error_object doc
  || (is_object doc
      && match field "items" doc with Some (VList _) => true | _ => false end
      && bool_decide (field "status" doc = None)).

(** The object the playlist tools other than [playlist_create] answer an
    exception of their suite with. *)
Definition error_of (e : exn) : val := VDict [("error", VStr (str_exn e))].

(** An answer that is a document satisfying [P]: nothing is raised. *)
Definition always (P : val -> Prop) (answer : result val) : Prop :=
  exists doc, answer = Ok doc /\ P doc.

(** An exception [e] of the [try] suite is answered with [handler e]. *)
Definition handles (suite : result val) (handler : exn -> val) (answer : result val)
    : Prop :=
  forall e, suite = Raise e -> answer = Ok (handler e).

(** A suite that returns a document satisfying [P] whenever it returns. *)
Definition returns (P : val -> Prop) (suite : result val) : Prop :=
  match suite with
  | Ok doc => P doc
  | Raise _ => True
  end.

(** A suite that returns a well-formed envelope whenever it returns. *)
Abbreviation enveloped := (returns (fun doc => well_formed doc = true)).

(** The documents that are well-formed envelopes, and those that are error
    objects. *)
Abbreviation well_formed_doc := (fun doc : val => well_formed doc = true).
Abbreviation error_doc := (fun doc : val => error_object doc = true).

(** A title-based lookup: no identifier, a non-empty title. *)
Definition by_title (media_title : option string) (media_id : option Z) : bool :=
  negb (truthy (opt_int media_id)) && truthy (opt_str media_title).



(** The attributes the summary of a candidate reads. *)
Definition candidate_attrs : list string :=
  ["type"; "title"; "year"; "ratingKey"; "grandparentTitle"; "parentIndex"; "index"].

(** The attributes of [item] that a summary reads are JSON data. *)
Definition plain (item : obj) : bool :=
  forallb
    (fun name =>
       bool_decide (not_serializable (getattr (of_obj item) name VNone) = None))
    candidate_attrs.

End Envelope.

(** ** __main__.py: the start-up banner *)

Module Main.

(** [s * n]: [n] copies of [s], none when [n] is negative. *)
Definition str_mul (s : string) (n : Z) : string :=
  Nat.iter (Z.to_nat n) (String.append s) "".

Definition len (s : string) : Z := Z.of_nat (String.length s).

(** Line 78: [plex_token[:4] + '*' * (len(plex_token) - 4)]. *)
Definition masked (plex_token : string) : string :=
  String.substring 0 4 plex_token +:+ str_mul "*" (len plex_token - 4).

(** Lines 77-79: the line that announces the connection. *)
Definition connecting (plex_url plex_token : string) : string :=
  "Connecting to Plex at " +:+ plex_url +:+ " with token " +:+ masked plex_token.

End Main.

(** ** The shape of grouped search results *)

Module SearchShape.
Import MediaSearch.

(** The keys of the groups are hashable and pairwise different, as the keys
    of a dictionary are. *)
Fixpoint distinct_keys (g : groups) : bool :=
  match g with
  | [] => true
  | (k, _) :: g' => hashable k && negb (group_mem k g') && distinct_keys g'
  end.

(** The number of results held by the groups. *)
Definition entries (g : groups) : nat := sum_list_with (fun kv => length (snd kv)) g.

(** The number of results listed under [results_by_type] in a document. *)
Definition listed (results_by_type : list (string * val)) : nat :=
  sum_list_with
    (fun kv => match snd kv with VList items => length items | _ => 0%nat end)
    results_by_type.

(** The groups of the types named in [type_order], in that order. *)
Definition known_first (g : groups) : groups :=
  omap (fun type_name =>
          if group_mem (VStr type_name) g
          then Some (VStr type_name, group_get (VStr type_name) g)
          else None)
       type_order.

(** The groups of the other types, in the order of [g]. *)
Definition others (g : groups) : groups :=
  filter (fun kv => is_one_of (fst kv) type_order = false) g.

(** A listed result carries the type [type_name]. *)
Definition has_type (type_name : string) (item : val) : Prop :=
  Envelope.field "type" item = Some (VStr type_name).

End SearchShape.

(** ** The characters of a generated file name *)

Module ArtworkName.
Import Stdlib.Strings.Ascii.

(** [c.isalnum() or c in (" ", "-", "_")], on one character. *)
Definition allowed (isalnum : ascii -> bool) (c : ascii) : bool :=
  isalnum c || bool_decide (c ∈ [" "; "-"; "_"]%char).

(** No white space at either end. *)
Definition trimmed (l : list ascii) : Prop :=
  (forall c, head l = Some c -> is_space c = false) /\
  (forall c, last l = Some c -> is_space c = false).

(** Lines 860-863 of media_tools.py: the attribute of the item that holds
    the path of its artwork. *)
Definition artwork_url (art_type : string) (media : obj) : val :=
  if String.eqb art_type "poster" then getattr (of_obj media) "thumb" VNone
  else if bool_decide (art_type ∈ ["art"; "background"])
       then getattr (of_obj media) "art" VNone
       else VNone.

(** Lines 883-890: the file extension for a [content-type] header. *)
Definition extension (content_type : string) : string :=
  if str_in "jpeg" content_type || str_in "jpg" content_type then ".jpg"
  else if str_in "png" content_type then ".png"
  else ".jpg".

(** [media] is the item a lookup works on: the one [fetchItem] returns for
    the identifier, or else the only match of the title. *)
Definition found (plex : Plex.PlexServer)
    (media_title : option string) (media_id : option Z)
    (library_name : option string) (media : obj) : Prop :=
  if truthy (opt_int media_id)
  then Plex.fetchItem plex (default 0%Z media_id) = Ok media
  else MediaLookup.title_matches plex media_title library_name = Ok [media].

End ArtworkName.

(** ** The playlists [playlist_list] lists *)

Module PlaylistShape.
Import PlaylistList.

(** Lines 60-86 of playlist_tools.py: the playlists the loop runs over, when
    the calls return. *)
Definition listed_playlists (plex : Plex.PlexServer)
    (library_name content_type : option string) : result (list obj) :=
  (playlists <- Plex.playlists plex (playlist_type content_type) ;;
   if truthy (opt_str library_name) then
     library <- Plex.library_section plex (default "" library_name) ;;
     Plex.section_playlists library (playlist_type content_type)
   else Ok playlists)%py.

(** The attributes an entry reads without a guard. *)
Definition complete (playlist : obj) : bool :=
  forallb (hasattr (of_obj playlist)) ["title"; "key"; "ratingKey"; "playlistType"].

(** The attributes an entry reads are JSON data. *)
Definition plain_attrs (playlist : obj) : Prop :=
  Forall (fun name => not_serializable (getattr (of_obj playlist) name VNone) = None)
    ["title"; "key"; "ratingKey"; "playlistType"; "summary"; "duration"; "leafCount"].

End PlaylistShape.

(** ** Calls that change the library *)

Module Effects.

(** Where an uploaded image comes from: [filepath=...] or [url=...]. *)
Inductive source :=
  | FromFile (filepath : string)
  | FromUrl (url : string).

(** The calls by which the tools change the library:
    - [media.delete()] and [playlist.delete()];
    - [media.uploadPoster(filepath=...)] or [(url=...)], and the same for
      [media.uploadArt];
    - [media.edit] called with the keyword arguments [edit_params],
      [playlist.edit(title=...)] and [playlist.edit(summary=...)];
    - [media.addGenre(x)], [media.removeGenre(x)], [media.addLabel(x)] and
      [media.removeLabel(x)], with the tag or list of tags passed;
    - [plex.createPlaylist(title=..., items=..., summary=...)];
    - [playlist.uploadPoster(poster_data)];
    - [playlist.copyToUser(target_user)];
    - [playlist.addItems(items)] and [playlist.removeItems(items)]. *)
Inductive call :=
  | Delete (media : obj)
  | UploadPoster (media : obj) (src : source)
  | UploadArt (media : obj) (src : source)
  | Edit (receiver : obj) (params : list (string * val))
  | AddGenre (media : obj) (genres : val)
  | RemoveGenre (media : obj) (genres : val)
  | AddLabel (media : obj) (labels : val)
  | RemoveLabel (media : obj) (labels : val)
  | CreatePlaylist (title : string) (items : list obj) (summary : option string)
  | UploadPosterData (playlist : obj) (poster_data : option string)
  | CopyToUser (playlist : obj) (target_user : val)
  | AddItems (playlist : obj) (items : list obj)
  | RemoveItems (playlist : obj) (items : list val).

(** A suite that may raise, with the calls it has made, in order. *)
Definition eff (A : Type) : Type := list call * result A.

(** A suite that makes no call. *)
Definition pure {A} (r : result A) : eff A := ([], r).

Definition bind {A B} (m : eff A) (k : A -> eff B) : eff B :=
  match m with
  | (made, Ok a) => let '(more, b) := k a in (made ++ more, b)
  | (made, Raise e) => (made, Raise e)
  end.

(** One call; [outcome] is what the server makes of it. *)
Definition invoke (outcome : call -> result val) (c : call) : eff val :=
  ([c], outcome c).

(** [try: body  except Exception as e: return handler]: the calls made
    before the exception stay made. *)
Definition try_except {A} (body : eff A) (handler : exn -> result A) : eff A :=
  (fst body, Py.try_except (snd body) handler).

(** A suite that may [return] a text before its end. *)
Inductive early (A : Type) :=
  | Continue (a : A)
  | Return (text : json_text).
Arguments Continue {A} a.
Arguments Return {A} text.

(** [return json.dumps(...)] *)
Definition answer {A} (text : result json_text) : result (early A) :=
  Py.bind text (fun text => Ok (Return text)).

(** A call on an object that the code goes on to read: [leaves c] is the
    receiver as the call [c] leaves it when it returns (the same Python
    object, with the attributes it then has). *)
Definition perform (outcome : call -> result val) (leaves : call -> obj) (c : call)
    : eff obj :=
  bind (invoke outcome c) (fun _ => pure (Ok (leaves c))).

(** The rest of a suite, run when the part before it has not returned. *)
Definition and_then {A B} (m : eff (early A)) (k : A -> eff (early B))
    : eff (early B) :=
  bind m (fun x =>
            match x with
            | Return text => pure (Ok (Return text))
            | Continue a => k a
            end).

(** The end of a suite: the text of its [return]. *)
Definition finish (m : eff (early json_text)) : eff json_text :=
  bind m (fun x => pure (Ok match x with Return text | Continue text => text end)).

(** A step that makes no call and returns nothing early. *)
Definition step {A} (r : result A) : eff (early A) :=
  pure (Py.bind r (fun a => Ok (Continue a))).

(** A step that makes calls and returns nothing early. *)
Definition act {A} (m : eff A) : eff (early A) :=
  bind m (fun a => pure (Ok (Continue a))).

(** [return] of the text a suite yields. *)
Definition returned {A} (m : eff json_text) : eff (early A) :=
  bind m (fun text => pure (Ok (Return text))).

(** [try: body  except Exception as e: return handler], for a body that
    makes no call and may go on. *)
Definition try_return {A} (body : result (early A)) (handler : exn -> result json_text)
    : result (early A) :=
  match body with
  | Ok x => Ok x
  | Raise e => answer (handler e)
  end.

(** What a suite with early returns yields: a text satisfying [P] when it
    returns one, a value satisfying [Q] when it goes on. *)
Definition yields {A} (P : json_text -> Prop) (Q : A -> Prop) (m : result (early A))
    : Prop :=
  match m with
  | Ok (Return text) => P text
  | Ok (Continue a) => Q a
  | Raise _ => True
  end.

End Effects.

Declare Scope eff_scope.
Delimit Scope eff_scope with eff.
Notation "x <- m ;; k" := (Effects.bind m (fun x => k))
  (at level 100, m at next level, right associativity) : eff_scope.

(** Suites with early returns: [x <-- m ;; k] runs [k] when [m] has not
    returned. *)
Declare Scope early_scope.
Delimit Scope early_scope with early.
Notation "x <-- m ;; k" := (Effects.and_then m (fun x => k))
  (at level 100, m at next level, right associativity) : early_scope.

(** ** tools/media_tools.py: the lookup of [media_edit_metadata], [media_delete] and [media_set_artwork] *)

Module MediaChange.
Import Tools MediaLookup Effects.

(** Lines 609-624, 1006-1021 and 1118-1133: the summary of one candidate;
    [i] counts from 1. *)
Definition candidate (i : nat) (item : obj) : val :=
  let item := of_obj item in
  let media_type := getattr item "type" (VStr "unknown") in
  let title := getattr item "title" (VStr "Unknown") in
  let year := getattr item "year" (VStr "") in
  let media_info :=
    [("index", VInt (Z.of_nat i)); ("title", title); ("type", media_type);
     ("rating_key", getattr item "ratingKey" VNone)] in
  VDict (if truthy year then set_key "year" year media_info else media_info).

(** [for i, item in enumerate(results[:10], 1)] *)
Definition candidates (results : list obj) : list val :=
  imap (fun i item => candidate (S i) item) (take 10 results).

(** Lines 606-634, 1003-1031 and 1115-1143; [advice] is the end of the
    message: ["Please be more specific or use media_id."] in
    [media_edit_metadata] and [media_delete], ["Please be more specific."]
    in [media_set_artwork]. *)
Definition multiple_results (media_title : option string) (advice : string)
    (results : list obj) : result json_text :=
  let media_list := candidates results in
  json_dumps
    (VDict [("status", VStr "multiple_results");
            ("message",
             VStr ("Multiple items found matching '" +:+ format_opt media_title
                     +:+ "'. " +:+ advice));
            ("count", VInt (Z.of_nat (length results)));
            ("results", VList media_list)]).

(** Lines 598-636, 995-1033 and 1107-1145:
[[
  if not results:
      return json.dumps({"status": "error", "message": f"No media found matching '{media_title}'"})
  if len(results) > 1:
      ...
      return json.dumps({"status": "multiple_results", ...}, indent=2)
  media = results[0]
]] *)
Definition single (media_title : option string) (advice : string)
    (results : list obj) : result (early obj) :=
  match results with
  | [] => answer (no_media_found media_title)
  | media :: others =>
      if (1 <? length results)%nat
      then answer (multiple_results media_title advice results)
      else Ok (Continue media)
  end.

(** Lines 584-636, 981-1033 and 1093-1145: the search by title, then
    [single] on its results. *)
Definition search (plex : Plex.PlexServer)
    (media_title library_name : option string) (advice : string)
    : result (early obj) :=
  if truthy (opt_str library_name) then
    match (library <- Plex.library_section plex (default "" library_name) ;;
           Plex.section_search library media_title)%py with
    | Ok results => single media_title advice results
    | Raise e =>
        if is_NotFound e
        then answer (error ("Library '" +:+ default "" library_name +:+ "' not found"))
        else Raise e
    end
  else
    (results <- Plex.search plex media_title ;;
     single media_title advice results)%py.

End MediaChange.

(** ** tools/media_tools.py: [media_delete] *)

Module MediaDelete.
Import Tools MediaLookup Effects MediaChange.

(** Lines 958-1033: the item to delete, or what the tool returns instead. *)
Definition find_media (plex : Plex.PlexServer)
    (media_title : option string) (media_id : option Z)
    (library_name : option string) : result (early obj) :=
  if no_identifier media_title media_id then
    answer (error "Either media_id or media_title must be provided")
  else if truthy (opt_int media_id) then
    match Plex.fetchItem plex (default 0%Z media_id) with
    | Ok media => Ok (Continue media)
    | Raise _ =>
        answer (error ("Media with ID '" +:+ pretty (default 0%Z media_id)
                         +:+ "' not found"))
    end
  else
    search plex media_title library_name "Please be more specific or use media_id.".

Section Delete.

Variable repr : val -> string.

(** What the server makes of a call. *)
Variable outcome : call -> result val.

(** Lines 955-1049: the [try] suite of [media_delete]. *)
Definition delete_body (connection : result Plex.PlexServer)
    (media_title : option string) (media_id : option Z)
    (library_name : option string) : eff json_text :=
  (plex <- pure connection ;;
   found <- pure (find_media plex media_title media_id library_name) ;;
   match found with
   | Return text => pure (Ok text)
   | Continue media =>
       let media_title_for_response :=
         getattr (of_obj media) "title" (VStr "Unknown") in
       let media_type := getattr (of_obj media) "type" (VStr "unknown") in
       _ <- invoke outcome (Delete media) ;;
       pure
         (json_dumps
            (VDict [("status", VStr "success");
                    ("message",
                     VStr ("Successfully deleted '"
                             +:+ str repr media_title_for_response
                             +:+ "' (" +:+ str repr media_type +:+ ")"));
                    ("deleted_title", media_title_for_response);
                    ("deleted_type", media_type)]))
   end)%eff.

(** [PlexMediaTools.media_delete]: the tools object afterwards, the calls
    made on the library and the text returned. *)
Definition media_delete (self : PlexMcpTools Plex.PlexServer)
    (now : Q) (r : PlexClient.remote Plex.PlexServer)
    (media_title : option string) (media_id : option Z)
    (library_name : option string)
    : PlexMcpTools Plex.PlexServer * eff json_text :=
  let '(self, connection) := acquire self now r in
  (self,
   try_except
     (delete_body connection media_title media_id library_name)
     (fun e =>
        json_dumps
          (VDict [("status", VStr "error");
                  ("message", VStr ("Error deleting media: " +:+ str_exn e))]))).

End Delete.

End MediaDelete.

(** ** tools/media_tools.py: [media_set_artwork] *)

Module MediaSetArtwork.
Import Tools MediaLookup Effects MediaChange.

(** Lines 1079-1084:
    [not poster_path and not poster_url and not background_path and not background_url] *)
Definition no_source (poster_path poster_url background_path background_url
                      : option string) : bool :=
  negb (truthy (opt_str poster_path)) && negb (truthy (opt_str poster_url))
  && negb (truthy (opt_str background_path))
  && negb (truthy (opt_str background_url)).

Section SetArtwork.

Variable repr : val -> string.

(** [os.path.exists(path)] *)
Variable path_exists : string -> bool.

(** What the server makes of a call. *)
Variable outcome : call -> result val.

(** Lines 1149-1162 and 1165-1178: one of the two images.  [upload] is
    [media.uploadPoster] or [media.uploadArt], [what] names the image in
    [changes] and [label] in the message. *)
Definition set_image (upload : source -> call) (what label : string)
    (path url : option string) (changes : list string)
    : eff (early (list string)) :=
  (if truthy (opt_str path) then
     if path_exists (default "" path) then
       _ <- invoke outcome (upload (FromFile (default "" path))) ;;
       pure (Ok (Continue (changes ++ [what +:+ " (from file)"])))
     else
       pure (answer (error (label +:+ " file not found: " +:+ default "" path)))
   else if truthy (opt_str url) then
     _ <- invoke outcome (upload (FromUrl (default "" url))) ;;
     pure (Ok (Continue (changes ++ [what +:+ " (from URL)"])))
   else pure (Ok (Continue changes)))%eff.

(** Lines 1076-1188: the [try] suite of [media_set_artwork]. *)
Definition set_artwork_body (connection : result Plex.PlexServer)
    (media_title : string) (library_name : option string)
    (poster_path poster_url background_path background_url : option string)
    : eff json_text :=
  (plex <- pure connection ;;
   if no_source poster_path poster_url background_path background_url then
     pure (error "At least one artwork source must be provided (poster_path, poster_url, background_path, or background_url)")
   else
     found <- pure (search plex (Some media_title) library_name
                      "Please be more specific.") ;;
     match found with
     | Return text => pure (Ok text)
     | Continue media =>
         poster <- set_image (UploadPoster media) "poster" "Poster"
                     poster_path poster_url [] ;;
         match poster with
         | Return text => pure (Ok text)
         | Continue changes =>
             background <- set_image (UploadArt media) "background art" "Background"
                             background_path background_url changes ;;
             match background with
             | Return text => pure (Ok text)
             | Continue changes =>
                 pure
                   (title <- MediaArtwork.media_title_attr media ;;
                    json_dumps
                      (VDict [("status", VStr "success");
                              ("message",
                               VStr ("Successfully updated artwork for '"
                                       +:+ str repr title +:+ "'"));
                              ("changes", VList (VStr <$> changes));
                              ("title", title);
                              ("type",
                               getattr (of_obj media) "type" (VStr "unknown"))]))%py
             end
         end
     end)%eff.

(** [PlexMediaTools.media_set_artwork]: the tools object afterwards, the
    calls made on the library and the text returned. *)
Definition media_set_artwork (self : PlexMcpTools Plex.PlexServer)
    (now : Q) (r : PlexClient.remote Plex.PlexServer)
    (media_title : string) (library_name : option string)
    (poster_path poster_url background_path background_url : option string)
    : PlexMcpTools Plex.PlexServer * eff json_text :=
  let '(self, connection) := acquire self now r in
  (self,
   try_except
     (set_artwork_body connection media_title library_name
        poster_path poster_url background_path background_url)
     (fun e =>
        json_dumps
          (VDict [("status", VStr "error");
                  ("message",
                   VStr ("Error setting media artwork: " +:+ str_exn e))]))).

End SetArtwork.

End MediaSetArtwork.

(** ** tools/playlist_tools.py: [playlist_delete] *)

Module PlaylistDelete.
Import Tools MediaLookup Effects PlaylistList.

(** [v == n] for an integer [n]. *)
Definition eq_int (v : val) (n : Z) : bool :=
  match v with
  | VInt m => (m =? n)%Z
  | VBool b => ((if b then 1 else 0) =? n)%Z
  | _ => false
  end.

(** [next((p for p in all_playlists if p.ratingKey == playlist_id), None)] *)
Fixpoint next_with_key (all_playlists : list obj) (playlist_id : Z)
    : result (option obj) :=
  match all_playlists with
  | [] => Ok None
  | p :: rest =>
      (ratingKey <- attr (of_obj p) "ratingKey" ;;
       if eq_int ratingKey playlist_id then Ok (Some p)
       else next_with_key rest playlist_id)%py
  end.

Section Lower.

(** [s.lower()] on a string: Python's [str.lower], which knows all of
    Unicode. *)
Variable str_lower : string -> string.

(** [v.lower()] *)
Definition lower_of (v : val) : result string :=
  match v with
  | VStr s => Ok (str_lower s)
  | _ => Raise (attribute_error v "lower")
  end.

(** [[p for p in playlists if p.title.lower() == playlist_title.lower()]] *)
Fixpoint matching (playlists : list obj) (playlist_title : string)
    : result (list obj) :=
  match playlists with
  | [] => Ok []
  | p :: rest =>
      (title <- attr (of_obj p) "title" ;;
       title <- lower_of title ;;
       let same := String.eqb title (str_lower playlist_title) in
       rest <- matching rest playlist_title ;;
       Ok (if same then p :: rest else rest))%py
  end.

(** [p.title.lower() == playlist_title.lower()], for a playlist whose title
    is a string. *)
Definition same_title (playlist_title : string) (p : obj) : bool :=
  match lookup_key "title" (obj_attrs p) with
  | Some (VStr title) => String.eqb (str_lower title) (str_lower playlist_title)
  | _ => false
  end.

End Lower.

(** [len(v)] *)
Definition len_of (v : val) : result val :=
  match v with
  | VList l => Ok (VInt (Z.of_nat (length l)))
  | VDict d => Ok (VInt (Z.of_nat (length d)))
  | VStr s => Ok (VInt (Z.of_nat (String.length s)))
  | _ => Raise (type_error ("object of type '" +:+ type_name v +:+ "' has no len()"))
  end.

(** [p.name()] for a method without argument. *)
Definition call_method (p : obj) (name : string) : result val :=
  match lookup_key name (obj_methods p) with
  | Some outcome => outcome
  | None => Raise (attribute_error (of_obj p) name)
  end.

(** Lines 945-954: the entry of one of several matches. *)
Definition match_entry (p : obj) : result val :=
  (title <- attr (of_obj p) "title" ;;
   id <- attr (of_obj p) "ratingKey" ;;
   type <- attr (of_obj p) "playlistType" ;;
   item_count <-
     (if hasattr (of_obj p) "leafCount" then attr (of_obj p) "leafCount"
      else items <- call_method p "items" ;; len_of items) ;;
   Ok (VDict [("title", title); ("id", id); ("type", type);
              ("item_count", item_count)]))%py.

Section Delete.

Variable repr : val -> string.

(** [s.lower()] *)
Variable str_lower : string -> string.

(** [bool(playlist)] for a playlist object. *)
Variable truth : obj -> bool.

(** What the server makes of a call. *)
Variable outcome : call -> result val.

(** Lines 907-927: the playlist with identifier [playlist_id]. *)
Definition find_by_id (plex : Plex.PlexServer) (playlist_id : Z)
    : result (early obj) :=
  match
    (playlist <-
       match Plex.fetchItem plex playlist_id with
       | Ok playlist => Ok (Some playlist)
       | Raise _ =>
           all_playlists <- Plex.playlists plex None ;;
           next_with_key all_playlists playlist_id
       end ;;
     match playlist with
     | Some playlist =>
         if truth playlist then Ok (Continue playlist)
         else answer (error_only ("Playlist with ID '" +:+ pretty playlist_id
                                    +:+ "' not found"))
     | None =>
         answer (error_only ("Playlist with ID '" +:+ pretty playlist_id
                               +:+ "' not found"))
     end)%py
  with
  | Ok found => Ok found
  | Raise e => answer (error_only ("Error fetching playlist by ID: " +:+ str_exn e))
  end.

(** Lines 930-964: the playlist with title [playlist_title]. *)
Definition find_by_title (plex : Plex.PlexServer) (playlist_title : option string)
    : result (early obj) :=
  (playlists <- Plex.playlists plex None ;;
   matching_playlists <- matching str_lower playlists (default "" playlist_title) ;;
   match matching_playlists with
   | [] =>
       answer (error_only ("No playlist found with title '"
                             +:+ format_opt playlist_title +:+ "'"))
   | playlist :: others =>
       if (1 <? length matching_playlists)%nat then
         matches <- comprehension match_entry matching_playlists ;;
         answer
           (json_dumps
              (VDict [("error",
                       VStr "Multiple playlists found with that title. Please use playlist_id instead.");
                      ("matches", VList matches)]))
       else Ok (Continue playlist)
   end)%py.

(** Lines 896-964: the playlist to delete, or what the tool returns
    instead. *)
Definition find_playlist (plex : Plex.PlexServer)
    (playlist_title : option string) (playlist_id : option Z)
    : result (early obj) :=
  if no_identifier playlist_title playlist_id then
    answer (error_only "Either playlist_id or playlist_title must be provided")
  else if truthy (opt_int playlist_id) then
    find_by_id plex (default 0%Z playlist_id)
  else find_by_title plex playlist_title.

(** Lines 893-982: the outer [try] suite of [playlist_delete]. *)
Definition delete_body (connection : result Plex.PlexServer)
    (playlist_title : option string) (playlist_id : option Z) : eff json_text :=
  (plex <- pure connection ;;
   found <- pure (find_playlist plex playlist_title playlist_id) ;;
   match found with
   | Return text => pure (Ok text)
   | Continue playlist =>
       playlist_title_for_message <- pure (attr (of_obj playlist) "title") ;;
       try_except
         (_ <- invoke outcome (Delete playlist) ;;
          pure
            (json_dumps
               (VDict [("status", VStr "success");
                       ("message",
                        VStr ("Playlist '" +:+ str repr playlist_title_for_message
                                +:+ "' deleted successfully"))])))
         (fun e => error_only ("Error deleting playlist: " +:+ str_exn e))
   end)%eff.

(** [PlexPlaylistTools.playlist_delete]: the tools object afterwards, the
    calls made on the library and the text returned. *)
Definition playlist_delete (self : PlexMcpTools Plex.PlexServer)
    (now : Q) (r : PlexClient.remote Plex.PlexServer)
    (playlist_title : option string) (playlist_id : option Z)
    : PlexMcpTools Plex.PlexServer * eff json_text :=
  let '(self, connection) := acquire self now r in
  (self,
   try_except
     (delete_body connection playlist_title playlist_id)
     (fun e => error_only (str_exn e))).

End Delete.

(** What [playlist_delete] answers: an object with an [error] string, or
    with [status = "success"]. *)
Definition answered (doc : val) : Prop :=
  Envelope.is_string (Envelope.field "error" doc) = true \/
  Envelope.field "status" doc = Some (VStr "success").

End PlaylistDelete.

(** ** tools/media_tools.py: [media_edit_metadata] *)

Module MediaEdit.
Import Tools MediaLookup Effects MediaChange.

(** [tag in current] and [tag not in current], for a string and a list. *)
Definition tag_in (tag : string) (current : list val) : bool :=
  existsb (fun v => eq_str v tag) current.

(** [edit_params] and [changes]. *)
Definition edits : Type := (list (string * val) * list string)%type.

(** [edit_params[key] = v] and [changes.append(change)]. *)
Definition edit (st : edits) (key : string) (v : val) (change : string) : edits :=
  (set_key key v (fst st), snd st ++ [change]).

(** Lines 642-644:
[[
  if new_title is not None and new_title != media.title:
      edit_params["title"] = new_title
      changes.append(f"title to '{new_title}'")
]] *)
Definition edit_title (media : obj) (new_title : option string) (st : edits)
    : result edits :=
  match new_title with
  | Some new_title =>
      (title <- attr (of_obj media) "title" ;;
       Ok (if negb (eq_str title new_title)
           then edit st "title" (VStr new_title) ("title to '" +:+ new_title +:+ "'")
           else st))%py
  | None => Ok st
  end.

(** Lines 646-650, 664-668, 670-674, 676-680, 682-686 and 688-692: a string
    attribute [name], compared with [getattr(media, name, "")] and sent as
    [key]. *)
Definition edit_str (media : obj) (new : option string) (name key : string)
    (change : string -> string) (st : edits) : edits :=
  match new with
  | Some new =>
      let current := getattr (of_obj media) name (VStr "") in
      if negb (eq_str current new) then edit st key (VStr new) (change new) else st
  | None => st
  end.

(** Lines 652-656: [new_year], compared with [getattr(media, "year", None)]. *)
Definition edit_year (media : obj) (new_year : option Z) (st : edits) : edits :=
  match new_year with
  | Some new_year =>
      let current_year := getattr (of_obj media) "year" VNone in
      if negb (PlaylistDelete.eq_int current_year new_year)
      then edit st "year" (VInt new_year) ("year to " +:+ pretty new_year)
      else st
  | None => st
  end.

Section Edit.

Variable repr : val -> string.

(** Python floats ([new_rating]): [str(x)] and [x == v]. *)
Variable float : Type.
Variable float_str : float -> string.
Variable float_eq : float -> val -> bool.

(** What the server makes of a call, and the receiver as the call leaves
    it. *)
Variable outcome : call -> result val.
Variable leaves : call -> obj.

(** A float as a value: an object of class [float]. *)
Definition of_float (x : float) : val := VObj "float" (float_str x) [].

(** Lines 658-662: [new_rating], compared with
    [getattr(media, "rating", None)]. *)
Definition edit_rating (media : obj) (new_rating : option float) (st : edits)
    : edits :=
  match new_rating with
  | Some new_rating =>
      let current_rating := getattr (of_obj media) "rating" VNone in
      if negb (float_eq new_rating current_rating)
      then edit st "rating" (of_float new_rating)
             ("rating to " +:+ float_str new_rating)
      else st
  | None => st
  end.

(** Lines 637-692: [edit_params] and [changes] after the basic
    attributes. *)
Definition basic_edits (media : obj)
    (new_title new_summary : option string) (new_year : option Z)
    (new_rating : option float)
    (new_content_rating new_studio new_tagline new_sort_title new_original_title
       : option string) : result edits :=
  (st <- edit_title media new_title ([], []) ;;
   let st := edit_str media new_summary "summary" "summary" (fun _ => "summary") st in
   let st := edit_year media new_year st in
   let st := edit_rating media new_rating st in
   let st := edit_str media new_content_rating "contentRating" "contentRating"
               (fun new => "content rating to '" +:+ new +:+ "'") st in
   let st := edit_str media new_studio "studio" "studio"
               (fun new => "studio to '" +:+ new +:+ "'") st in
   let st := edit_str media new_tagline "tagline" "tagline" (fun _ => "tagline") st in
   let st := edit_str media new_sort_title "titleSort" "titleSort"
               (fun new => "sort title to '" +:+ new +:+ "'") st in
   let st := edit_str media new_original_title "originalTitle" "originalTitle"
               (fun new => "original title to '" +:+ new +:+ "'") st in
   Ok st)%py.

(** Lines 699 and 722: [[x.tag for x in getattr(media, name, [])]]. *)
Definition current_tags (media : obj) (name : string) : result (list val) :=
  (tags <- iter (getattr (of_obj media) name (VList [])) ;;
   comprehension (fun x => attr x "tag") tags)%py.

(** Lines 710-712 and 716-718 (genres), 733-735 and 739-741 (labels):
[[
  for tag in tags:
      if tag not in current:      # [if tag in current:] when removing
          media.addGenre(tag)
]]
    [present] is the membership under which the call is made. *)
Fixpoint each_tag (call_of : obj -> val -> call) (present : bool)
    (current : list val) (tags : list string) (media : obj) : eff obj :=
  match tags with
  | [] => pure (Ok media)
  | tag :: tags =>
      (media <- (if Bool.eqb (tag_in tag current) present
                 then perform outcome leaves (call_of media (VStr tag))
                 else pure (Ok media)) ;;
       each_tag call_of present current tags media)%eff
  end.

(** Lines 699-719 (genres) and 722-742 (labels); [what] is ["genres"] or
    ["labels"], which is also the name of the attribute read. *)
Definition tags_block (what : string) (add remove : obj -> val -> call)
    (new_tags add_tags remove_tags : option (list string))
    (media : obj) (changes : list string) : eff (obj * list string) :=
  (current <- pure (current_tags media what) ;;
   match new_tags with
   | Some new_tags =>
       media <- perform outcome leaves (remove media (VList current)) ;;
       media <- (match new_tags with
                 | [] => pure (Ok media)
                 | _ => perform outcome leaves (add media (VList (VStr <$> new_tags)))
                 end) ;;
       pure (Ok (media, changes ++ [what +:+ " completely replaced"]))
   | None =>
       added <- (match default [] add_tags with
                 | [] => pure (Ok (media, changes))
                 | tags =>
                     media <- each_tag add false current tags media ;;
                     pure (Ok (media,
                               changes ++ ["added " +:+ what +:+ ": "
                                             +:+ join ", " tags]))
                 end) ;;
       match default [] remove_tags with
       | [] => pure (Ok added)
       | tags =>
           media <- each_tag remove true current tags (fst added) ;;
           pure (Ok (media,
                     snd added ++ ["removed " +:+ what +:+ ": "
                                     +:+ join ", " tags]))
       end
   end)%eff.

(** Lines 581-761: the [try] suite. *)
Definition edit_body (connection : result Plex.PlexServer)
    (media_title : string) (library_name : option string)
    (new_title new_summary : option string) (new_year : option Z)
    (new_rating : option float)
    (new_content_rating new_studio new_tagline new_sort_title new_original_title
       : option string)
    (new_genres add_genres remove_genres new_labels add_labels remove_labels
       : option (list string)) : eff json_text :=
  finish
    (plex <-- step connection ;;
     media <-- pure (search plex (Some media_title) library_name
                       "Please be more specific or use media_id.") ;;
     st <-- step (basic_edits media new_title new_summary new_year new_rating
                    new_content_rating new_studio new_tagline new_sort_title
                    new_original_title) ;;
     media <-- act (match fst st with
                    | [] => pure (Ok media)
                    | edit_params => perform outcome leaves (Edit media edit_params)
                    end) ;;
     genres <-- act (tags_block "genres" AddGenre RemoveGenre
                       new_genres add_genres remove_genres media (snd st)) ;;
     labels <-- act (tags_block "labels" AddLabel RemoveLabel
                       new_labels add_labels remove_labels
                       (fst genres) (snd genres)) ;;
     let media := fst labels in
     match snd labels with
     | [] =>
         step (json_dumps
                 (VDict [("status", VStr "no_changes");
                         ("message", VStr "No changes made to the media item")]))
     | changes =>
         step (title <- attr (of_obj media) "title" ;;
               json_dumps
                 (VDict [("status", VStr "success");
                         ("message",
                          VStr ("Successfully updated '" +:+ str repr title +:+ "'"));
                         ("changes", VList (VStr <$> changes));
                         ("title", title);
                         ("type", getattr (of_obj media) "type" (VStr "unknown"))]))%py
     end)%early.

(** [PlexMediaTools.media_edit_metadata]: the tools object afterwards, the
    calls made on the library and the text returned. *)
Definition media_edit_metadata (self : PlexMcpTools Plex.PlexServer)
    (now : Q) (r : PlexClient.remote Plex.PlexServer)
    (media_title : string) (library_name : option string)
    (new_title new_summary : option string) (new_year : option Z)
    (new_rating : option float)
    (new_content_rating new_studio new_tagline new_sort_title new_original_title
       : option string)
    (new_genres add_genres remove_genres new_labels add_labels remove_labels
       : option (list string))
    : PlexMcpTools Plex.PlexServer * eff json_text :=
  let '(self, connection) := acquire self now r in
  (self,
   try_except
     (edit_body connection media_title library_name
        new_title new_summary new_year new_rating
        new_content_rating new_studio new_tagline new_sort_title new_original_title
        new_genres add_genres remove_genres new_labels add_labels remove_labels)
     (fun e =>
        json_dumps
          (VDict [("status", VStr "error");
                  ("message",
                   VStr ("Error editing media metadata: " +:+ str_exn e))]))).

End Edit.

End MediaEdit.

(** ** tools/playlist_tools.py: the tools that look a playlist up *)

Module PlaylistLookup.
Import Tools MediaLookup Effects PlaylistList PlaylistDelete.

Section Lookup.

(** [s.lower()] and [bool(playlist)]. *)
Variable str_lower : string -> string.
Variable truth : obj -> bool.

(** The lookup that [playlist_upload_poster] (lines 351-409),
    [playlist_copy_to_user] (496-554), [playlist_add_to] (642-700),
    [playlist_remove_from] (781-839), [playlist_delete] (906-964) and
    [playlist_get_contents] (1010-1068) each spell out:
[[
  if playlist_id:
      ...                       # [find_by_id]
  else:
      ...                       # [find_by_title]
]] *)
Definition locate (plex : Plex.PlexServer)
    (playlist_title : option string) (playlist_id : option Z)
    : result (early obj) :=
  if truthy (opt_int playlist_id)
  then find_by_id truth plex (default 0%Z playlist_id)
  else find_by_title str_lower plex playlist_title.

End Lookup.

(** [{"error": "Either playlist_id or playlist_title must be provided"}] *)
Definition no_playlist_identifier {A} : result (early A) :=
  answer (error_only "Either playlist_id or playlist_title must be provided").

End PlaylistLookup.

(** ** tools/playlist_tools.py: [playlist_create] *)

Module PlaylistCreate.
Import Tools MediaLookup Effects.

Section Create.

(** [plex.library.search(title=title)] *)
Variable library_search : Plex.PlexServer -> string -> result (list obj).

(** What the server makes of a call. *)
Variable outcome : call -> result val.

(** Lines 145-150:
[[
  search_scope = (plex.library.section(library_name) if library_name else plex.library)
  search_results = search_scope.search(title=title)
]] *)
Definition search_title (plex : Plex.PlexServer) (library_name : option string)
    (title : string) : result (list obj) :=
  (if truthy (opt_str library_name) then
     search_scope <- Plex.library_section plex (default "" library_name) ;;
     Plex.section_search search_scope (Some title)
   else library_search plex title)%py.

(** Lines 143-160: the loop over [item_titles]; [items] is the list built
    so far. *)
Fixpoint find_items (plex : Plex.PlexServer) (library_name : option string)
    (item_titles : list string) (items : list obj) : result (early (list obj)) :=
  match item_titles with
  | [] => Ok (Continue items)
  | title :: item_titles =>
      (search_results <- search_title plex library_name title ;;
       match search_results with
       | first :: _ => find_items plex library_name item_titles (items ++ [first])
       | [] =>
           answer
             (json_dumps
                (VDict [("status", VStr "error");
                        ("message", VStr ("Item '" +:+ title +:+ "' not found"))]))
       end)%py
  end.

(** Lines 139-185: the [try] suite. *)
Definition create_body (connection : result Plex.PlexServer)
    (playlist_title : string) (item_titles : list string)
    (library_name summary : option string) : eff json_text :=
  finish
    (plex <-- step connection ;;
     items <-- pure (find_items plex library_name item_titles []) ;;
     match items with
     | [] =>
         pure (answer
                 (json_dumps
                    (VDict [("status", VStr "error");
                            ("message", VStr "No items found for the playlist")])))
     | _ =>
         playlist <-- act (invoke outcome
                             (CreatePlaylist playlist_title items summary)) ;;
         step (title <- attr playlist "title" ;;
               key <- attr playlist "key" ;;
               ratingKey <- attr playlist "ratingKey" ;;
               json_dumps
                 (VDict [("status", VStr "success");
                         ("message",
                          VStr ("Playlist '" +:+ playlist_title
                                  +:+ "' created successfully"));
                         ("data",
                          VDict [("title", title);
                                 ("key", key);
                                 ("ratingKey", ratingKey);
                                 ("item_count",
                                  VInt (Z.of_nat (length items)))])]))%py
     end)%early.

(** [PlexPlaylistTools.playlist_create] *)
Definition playlist_create (self : PlexMcpTools Plex.PlexServer)
    (now : Q) (r : PlexClient.remote Plex.PlexServer)
    (playlist_title : string) (item_titles : list string)
    (library_name summary : option string)
    : PlexMcpTools Plex.PlexServer * eff json_text :=
  let '(self, connection) := acquire self now r in
  (self,
   try_except
     (create_body connection playlist_title item_titles library_name summary)
     (fun e =>
        json_dumps (VDict [("status", VStr "error"); ("message", VStr (str_exn e))]))).

End Create.

End PlaylistCreate.

(** ** tools/playlist_tools.py: [playlist_edit] *)

Module PlaylistEdit.
Import Tools MediaLookup Effects PlaylistList PlaylistDelete PlaylistLookup.

Section Edit.

Variable repr : val -> string.
Variable str_lower : string -> string.
Variable truth : obj -> bool.

(** What the server makes of a call, and the receiver as the call leaves
    it. *)
Variable outcome : call -> result val.
Variable leaves : call -> obj.

(** Lines 220-241: the playlist with identifier [playlist_id], and its
    title. *)
Definition find_by_id (plex : Plex.PlexServer) (playlist_id : Z)
    : result (early (obj * val)) :=
  try_return
    (playlist <-
       match Plex.fetchItem plex playlist_id with
       | Ok playlist => Ok (Some playlist)
       | Raise _ =>
           all_playlists <- Plex.playlists plex None ;;
           next_with_key all_playlists playlist_id
       end ;;
     match playlist with
     | Some playlist =>
         if truth playlist then
           original_title <- attr (of_obj playlist) "title" ;;
           Ok (Continue (playlist, original_title))
         else answer (error_only ("Playlist with ID '" +:+ pretty playlist_id
                                    +:+ "' not found"))
     | None =>
         answer (error_only ("Playlist with ID '" +:+ pretty playlist_id
                               +:+ "' not found"))
     end)%py
    (fun e => error_only ("Error fetching playlist by ID: " +:+ str_exn e)).

(** Lines 244-274: the playlist with title [playlist_title], and its
    title. *)
Definition find_by_title (plex : Plex.PlexServer) (playlist_title : option string)
    : result (early (obj * val)) :=
  (playlists <- Plex.playlists plex None ;;
   matching_playlists <- matching str_lower playlists (default "" playlist_title) ;;
   match matching_playlists with
   | [] =>
       answer (error_only ("No playlist found with title '"
                             +:+ format_opt playlist_title +:+ "'"))
   | playlist :: others =>
       if (1 <? length matching_playlists)%nat then
         matches <- comprehension match_entry matching_playlists ;;
         answer (json_dumps (VList matches))
       else
         original_title <- attr (of_obj playlist) "title" ;;
         Ok (Continue (playlist, original_title))
   end)%py.

(** Lines 280-282. *)
Definition edit_title (playlist : obj) (original_title : val)
    (new_title : option string) : eff (early (obj * list string)) :=
  (if truthy (opt_str new_title) then
     title <-- step (attr (of_obj playlist) "title") ;;
     if negb (eq_str title (default "" new_title)) then
       playlist <-- act (perform outcome leaves
                           (Edit playlist [("title", VStr (default "" new_title))])) ;;
       step (Ok (playlist,
                 ["title from '" +:+ str repr original_title +:+ "' to '"
                    +:+ default "" new_title +:+ "'"]))
     else step (Ok (playlist, []))
   else step (Ok (playlist, [])))%early.

(** Lines 285-291. *)
Definition edit_summary (playlist : obj) (new_summary : option string)
    (changes : list string) : eff (early (obj * list string)) :=
  match new_summary with
  | Some new_summary =>
      let current_summary := attr_or (of_obj playlist) "summary" (VStr "") in
      if negb (eq_str current_summary new_summary) then
        (playlist <-- act (perform outcome leaves
                             (Edit playlist [("summary", VStr new_summary)])) ;;
         step (Ok (playlist, changes ++ ["summary"])))%early
      else step (Ok (playlist, changes))
  | None => step (Ok (playlist, changes))
  end.

(** Lines 205-305: the [try] suite. *)
Definition edit_body (connection : result Plex.PlexServer)
    (playlist_title : option string) (playlist_id : option Z)
    (new_title new_summary : option string) : eff json_text :=
  finish
    (plex <-- step connection ;;
     found <-- pure (if no_identifier playlist_title playlist_id
                     then no_playlist_identifier
                     else if truthy (opt_int playlist_id)
                          then find_by_id plex (default 0%Z playlist_id)
                          else find_by_title plex playlist_title) ;;
     titled <-- edit_title (fst found) (snd found) new_title ;;
     edited <-- edit_summary (fst titled) new_summary (snd titled) ;;
     let playlist := fst edited in
     match snd edited with
     | [] =>
         step (title <- attr (of_obj playlist) "title" ;;
               json_dumps
                 (VDict [("updated", VBool false);
                         ("title", title);
                         ("message", VStr "No changes made to the playlist")]))%py
     | changes =>
         step (title <- attr (of_obj playlist) "title" ;;
               json_dumps
                 (VDict [("updated", VBool true);
                         ("title", title);
                         ("changes", VList (VStr <$> changes))]))%py
     end)%early.

(** [PlexPlaylistTools.playlist_edit] *)
Definition playlist_edit (self : PlexMcpTools Plex.PlexServer)
    (now : Q) (r : PlexClient.remote Plex.PlexServer)
    (playlist_title : option string) (playlist_id : option Z)
    (new_title new_summary : option string)
    : PlexMcpTools Plex.PlexServer * eff json_text :=
  let '(self, connection) := acquire self now r in
  (self,
   try_except
     (edit_body connection playlist_title playlist_id new_title new_summary)
     (fun e => error_only (str_exn e))).

End Edit.

End PlaylistEdit.

(** ** tools/playlist_tools.py: [playlist_upload_poster] *)

Module PlaylistUploadPoster.
Import Tools MediaLookup Effects PlaylistList PlaylistDelete PlaylistLookup.

(** The response of [session.get(poster_url)]: [response.status] and
    [await response.read()]. *)
Record Response := {
  status : Z;
  read : result string;
}.

Section UploadPoster.

Variable repr : val -> string.
Variable str_lower : string -> string.
Variable truth : obj -> bool.

(** [aiohttp.ClientSession().get(poster_url)], entered. *)
Variable session_get : string -> result Response.

(** [os.path.exists(path)] and [open(path, "rb").read()]. *)
Variable path_exists : string -> bool.
Variable read_file : string -> result string.

(** What the server makes of a call, and the receiver as the call leaves
    it. *)
Variable outcome : call -> result val.
Variable leaves : call -> obj.

(** Lines 412-446: [poster_data]. *)
Definition get_poster_data (poster_url poster_filepath : option string)
    : result (early (option string)) :=
  if truthy (opt_str poster_url) then
    try_return
      (response <- session_get (default "" poster_url) ;;
       if (status response =? 200)%Z then
         poster_data <- read response ;;
         Ok (Continue (Some poster_data))
       else
         answer (error_only ("Failed to download poster from URL. Status: "
                               +:+ pretty (status response))))%py
      (fun e => error_only ("Error downloading poster: " +:+ str_exn e))
  else if truthy (opt_str poster_filepath) then
    if negb (path_exists (default "" poster_filepath)) then
      answer (error_only ("Poster file not found: " +:+ default "" poster_filepath))
    else
      try_return
        (poster_data <- read_file (default "" poster_filepath) ;;
         Ok (Continue (Some poster_data)))%py
        (fun e => error_only ("Error reading poster file: " +:+ str_exn e))
  else Ok (Continue None).

(** Lines 449-461. *)
Definition upload (playlist : obj) (poster_data : option string) : eff json_text :=
  try_except
    (playlist <- perform outcome leaves (UploadPosterData playlist poster_data) ;;
     pure (title <- attr (of_obj playlist) "title" ;;
           json_dumps
             (VDict [("status", VStr "success");
                     ("message",
                      VStr ("Poster uploaded successfully for playlist '"
                              +:+ str repr title +:+ "'"))]))%py)%eff
    (fun e => error_only ("Error uploading poster: " +:+ str_exn e)).

(** Lines 325-461: the outer [try] suite. *)
Definition upload_body (connection : result Plex.PlexServer)
    (playlist_title : option string) (playlist_id : option Z)
    (poster_url poster_filepath : option string) : eff json_text :=
  finish
    (plex <-- step connection ;;
     playlist <-- pure
       (if no_identifier playlist_title playlist_id then no_playlist_identifier
        else if negb (truthy (opt_str poster_url))
                && negb (truthy (opt_str poster_filepath))
        then answer (error_only "Either poster_url or poster_filepath must be provided")
        else if truthy (opt_str poster_url) && truthy (opt_str poster_filepath)
        then answer (error_only "Provide either poster_url or poster_filepath, not both")
        else locate str_lower truth plex playlist_title playlist_id) ;;
     poster_data <-- pure (get_poster_data poster_url poster_filepath) ;;
     returned (upload playlist poster_data))%early.

(** [PlexPlaylistTools.playlist_upload_poster] *)
Definition playlist_upload_poster (self : PlexMcpTools Plex.PlexServer)
    (now : Q) (r : PlexClient.remote Plex.PlexServer)
    (playlist_title : option string) (playlist_id : option Z)
    (poster_url poster_filepath : option string)
    : PlexMcpTools Plex.PlexServer * eff json_text :=
  let '(self, connection) := acquire self now r in
  (self,
   try_except
     (upload_body connection playlist_title playlist_id poster_url poster_filepath)
     (fun e => error_only (str_exn e))).

End UploadPoster.

End PlaylistUploadPoster.

(** ** tools/playlist_tools.py: [playlist_copy_to_user] *)

Module PlaylistCopyToUser.
Import Tools MediaLookup Effects PlaylistList PlaylistDelete PlaylistLookup.

(** [plex.myPlexAccount()]: [account.user(username)] and
    [account.users()]. *)
Record Account := {
  user : string -> result val;
  users : result val;
}.

Section CopyToUser.

Variable repr : val -> string.
Variable str_lower : string -> string.
Variable truth : obj -> bool.

(** [plex.myPlexAccount()] *)
Variable myPlexAccount : Plex.PlexServer -> result Account.

(** What the server makes of a call, and the receiver as the call leaves
    it. *)
Variable outcome : call -> result val.
Variable leaves : call -> obj.

(** Lines 564-571:
    [next((user for user in users if user.username.lower() == username.lower()), None)] *)
Fixpoint next_user (users : list val) (username : string) : result (option val) :=
  match users with
  | [] => Ok None
  | user :: users =>
      (name <- attr user "username" ;;
       name <- lower_of str_lower name ;;
       if String.eqb name (str_lower username) then Ok (Some user)
       else next_user users username)%py
  end.

(** Lines 557-580: [target_user]. *)
Definition find_target_user (plex : Plex.PlexServer) (username : string)
    : result (early val) :=
  match (account <- myPlexAccount plex ;; user account username)%py with
  | Ok target_user => Ok (Continue target_user)
  | Raise _ =>
      try_return
        (account <- myPlexAccount plex ;;
         users <- users account ;;
         users <- iter users ;;
         target_user <- next_user users username ;;
         match target_user with
         | Some target_user =>
             if truthy target_user then Ok (Continue target_user)
             else answer (error_only ("User '" +:+ username +:+ "' not found"))
         | None => answer (error_only ("User '" +:+ username +:+ "' not found"))
         end)%py
        (fun e => error_only ("Error finding user '" +:+ username +:+ "': "
                                +:+ str_exn e))
  end.

(** Lines 583-595. *)
Definition copy (playlist : obj) (target_user : val) (username : string)
    : eff json_text :=
  try_except
    (playlist <- perform outcome leaves (CopyToUser playlist target_user) ;;
     pure (title <- attr (of_obj playlist) "title" ;;
           json_dumps
             (VDict [("status", VStr "success");
                     ("message",
                      VStr ("Playlist '" +:+ str repr title +:+ "' copied to user '"
                              +:+ username +:+ "' successfully"))]))%py)%eff
    (fun e => error_only ("Error copying playlist to user: " +:+ str_exn e)).

(** Lines 480-595: the outer [try] suite. *)
Definition copy_body (connection : result Plex.PlexServer)
    (playlist_title : option string) (playlist_id : option Z)
    (username : option string) : eff json_text :=
  finish
    (plex <-- step connection ;;
     playlist <-- pure
       (if no_identifier playlist_title playlist_id then no_playlist_identifier
        else if negb (truthy (opt_str username))
        then answer (error_only "Username must be provided")
        else locate str_lower truth plex playlist_title playlist_id) ;;
     target_user <-- pure (find_target_user plex (default "" username)) ;;
     returned (copy playlist target_user (default "" username)))%early.

(** [PlexPlaylistTools.playlist_copy_to_user] *)
Definition playlist_copy_to_user (self : PlexMcpTools Plex.PlexServer)
    (now : Q) (r : PlexClient.remote Plex.PlexServer)
    (playlist_title : option string) (playlist_id : option Z)
    (username : option string)
    : PlexMcpTools Plex.PlexServer * eff json_text :=
  let '(self, connection) := acquire self now r in
  (self,
   try_except
     (copy_body connection playlist_title playlist_id username)
     (fun e => error_only (str_exn e))).

End CopyToUser.

End PlaylistCopyToUser.

(** ** tools/playlist_tools.py: [playlist_add_to] *)

Module PlaylistAddTo.
Import Tools MediaLookup Effects PlaylistList PlaylistDelete PlaylistLookup.

Section AddTo.

Variable repr : val -> string.
Variable str_lower : string -> string.
Variable truth : obj -> bool.

(** [plex.library.search(title=title)] *)
Variable library_search : Plex.PlexServer -> string -> result (list obj).

(** What the server makes of a call, and the receiver as the call leaves
    it. *)
Variable outcome : call -> result val.
Variable leaves : call -> obj.

(** Lines 707-714: the items found by title; [items_to_add] is the list
    built so far. *)
Fixpoint items_by_title (plex : Plex.PlexServer) (item_titles : list string)
    (items_to_add : list obj) : result (early (list obj)) :=
  match item_titles with
  | [] => Ok (Continue items_to_add)
  | title :: item_titles =>
      (search_results <- library_search plex title ;;
       match search_results with
       | first :: _ => items_by_title plex item_titles (items_to_add ++ [first])
       | [] => answer (error_only ("Item '" +:+ title +:+ "' not found"))
       end)%py
  end.

(** Lines 718-725: the items fetched by identifier. *)
Fixpoint items_by_id (plex : Plex.PlexServer) (item_ids : list Z)
    (items_to_add : list obj) : result (early (list obj)) :=
  match item_ids with
  | [] => Ok (Continue items_to_add)
  | item_id :: item_ids =>
      match Plex.fetchItem plex item_id with
      | Ok item => items_by_id plex item_ids (items_to_add ++ [item])
      | Raise _ =>
          answer (error_only ("Item with ID '" +:+ pretty item_id +:+ "' not found"))
      end
  end.

(** Lines 703-730: [items_to_add]. *)
Definition find_items (plex : Plex.PlexServer)
    (item_titles : option (list string)) (item_ids : option (list Z))
    : result (early (list obj)) :=
  (items_to_add <-
     match default [] item_titles with
     | [] =>
         match default [] item_ids with
         | [] => Ok (Continue [])
         | item_ids => items_by_id plex item_ids []
         end
     | item_titles => items_by_title plex item_titles []
     end ;;
   match items_to_add with
   | Continue [] =>
       answer (error_only "No valid items found to add to the playlist")
   | found => Ok found
   end)%py.

(** Lines 733-745. *)
Definition add (playlist : obj) (items_to_add : list obj) : eff json_text :=
  try_except
    (playlist <- perform outcome leaves (AddItems playlist items_to_add) ;;
     pure (title <- attr (of_obj playlist) "title" ;;
           json_dumps
             (VDict [("status", VStr "success");
                     ("message",
                      VStr ("Added " +:+ pretty (Z.of_nat (length items_to_add))
                              +:+ " items to playlist '" +:+ str repr title
                              +:+ "'"))]))%py)%eff
    (fun e => error_only ("Error adding items to playlist: " +:+ str_exn e)).

(** Lines 616-745: the outer [try] suite. *)
Definition add_body (connection : result Plex.PlexServer)
    (playlist_title : option string) (playlist_id : option Z)
    (item_titles : option (list string)) (item_ids : option (list Z))
    : eff json_text :=
  finish
    (plex <-- step connection ;;
     playlist <-- pure
       (if no_identifier playlist_title playlist_id then no_playlist_identifier
        else
          match default [] item_titles, default [] item_ids with
          | [], [] =>
              answer (error_only "Either item_titles or item_ids must be provided")
          | _ :: _, _ :: _ =>
              answer (error_only "Provide either item_titles or item_ids, not both")
          | _, _ => locate str_lower truth plex playlist_title playlist_id
          end) ;;
     items_to_add <-- pure (find_items plex item_titles item_ids) ;;
     returned (add playlist items_to_add))%early.

(** [PlexPlaylistTools.playlist_add_to] *)
Definition playlist_add_to (self : PlexMcpTools Plex.PlexServer)
    (now : Q) (r : PlexClient.remote Plex.PlexServer)
    (playlist_title : option string) (playlist_id : option Z)
    (item_titles : option (list string)) (item_ids : option (list Z))
    : PlexMcpTools Plex.PlexServer * eff json_text :=
  let '(self, connection) := acquire self now r in
  (self,
   try_except
     (add_body connection playlist_title playlist_id item_titles item_ids)
     (fun e => error_only (str_exn e))).

End AddTo.

End PlaylistAddTo.

(** ** tools/playlist_tools.py: [playlist_remove_from] *)

Module PlaylistRemoveFrom.
Import Tools MediaLookup Effects PlaylistList PlaylistDelete PlaylistLookup.

Section RemoveFrom.

Variable repr : val -> string.
Variable str_lower : string -> string.
Variable truth : obj -> bool.

(** What the server makes of a call, and the receiver as the call leaves
    it. *)
Variable outcome : call -> result val.
Variable leaves : call -> obj.

(** Lines 847-851:
    [[item for item in current_items
      if item.title.lower() == title_to_remove.lower()]] *)
Fixpoint found_items (current_items : list val) (title_to_remove : string)
    : result (list val) :=
  match current_items with
  | [] => Ok []
  | item :: current_items =>
      (title <- attr item "title" ;;
       title <- lower_of str_lower title ;;
       let same := String.eqb title (str_lower title_to_remove) in
       rest <- found_items current_items title_to_remove ;;
       Ok (if same then item :: rest else rest))%py
  end.

(** Lines 846-858: the loop over [item_titles]; [items_to_remove] is the
    list built so far. *)
Fixpoint find_items (current_items : val) (item_titles : list string)
    (items_to_remove : list val) : result (early (list val)) :=
  match item_titles with
  | [] => Ok (Continue items_to_remove)
  | title_to_remove :: item_titles =>
      (items <- iter current_items ;;
       found <- found_items items title_to_remove ;;
       match found with
       | [] =>
           answer (error_only ("Item '" +:+ title_to_remove
                                 +:+ "' not found in playlist"))
       | _ => find_items current_items item_titles (items_to_remove ++ found)
       end)%py
  end.

(** Lines 866-878. *)
Definition remove (playlist : obj) (items_to_remove : list val) : eff json_text :=
  try_except
    (playlist <- perform outcome leaves (RemoveItems playlist items_to_remove) ;;
     pure (title <- attr (of_obj playlist) "title" ;;
           json_dumps
             (VDict [("status", VStr "success");
                     ("message",
                      VStr ("Removed " +:+ pretty (Z.of_nat (length items_to_remove))
                              +:+ " items from playlist '" +:+ str repr title
                              +:+ "'"))]))%py)%eff
    (fun e => error_only ("Error removing items from playlist: " +:+ str_exn e)).

(** Lines 764-878: the outer [try] suite. *)
Definition remove_body (connection : result Plex.PlexServer)
    (playlist_title : option string) (playlist_id : option Z)
    (item_titles : option (list string)) : eff json_text :=
  finish
    (plex <-- step connection ;;
     playlist <-- pure
       (if no_identifier playlist_title playlist_id then no_playlist_identifier
        else
          match default [] item_titles with
          | [] => answer (error_only "item_titles must be provided")
          | _ => locate str_lower truth plex playlist_title playlist_id
          end) ;;
     current_items <-- step (call_method playlist "items") ;;
     items_to_remove <-- pure (find_items current_items (default [] item_titles) []) ;;
     match items_to_remove with
     | [] =>
         pure (answer (error_only "No items found to remove from the playlist"))
     | _ => returned (remove playlist items_to_remove)
     end)%early.

(** [PlexPlaylistTools.playlist_remove_from] *)
Definition playlist_remove_from (self : PlexMcpTools Plex.PlexServer)
    (now : Q) (r : PlexClient.remote Plex.PlexServer)
    (playlist_title : option string) (playlist_id : option Z)
    (item_titles : option (list string))
    : PlexMcpTools Plex.PlexServer * eff json_text :=
  let '(self, connection) := acquire self now r in
  (self,
   try_except
     (remove_body connection playlist_title playlist_id item_titles)
     (fun e => error_only (str_exn e))).

End RemoveFrom.

End PlaylistRemoveFrom.

(** ** tools/playlist_tools.py: [playlist_get_contents] *)

Module PlaylistGetContents.
Import Tools MediaLookup Effects PlaylistList PlaylistDelete PlaylistLookup.

(** [item_data[key] = item.name], when [hasattr(item, name)]. *)
Definition copy_attr (item : val) (name key : string) (item_data : list (string * val))
    : list (string * val) :=
  if hasattr item name
  then set_key key (getattr item name VNone) item_data
  else item_data.

(** Lines 1101-1104:
[[
  if hasattr(item, name) and item.name:
      item_data[name] = item.name.title
]] *)
Definition copy_title_of (item : val) (name : string) (item_data : list (string * val))
    : result (list (string * val)) :=
  if hasattr item name && truthy (getattr item name VNone) then
    (title <- attr (getattr item name VNone) "title" ;;
     Ok (set_key name title item_data))%py
  else Ok item_data.

(** Lines 1089-1118: the entry of one item. *)
Definition item_entry (item : val) : val :=
  match
    (title <- attr item "title" ;;
     ratingKey <- attr item "ratingKey" ;;
     let item_data :=
       [("title", title); ("ratingKey", ratingKey);
        ("type", attr_or item "type" (VStr "unknown"))] in
     let item_data := copy_attr item "year" "year" item_data in
     let item_data := copy_attr item "duration" "duration" item_data in
     item_data <- copy_title_of item "artist" item_data ;;
     item_data <- copy_title_of item "album" item_data ;;
     let item_data := copy_attr item "grandparentTitle" "series" item_data in
     let item_data := copy_attr item "parentTitle" "season" item_data in
     Ok (VDict item_data))%py
  with
  | Ok item_data => item_data
  | Raise item_error =>
      VDict [("title", getattr item "title" (VStr "Unknown"));
             ("error", VStr (str_exn item_error))]
  end.

(** Lines 1072-1120: the body of the inner [try]. *)
Definition contents_of (playlist : obj) : result json_text :=
  (items <- call_method playlist "items" ;;
   title <- attr (of_obj playlist) "title" ;;
   ratingKey <- attr (of_obj playlist) "ratingKey" ;;
   playlistType <- attr (of_obj playlist) "playlistType" ;;
   let summary := attr_or (of_obj playlist) "summary" (VStr "") in
   let duration := attr_or (of_obj playlist) "duration" VNone in
   item_count <- len_of items ;;
   items <- iter items ;;
   json_dumps
     (VDict [("title", title);
             ("ratingKey", ratingKey);
             ("type", playlistType);
             ("summary", summary);
             ("duration", duration);
             ("item_count", item_count);
             ("items", VList (item_entry <$> items))]))%py.

Section GetContents.

Variable str_lower : string -> string.
Variable truth : obj -> bool.

(** Lines 997-1124: the outer [try] suite. *)
Definition contents_body (connection : result Plex.PlexServer)
    (playlist_title : option string) (playlist_id : option Z) : result json_text :=
  (plex <- connection ;;
   found <- (if no_identifier playlist_title playlist_id then no_playlist_identifier
             else locate str_lower truth plex playlist_title playlist_id) ;;
   match found with
   | Return text => Ok text
   | Continue playlist =>
       Py.try_except
         (contents_of playlist)
         (fun e => error_only ("Error getting playlist contents: " +:+ str_exn e))
   end)%py.

(** [PlexPlaylistTools.playlist_get_contents] *)
Definition playlist_get_contents (self : PlexMcpTools Plex.PlexServer)
    (now : Q) (r : PlexClient.remote Plex.PlexServer)
    (playlist_title : option string) (playlist_id : option Z)
    : PlexMcpTools Plex.PlexServer * result json_text :=
  let '(self, connection) := acquire self now r in
  (self,
   Py.try_except
     (contents_body connection playlist_title playlist_id)
     (fun e => error_only (str_exn e))).

End GetContents.

End PlaylistGetContents.

(** ** The image a block of [media_set_artwork] uploads *)

Module ArtworkSource.
Import Effects.

Section Source.

(** [os.path.exists(path)] *)
Variable path_exists : string -> bool.

(** Lines 1149-1162 and 1165-1178: the source a block uploads from: the
    file at [path] when a path is given and the file is there, [url] when
    no path is given. *)
Definition uploads_from (path url : option string) (src : source) : Prop :=
  truthy (opt_str path) = true /\ path_exists (default "" path) = true /\
    src = FromFile (default "" path)
  \/
  truthy (opt_str path) = false /\ truthy (opt_str url) = true /\
    src = FromUrl (default "" url).

(** A path is given and no file is there. *)
Definition missing (path : option string) : bool :=
  truthy (opt_str path) && negb (path_exists (default "" path)).

End Source.

End ArtworkSource.

(** ** A small server, for concrete runs *)

Module Examples.
Import Tools.

Definition alien : obj :=
  mk_obj "Movie" "<Movie:101:Alien>"
    [("type", VStr "movie"); ("title", VStr "Alien"); ("year", VInt 1979);
     ("ratingKey", VInt 101)]
    [].

Definition aliens : obj :=
  mk_obj "Movie" "<Movie:102:Aliens>"
    [("type", VStr "movie"); ("title", VStr "Aliens"); ("year", VInt 1986);
     ("ratingKey", VInt 102)]
    [].

Definition alien_nation : obj :=
  mk_obj "Episode" "<Episode:103:Alien-Nation>"
    [("type", VStr "episode"); ("title", VStr "Alien Nation"); ("ratingKey", VInt 103);
     ("grandparentTitle", VStr "Earth"); ("parentIndex", VInt 1); ("index", VInt 4)]
    [].

(** A server on which the title "Alien" matches three entities and no other
    title matches any; it has no library section and no playlist. *)
Definition server : Plex.PlexServer :=
  {| Plex.fetchItem := fun id => Raise (Exn NotFound "not found");
     Plex.library_section := fun name => Raise (Exn NotFound "Invalid library section");
     Plex.search := fun title =>
       if bool_decide (title = Some "Alien")
       then Ok [alien; aliens; alien_nation] else Ok [];
     Plex.playlists := fun _ => Ok [] |}.

Definition plex_url : string := "http://plex:32400".
Definition plex_token : string := "secret".

Definition media_tools : PlexMcpTools Plex.PlexServer :=
  fst (PlexMediaToolsInit.__init__ (fun existing new => new)
         plex_url plex_token READ ∅).

Definition playlist_tools : PlexMcpTools Plex.PlexServer :=
  fst (PlexPlaylistToolsInit.__init__ (fun existing new => new)
         plex_url plex_token READ ∅).

(** The server answers the probe; the clock then reads 100. *)
Definition reachable : PlexClient.remote Plex.PlexServer := PlexClient.Probed server 100.

(** The constructor of the session times out. *)
Definition unreachable : PlexClient.remote Plex.PlexServer :=
  PlexClient.ConstructorRaises (Exn (OtherError "ConnectTimeout") "timed out").

(** Library functions, fixed for the runs. *)
Definition repr (v : val) : string := "[...]".
Definition isalnum (c : ascii) : bool :=
  let n := Ascii.nat_of_ascii c in
  ((48 <=? n) && (n <=? 57) || (65 <=? n) && (n <=? 90) || (97 <=? n) && (n <=? 122))%nat.
Definition b64encode (data : string) : string := data.
Definition urlencode (params : list (string * val)) : string :=
  join "&" ((fun kv => fst kv +:+ "=" +:+ str repr (snd kv)) <$> params).
Definition no_network (url : string) : result Requests.Response :=
  Raise (Exn ConnectionError "Connection refused").
Definition read_only (path data : string) : result unit :=
  Raise (Exn (OtherError "PermissionError") "Permission denied").

(** A search response: what [/library/search] answers, as JSON data. *)
Definition respond (data : val) (url : string) (headers : list (string * string))
    : result Requests.Response :=
  Ok {| Requests.raise_for_status := Ok ();
        Requests.json := Ok data;
        Requests.content := "";
        Requests.headers := fun _ => None |}.

Definition movie_hit : val :=
  VDict [("Metadata",
          VDict [("type", VStr "movie"); ("title", VStr "Alien");
                 ("ratingKey", VStr "101"); ("year", VInt 1979)])].

Definition one_movie : val :=
  VDict [("MediaContainer", VDict [("SearchResult", VList [movie_hit])])].


End Examples.

(** ** A server with playlists *)

Module PlaylistExamples.

Definition road_trip : obj :=
  mk_obj "Playlist" "<Playlist:201:Road-Trip>"
    [("title", VStr "Road Trip"); ("key", VStr "/playlists/201");
     ("ratingKey", VInt 201); ("playlistType", VStr "audio");
     ("leafCount", VInt 12)]
    [].

(** A playlist whose [key] and [playlistType] cannot be read. *)
Definition broken : obj :=
  mk_obj "Playlist" "<Playlist:202:Broken>"
    [("title", VStr "Broken"); ("ratingKey", VInt 202)]
    [].

(** Two playlists and no library section. *)
Definition jukebox : Plex.PlexServer :=
  {| Plex.fetchItem := fun id => Raise (Exn NotFound "not found");
     Plex.library_section := fun name => Raise (Exn NotFound "Invalid library section");
     Plex.search := fun title => Ok [];
     Plex.playlists := fun playlistType => Ok [road_trip; broken] |}.

(** A server that refuses to list its playlists. *)
Definition silent : Plex.PlexServer :=
  {| Plex.fetchItem := fun id => Raise (Exn NotFound "not found");
     Plex.library_section := fun name => Raise (Exn NotFound "Invalid library section");
     Plex.search := fun title => Ok [];
     Plex.playlists := fun playlistType =>
       Raise (Exn (OtherError "BadRequest") "(400) bad_request") |}.

End PlaylistExamples.

(** ** A server with two clips that have no identifier *)

Module CandidateExamples.

Definition trailer (str_ : string) : obj :=
  mk_obj "Clip" str_ [("type", VStr "clip"); ("title", VStr "Trailer")] [].

(** The title "Trailer" matches two clips; neither has a [ratingKey]. *)
Definition archive : Plex.PlexServer :=
  {| Plex.fetchItem := fun id => Raise (Exn NotFound "not found");
     Plex.library_section := fun name => Raise (Exn NotFound "Invalid library section");
     Plex.search := fun title =>
       if bool_decide (title = Some "Trailer")
       then Ok [trailer "<Clip:Trailer-1>"; trailer "<Clip:Trailer-2>"] else Ok [];
     Plex.playlists := fun playlistType => Ok [] |}.

End CandidateExamples.

(** ** A server with one film *)

Module ChangeExamples.
Import Effects.

(** The film "Alien", with identifier 101, and nothing else. *)
Definition cinema : Plex.PlexServer :=
  {| Plex.fetchItem := fun id =>
       if (id =? 101)%Z then Ok Examples.alien
       else Raise (Exn NotFound "not found");
     Plex.library_section := fun name => Raise (Exn NotFound "Invalid library section");
     Plex.search := fun title =>
       if bool_decide (title = Some "Alien") then Ok [Examples.alien] else Ok [];
     Plex.playlists := fun playlistType => Ok [] |}.

(** The server carries out every call. *)
Definition accepts (c : call) : result val := Ok VNone.

(** The server carries out the upload of a poster and refuses any other
    call. *)
Definition posters_only (c : call) : result val :=
  match c with
  | UploadPoster _ _ => Ok VNone
  | _ => Raise (Exn (OtherError "Unauthorized") "(401) unauthorized")
  end.

(** The only file there is. *)
Definition on_disk (path : string) : bool := String.eqb path "poster.jpg".

End ChangeExamples.

(** ** A server with a poster *)

Module ArtworkExamples.

Definition poster : val :=
  VObj "Poster" "<Poster:upload>"
    [("key", VStr "/library/metadata/101/file?url=upload"); ("ratingKey", VStr "upload");
     ("selected", VBool true); ("provider", VNone);
     ("thumb", VStr "/library/metadata/101/file?url=upload")].

(** The film "Alien" with a poster, under the identifier 101. *)
Definition alien : obj :=
  mk_obj "Movie" "<Movie:101:Alien>"
    [("type", VStr "movie"); ("title", VStr "Alien"); ("ratingKey", VInt 101);
     ("thumb", VStr "/library/metadata/101/thumb")]
    [("posters", Ok (VList [poster]))].

(** The server's answer to a request for that poster, and to no other. *)
Definition serves (url : string) : result Requests.Response :=
  if String.eqb url "http://plex:32400/library/metadata/101/thumb?X-Plex-Token=secret"
  then Ok {| Requests.raise_for_status := Ok ();
             Requests.json := Ok VNone;
             Requests.content := "image";
             Requests.headers := fun _ => None |}
  else Raise (Exn ConnectionError "Connection refused").

(** A disk that takes every file. *)
Definition stores (path data : string) : result unit := Ok ().

Definition gallery : Plex.PlexServer :=
  {| Plex.fetchItem := fun id =>
       if (id =? 101)%Z then Ok alien else Raise (Exn NotFound "not found");
     Plex.library_section := fun name => Raise (Exn NotFound "Invalid library section");
     Plex.search := fun title => Ok [];
     Plex.playlists := fun playlistType => Ok [] |}.

End ArtworkExamples.

(** ** Library functions and a server's reactions, for runs of all tools *)

Module ToolExamples.
Import Effects.

(** Ratings are whole numbers here. *)
Definition rating_str (x : Z) : string := pretty x +:+ ".0".
Definition rating_eq (x : Z) (v : val) : bool := PlaylistDelete.eq_int v x.

(** Every playlist object is true. *)
Definition truth (playlist : obj) : bool := true.

(** No file can be read and no image downloaded. *)
Definition read_file (path : string) : result string :=
  Raise (Exn (OtherError "PermissionError") "Permission denied").
Definition session_get (url : string) : result PlaylistUploadPoster.Response :=
  Raise (Exn ConnectionError "Connection refused").

(** [plex.library.search(title=title)] finds what [plex.search(title)]
    finds. *)
Definition library_search (plex : Plex.PlexServer) (title : string)
    : result (list obj) :=
  Plex.search plex (Some title).

(** The server is not signed in to an account. *)
Definition myPlexAccount (plex : Plex.PlexServer) : result PlaylistCopyToUser.Account :=
  Raise (Exn (OtherError "Unauthorized") "(401) unauthorized").

(** A call leaves its receiver as it was. *)
Definition leaves (c : call) : obj :=
  match c with
  | Delete media | UploadPoster media _ | UploadArt media _ | Edit media _
  | AddGenre media _ | RemoveGenre media _ | AddLabel media _ | RemoveLabel media _
  | UploadPosterData media _ | CopyToUser media _ | AddItems media _
  | RemoveItems media _ => media
  | CreatePlaylist _ _ _ => Examples.alien
  end.

(** A playlist that holds the film "Alien". *)
Definition space : obj :=
  mk_obj "Playlist" "<Playlist:301:Space>"
    [("title", VStr "Space"); ("key", VStr "/playlists/301");
     ("ratingKey", VInt 301); ("playlistType", VStr "video");
     ("leafCount", VInt 1)]
    [("items", Ok (VList [of_obj Examples.alien]))].

(** A server with the film "Alien" and the playlist "Space". *)
Definition club : Plex.PlexServer :=
  {| Plex.fetchItem := fun id =>
       if (id =? 101)%Z then Ok Examples.alien
       else Raise (Exn NotFound "not found");
     Plex.library_section := fun name => Raise (Exn NotFound "Invalid library section");
     Plex.search := fun title =>
       if bool_decide (title = Some "Alien") then Ok [Examples.alien] else Ok [];
     Plex.playlists := fun playlistType => Ok [space] |}.

End ToolExamples.

(** * Properties *)

Module StringFacts.

Lemma append_assoc (s1 s2 s3 : string) : (s1 +:+ s2) +:+ s3 = s1 +:+ s2 +:+ s3.
Proof.
  induction s1 as [|c s1 IH]; [done|].
  change (String c ((s1 +:+ s2) +:+ s3) = String c (s1 +:+ s2 +:+ s3)).
  by rewrite IH.
Qed.

Lemma contains_middle (pre sub suf : string) : contains sub (pre +:+ sub +:+ suf).
Proof. by exists pre, suf. Qed.

End StringFacts.

Module PlexClientFacts.
Import PlexClient.

Section Facts.
Context {PlexServer : Type}.
Implicit Types (self : PlexClient.t PlexServer) (r : remote PlexServer)
  (now : Q) (srv : PlexServer).

Lemma stale_false_iff self now :
  stale self now = false <->
  exists srv, _connection self = Some srv /\
    (now - _last_connection_time self <= inject_Z SESSION_TIMEOUT)%Q.
Proof.
  unfold stale. destruct (_connection self) as [srv|].
  - rewrite negb_false_iff, Qle_bool_iff. split.
    + intros H. by exists srv.
    + by intros (? & _ & H).
  - split; [done | by intros (? & ? & _)].
Qed.

Lemma stale_true_iff self now :
  stale self now = true <->
  _connection self = None \/
    (inject_Z SESSION_TIMEOUT < now - _last_connection_time self)%Q.
Proof.
  unfold stale. destruct (_connection self) as [srv|].
  - rewrite negb_true_iff, <- not_true_iff_false, Qle_bool_iff. split.
    + intros H. right. by apply Qnot_le_lt.
    + intros [?|H]; [done|]. by apply Qlt_not_le.
  - split; [by left | done].
Qed.

Lemma connection_fresh self now r srv :
  _connection self = Some srv ->
  (now - _last_connection_time self <= inject_Z SESSION_TIMEOUT)%Q ->
  connection self now r = mk_step self (Ok srv) 0.
Proof.
  intros Hc Hle. unfold connection.
  assert (stale self now = false) as -> by (apply stale_false_iff; eauto).
  by rewrite Hc.
Qed.

Lemma connection_stale self now r :
  stale self now = true ->
  attempts (connection self now r) = 1%nat /\
  after (connection self now r) = fst (_connect self r).
Proof.
  intros Hs. unfold connection. rewrite Hs.
  destruct r; simpl; done.
Qed.

Lemma run_app self calls1 calls2 :
  run self (calls1 ++ calls2) =
  (fst (run (fst (run self calls1)) calls2),
   snd (run self calls1) ++ snd (run (fst (run self calls1)) calls2)).
Proof.
  revert self. induction calls1 as [|[now r] calls1 IH]; intros self; simpl.
  - by destruct (run self calls2).
  - rewrite IH.
    destruct (run (after (connection self now r)) calls1) as [s1 ss1]; simpl.
    done.
Qed.

Lemma probes_app self calls1 calls2 :
  probes self (calls1 ++ calls2) =
  probes self calls1 ++ probes (fst (run self calls1)) calls2.
Proof.
  revert self. induction calls1 as [|[now r] calls1 IH]; intros self; simpl.
  - done.
  - rewrite IH, <- app_assoc.
    by destruct (run (after (connection self now r)) calls1).
Qed.

Lemma stored_is_probed_step self log now r :
  stored_is_probed self log ->
  stored_is_probed (after (connection self now r)) (log ++ probes self [(now, r)]).
Proof.
  intros Inv srv. unfold connection; simpl.
  destruct (stale self now) eqn:Hs.
  - destruct r as [e|srv' e|srv' t]; simpl; try done.
    intros [= <-]. apply in_or_app. right. by left.
  - apply stale_false_iff in Hs as (srv' & Hc & _). rewrite Hc; simpl.
    rewrite Hc. intros [= <-]. apply in_or_app. left. by apply Inv.
Qed.

Lemma stored_is_probed_run self log calls :
  stored_is_probed self log ->
  stored_is_probed (fst (run self calls)) (log ++ probes self calls).
Proof.
  revert self log. induction calls as [|[now r] calls IH]; intros self log Inv.
  - simpl. by rewrite app_nil_r.
  - simpl.
    pose proof (IH _ _ (stored_is_probed_step self log now r Inv)) as H.
    destruct (run (after (connection self now r)) calls) as [s1 ss1]; simpl in *.
    rewrite <- app_assoc in H. simpl in H.
    by rewrite app_nil_r in H.
Qed.

Lemma stored_is_probed_init url token :
  stored_is_probed (__init__ (PlexServer:=PlexServer) url token) [].
Proof. by intros srv. Qed.

(** C1.  After one successful establishment (handle [srv], recorded time
    [t0]), every acquire call whose clock reading is at most 1800 seconds
    past [t0] makes no establishment attempt, whatever the remote side
    would do: it returns the stored handle and leaves the client unchanged.
    The next acquire call whose clock reading is more than 1800 seconds
    past [t0] runs [_connect] exactly once: the client is left as that one
    run of [_connect] leaves it, and the call hands out the handle that
    run has probed, or raises the [ConnectionError] of that run. *)
Theorem connection_reuses_within_window_then_reconnects_once
    self0 srv (t0 : Q) calls now r :
  Forall (fun c => (fst c - t0 <= 1800)%Q) calls ->
  (1800 < now - t0)%Q ->
  let self := fst (_connect self0 (Probed srv t0)) in
  let s := connection (fst (run self calls)) now r in
  fst (run self calls) = self /\
  Forall (fun s => s = mk_step self (Ok srv) 0) (snd (run self calls)) /\
  attempts s = 1%nat /\
  after s = fst (_connect self r) /\
  outcome s =
    match r with
    | Probed srv' t' => Ok srv'
    | ConstructorRaises e | ProbeRaises _ e => Raise (connect_error self e)
    end /\
  (forall srv' t', r = Probed srv' t' ->
     _connection (after s) = Some srv' /\ _last_connection_time (after s) = t').
Proof.
  intros Hin Hout self.
  assert (forall calls',
    Forall (fun c => (fst c - t0 <= 1800)%Q) calls' ->
    fst (run self calls') = self /\
    Forall (fun s => s = mk_step self (Ok srv) 0) (snd (run self calls')))
    as Hrun.
  { induction calls' as [|[now' r'] calls' IH]; intros Hall.
    - by split; [|constructor].
    - inversion Hall as [|? ? Hhd Htl]; subst. simpl in Hhd.
      destruct (IH Htl) as [IH1 IH2]. simpl.
      rewrite (connection_fresh self now' r' srv); [|done|done].
      simpl. destruct (run self calls') as [s1 ss1]; simpl in *.
      split; [done|]. by constructor. }
  destruct (Hrun calls Hin) as [-> Hsteps]. cbv zeta.
  assert (stale self now = true) as Hstale.
  { apply stale_true_iff. by right. }
  split; [done|]. split; [done|].
  unfold connection. rewrite Hstale.
  destruct r as [e|srv' e|srv' t']; simpl.
  - by repeat split.
  - by repeat split.
  - do 3 (split; [done|]). by intros ? ? [= <- <-].
Qed.

(** C2.  When an acquire call attempts establishment and the remote side
    fails with [e] (in the constructor or in the probe), the client is left
    with no handle and with timestamp 0, and the call raises a
    [ConnectionError] whose message contains the configured endpoint and
    whose cause is [e]; the next acquire call, whatever its clock reading,
    runs establishment again and hands out the handle of a successful
    probe. *)
Theorem connection_failure_clears_handle_and_retries self now r e :
  stale self now = true ->
  failure r = Some e ->
  let s := connection self now r in
  _connection (after s) = None /\
  _last_connection_time (after s) = 0%Q /\
  (exists err, outcome s = Raise err /\
               exn_cls err = ConnectionError /\
               contains (_plex_url self) (str_exn err) /\
               exn_cause err = Some e) /\
  (forall now' r',
      attempts (connection (after s) now' r') = 1%nat /\
      after (connection (after s) now' r') = fst (_connect (after s) r') /\
      forall srv t, r' = Probed srv t ->
        outcome (connection (after s) now' r') = Ok srv).
Proof.
  intros Hs Hf s.
  assert (s = mk_step (__init__ (_plex_url self) (_plex_token self))
                (Raise (connect_error self e)) 1) as ->.
  { subst s. unfold connection. rewrite Hs.
    destruct r; simpl in Hf; simplify_eq; done. }
  simpl. split; [done|]. split; [done|]. split.
  - exists (connect_error self e). split; [done|]. split; [done|]. split; [|done].
    by exists "Failed to connect to Plex server at ", (": " +:+ str_exn e).
  - intros now' r'.
    destruct (connection_stale (__init__ (_plex_url self) (_plex_token self))
                now' r' eq_refl) as [Ha Hb].
    split; [done|]. split; [done|]. by intros srv t ->.
Qed.

(** C9.  When [_connect] returns without raising, a handle is stored; the
    [connection] property therefore never raises its fallback
    [ConnectionError("Failed to connect to Plex server.")]; and a handle
    handed out after any history of acquire calls on a new client is one
    whose probe succeeded at a recorded time [t], the stored timestamp,
    with the clock reading of the call at most 1800 seconds past [t], or
    probed by this very call. *)
Theorem connection_hands_out_probed_handle :
  (forall self r, snd (_connect self r) = Ok () ->
      _connection (fst (_connect self r)) <> None) /\
  (forall self now r, outcome (connection self now r) <> Raise fallback_error) /\
  (forall url token calls now r srv,
      let self := fst (run (__init__ url token) calls) in
      outcome (connection self now r) = Ok srv ->
      exists t,
        In (srv, t) (probes (__init__ url token) (calls ++ [(now, r)])) /\
        _connection (after (connection self now r)) = Some srv /\
        _last_connection_time (after (connection self now r)) = t /\
        ((attempts (connection self now r) = 0%nat /\ (now - t <= 1800)%Q) \/
         (attempts (connection self now r) = 1%nat /\ r = Probed srv t))).
Proof.
  split; [|split].
  - intros self [e|srv e|srv t]; simpl; done.
  - intros self now r. unfold connection.
    destruct (stale self now) eqn:Hs.
    + destruct r as [e|srv e|srv t]; simpl; done.
    + apply stale_false_iff in Hs as (srv & Hc & _). by rewrite Hc.
  - intros url token calls now r srv self Hout.
    pose proof (stored_is_probed_run _ _ (calls ++ [(now, r)])
                  (stored_is_probed_init url token)) as Inv.
    rewrite run_app in Inv. simpl in Inv. fold self in Inv.
    revert Hout Inv. unfold connection.
    destruct (stale self now) eqn:Hs.
    + destruct r as [e|srv' e|srv' t]; simpl; try done.
      intros [= ->] Inv. exists t. split; [by apply Inv|]. eauto.
    + apply stale_false_iff in Hs as (srv' & Hc & Hle). rewrite Hc; simpl.
      intros [= ->] Inv. exists (_last_connection_time self).
      split; [by apply Inv|]. eauto.
Qed.

End Facts.

(** Concrete runs: a session named by a string, established at second 100. *)

Lemma connection_reuses_within_window_then_reconnects_once_witness :
  let self := fst (_connect (__init__ "http://plex:32400" "tok") (Probed "s1" 100)) in
  let calls := [(101%Q, ConstructorRaises (Exn (OtherError "Timeout") "t"));
                (1900%Q, Probed "s2" 1900)] in
  let s := connection (fst (run self calls)) 1901 (Probed "s3" 1902) in
  fst (run self calls) = self /\
  Forall (fun s => s = mk_step self (Ok "s1") 0) (snd (run self calls)) /\
  attempts s = 1%nat /\
  after s = mk "http://plex:32400" "tok" (Some "s3") 1902 /\
  outcome s = Ok "s3".
Proof.
  destruct (connection_reuses_within_window_then_reconnects_once
              (__init__ "http://plex:32400" "tok") "s1" 100
              [(101%Q, ConstructorRaises (Exn (OtherError "Timeout") "t"));
               (1900%Q, Probed "s2" 1900)]
              1901 (Probed "s3" 1902))
    as (Hsame & Hsteps & Hattempts & Hafter & Houtcome & _).
  - repeat constructor; vm_compute; congruence.
  - reflexivity.
  - split; [exact Hsame|]. split; [exact Hsteps|]. split; [exact Hattempts|].
    split; [exact Hafter | exact Houtcome].
Defined.

Lemma connection_failure_clears_handle_and_retries_witness :
  let self := fst (_connect (__init__ "http://plex:32400" "tok") (Probed "s1" 100)) in
  let e := Exn (OtherError "ConnectTimeout") "timed out" in
  let s := connection self 2000 (ProbeRaises "s2" e) in
  (_connection self = Some "s1" /\ _last_connection_time self = 100%Q) /\
  _connection (after s) = None /\
  _last_connection_time (after s) = 0%Q /\
  (exists err, outcome s = Raise err /\
               exn_cls err = ConnectionError /\
               contains (_plex_url self) (str_exn err) /\
               exn_cause err = Some e) /\
  (forall now' r',
      attempts (connection (after s) now' r') = 1%nat /\
      after (connection (after s) now' r') = fst (_connect (after s) r') /\
      forall srv t, r' = Probed srv t ->
        outcome (connection (after s) now' r') = Ok srv).
Proof.
  split; [by split|].
  apply (connection_failure_clears_handle_and_retries
           (fst (_connect (__init__ "http://plex:32400" "tok") (Probed "s1" 100)))
           2000
           (ProbeRaises "s2" (Exn (OtherError "ConnectTimeout") "timed out"))).
  - reflexivity.
  - reflexivity.
Defined.

Lemma connection_hands_out_probed_handle_witness :
  let calls := [(10%Q, Probed "s1" 11); (500%Q, ConstructorRaises (Exn TypeError "x"))] in
  let self := fst (run (__init__ "http://plex:32400" "tok") calls) in
  exists t,
    In ("s1", t) (probes (__init__ "http://plex:32400" "tok")
                    (calls ++ [(1811%Q, ConstructorRaises (Exn TypeError "y"))])) /\
    t = 11%Q.
Proof.
  destruct (connection_hands_out_probed_handle (PlexServer:=string)) as (_ & _ & H).
  destruct (H "http://plex:32400" "tok"
              [(10%Q, Probed "s1" 11); (500%Q, ConstructorRaises (Exn TypeError "x"))]
              1811%Q (ConstructorRaises (Exn TypeError "y")) "s1" eq_refl)
    as (t & Hin & _ & Ht & _).
  exists t. split; [exact Hin | by rewrite <- Ht].
Defined.

End PlexClientFacts.

Module RegistryFacts.
Import Tools Registry.

Section Facts.
Variable on_duplicate : AnyFunction -> AnyFunction -> AnyFunction.

Lemma dom_add_tool (mcp : gmap string AnyFunction) fn :
  dom (add_tool on_duplicate mcp fn) = {[ __name__ fn ]} ∪ dom mcp.
Proof.
  unfold add_tool. destruct (mcp !! __name__ fn); apply dom_insert_L.
Qed.

Lemma dom_add_tools fns (mcp : gmap string AnyFunction) :
  dom (foldl (add_tool on_duplicate) mcp fns) = dom mcp ∪ names fns.
Proof.
  revert mcp. unfold names.
  induction fns as [|fn fns IH]; intros mcp; simpl.
  - set_solver.
  - rewrite IH, dom_add_tool. set_solver.
Qed.

Lemma dom_construct m url token permissions (mcp : gmap string AnyFunction) :
  dom (construct on_duplicate m url token permissions mcp) =
  dom mcp ∪ names (tools_of m permissions).
Proof. destruct m; apply dom_add_tools. Qed.

(** Registering a name twice leaves one entry under that name, whatever the
    package does with duplicates; which tool the entry holds follows
    [on_duplicate]. *)
Lemma add_tool_again (mcp : gmap string AnyFunction) fn1 fn2 :
  __name__ fn1 = __name__ fn2 ->
  mcp !! __name__ fn1 = None ->
  let mcp' := add_tool on_duplicate (add_tool on_duplicate mcp fn1) fn2 in
  dom mcp' = {[ __name__ fn1 ]} ∪ dom mcp /\
  mcp' !! __name__ fn1 = Some (on_duplicate fn1 fn2).
Proof.
  intros Hname Hfresh mcp'. subst mcp'. split.
  - rewrite !dom_add_tool, <- Hname. set_solver.
  - unfold add_tool. rewrite Hfresh, <- Hname, lookup_insert_eq.
    by rewrite lookup_insert_eq.
Qed.

Lemma names_app fns1 fns2 : names (fns1 ++ fns2) = names fns1 ∪ names fns2.
Proof. unfold names. rewrite fmap_app. set_solver. Qed.

(** C3.  Constructing a module at a tier on an empty dispatch surface
    registers exactly: the read block at [read]; the read and write blocks
    at [write]; all three blocks at [delete].  Equivalently, an operation
    listed in the block of tier [tier] is registered if and only if
    [tier] is at most the configured tier. *)
Theorem registration_is_tier_cumulative m url token :
  let surface p := dom (construct on_duplicate m url token p ∅) in
  surface READ = names (block m READ) /\
  surface WRITE = names (block m READ) ∪ names (block m WRITE) /\
  surface DELETE =
    names (block m READ) ∪ names (block m WRITE) ∪ names (block m DELETE) /\
  (forall permissions tier fn,
      fn ∈ block m tier ->
      __name__ fn ∈ surface permissions <-> tier_le tier permissions = true).
Proof.
  intros surface.
  assert (forall p, surface p = names (tools_of m p)) as Hs.
  { intros p. unfold surface. rewrite dom_construct, dom_empty_L. set_solver. }
  split; [|split; [|split]].
  - rewrite Hs. by destruct m.
  - rewrite Hs. destruct m; simpl; by rewrite <- names_app.
  - rewrite Hs. destruct m; simpl; by rewrite <- !names_app.
  - intros permissions tier fn Hfn. rewrite Hs.
    destruct m, tier; simpl in Hfn;
      repeat (apply elem_of_cons in Hfn as [->|Hfn]);
      try (by apply elem_of_nil in Hfn);
      destruct permissions; vm_compute; split; try done;
      intros Hin; exfalso; revert Hin; vm_compute; set_solver.
Qed.

End Facts.

Lemma registration_is_tier_cumulative_witness :
  let surface :=
    dom (construct (fun existing new => new) Media "http://plex:32400" "secret" READ ∅) in
  ("media_search" ∈ surface) /\
  ("media_edit_metadata" ∉ surface) /\
  ("media_delete" ∉ surface).
Proof.
  destruct (registration_is_tier_cumulative (fun existing new => new)
              Media "http://plex:32400" "secret") as (_ & _ & _ & H).
  split; [|split].
  - apply (H READ READ (PlexMediaToolsInit.self_ "media_search")).
    + vm_compute. repeat constructor.
    + reflexivity.
  - intros Hin.
    apply (H READ WRITE (PlexMediaToolsInit.self_ "media_edit_metadata")) in Hin.
    + vm_compute in Hin. discriminate.
    + vm_compute. repeat constructor.
  - intros Hin.
    apply (H READ DELETE (PlexMediaToolsInit.self_ "media_delete")) in Hin.
    + vm_compute in Hin. discriminate.
    + vm_compute. repeat constructor.
Defined.

End RegistryFacts.

Module MediaFacts.
Import Tools MediaLookup Envelope.

Lemma acquire_snd self now r :
  snd (acquire self now r) =
  PlexClient.outcome (PlexClient.connection (Tools._plex_client self) now r).
Proof. done. Qed.

Lemma search_by_title_matches plex media_title library_name k results :
  title_matches plex media_title library_name = Ok results ->
  search_by_title plex media_title library_name k = k results.
Proof.
  unfold title_matches, search_by_title.
  destruct (truthy (opt_str library_name)).
  - by intros ->.
  - by intros ->.
Qed.

Lemma by_title_spec media_title media_id :
  by_title media_title media_id = true ->
  truthy (opt_int media_id) = false /\
  no_identifier media_title media_id = false /\
  exists title, media_title = Some title /\ title <> "".
Proof.
  unfold by_title, no_identifier. intros [Hid Ht]%andb_true_iff.
  apply negb_true_iff in Hid. rewrite Hid, Ht. repeat split.
  destruct media_title as [title|]; [|done].
  exists title. split; [done|]. by intros ->.
Qed.

Lemma find_media_by_title plex media_title media_id library_name k results :
  by_title media_title media_id = true ->
  title_matches plex media_title library_name = Ok results ->
  MediaArtwork.find_media plex media_title media_id library_name k =
  match results with
  | [] => no_media_found media_title
  | media :: _ =>
      if (1 <? length results)%nat then MediaArtwork.multiple_items media_title
      else k media
  end.
Proof.
  intros (Hid & _ & _)%by_title_spec Hm. unfold MediaArtwork.find_media.
  rewrite Hid. by rewrite (search_by_title_matches _ _ _ _ _ Hm).
Qed.

Lemma details_body_by_title repr plex media_title media_id library_name results :
  by_title media_title media_id = true ->
  title_matches plex media_title library_name = Ok results ->
  MediaDetails.details_body repr (Ok plex) media_title media_id library_name =
  match results with
  | [] => no_media_found media_title
  | media :: _ =>
      if (1 <? length results)%nat
      then MediaDetails.multiple_results media_title results
      else MediaDetails.details_of repr media
  end.
Proof.
  intros (Hid & Hno & _)%by_title_spec Hm. unfold MediaDetails.details_body. simpl.
  rewrite Hno, Hid. by rewrite (search_by_title_matches _ _ _ _ _ Hm).
Qed.


Lemma not_serializable_list l :
  not_serializable (VList l) = None <-> Forall (fun x => not_serializable x = None) l.
Proof.
  induction l as [|x l IH].
  - split; [constructor | done].
  - change (not_serializable (VList (x :: l))) with
      (match not_serializable x with
       | Some c => Some c
       | None => not_serializable (VList l)
       end).
    split.
    + destruct (not_serializable x) eqn:Hx; [done|]. intros H.
      constructor; [done | by apply IH].
    + intros H. inversion H as [|? ? Hx Hl]; subst. rewrite Hx. by apply IH.
Qed.

Lemma not_serializable_dict d :
  not_serializable (VDict d) = None <->
  Forall (fun kv => not_serializable (snd kv) = None) d.
Proof.
  induction d as [|[k x] d IH].
  - split; [constructor | done].
  - change (not_serializable (VDict ((k, x) :: d))) with
      (match not_serializable x with
       | Some c => Some c
       | None => not_serializable (VDict d)
       end).
    split.
    + destruct (not_serializable x) eqn:Hx; [done|]. intros H.
      constructor; [done | by apply IH].
    + intros H. inversion H as [|? ? Hx Hl]; subst. simpl in Hx. rewrite Hx.
      by apply IH.
Qed.

Lemma json_dumps_ok v : not_serializable v = None -> json_dumps v = Ok v.
Proof. unfold json_dumps. by intros ->. Qed.

Lemma getattr_serializable v name dflt :
  not_serializable dflt = None ->
  not_serializable (getattr v name VNone) = None ->
  not_serializable (getattr v name dflt) = None.
Proof.
  intros Hd. unfold getattr. destruct v; try done.
  by destruct (lookup_key name attrs).
Qed.

Lemma set_key_serializable k v (d : list (string * val)) :
  not_serializable v = None ->
  Forall (fun kv => not_serializable (snd kv) = None) d ->
  Forall (fun kv => not_serializable (snd kv) = None) (set_key k v d).
Proof.
  intros Hv. induction 1 as [|[k' v'] d Hx Hd IH]; simpl.
  - by repeat constructor.
  - destruct (String.eqb k k'); constructor; done.
Qed.

Lemma candidate_serializable i item :
  plain item = true -> not_serializable (MediaDetails.candidate i item) = None.
Proof.
  unfold plain. rewrite forallb_forall. intros Hplain.
  assert (forall name dflt, In name candidate_attrs ->
            not_serializable dflt = None ->
            not_serializable (getattr (of_obj item) name dflt) = None) as Hattr.
  { intros name dflt Hin Hd. apply getattr_serializable; [done|].
    specialize (Hplain name Hin). by apply bool_decide_eq_true in Hplain. }
  unfold MediaDetails.candidate. apply not_serializable_dict.
  assert (forall d, Forall (fun kv => not_serializable (snd kv) = None) d ->
            Forall (fun kv => not_serializable (snd kv) = None)
              (if eq_str (getattr (of_obj item) "type" (VStr "unknown")) "episode"
               then update d
                      [("show", getattr (of_obj item) "grandparentTitle" (VStr "Unknown Show"));
                       ("season", getattr (of_obj item) "parentIndex" (VStr "?"));
                       ("episode", getattr (of_obj item) "index" (VStr "?"))]
               else d)) as Hepisode.
  { intros d Hd. destruct (eq_str _ "episode"); [|done].
    unfold update. simpl.
    repeat apply set_key_serializable; try done;
      apply Hattr; try done; unfold candidate_attrs; simpl; tauto. }
  apply Hepisode.
  assert (Forall (fun kv => not_serializable (snd kv) = None)
            [("index", VInt (Z.of_nat i));
             ("title", getattr (of_obj item) "title" (VStr "Unknown"));
             ("type", getattr (of_obj item) "type" (VStr "unknown"));
             ("rating_key", getattr (of_obj item) "ratingKey" VNone)]) as Hbase.
  { repeat constructor; simpl; apply Hattr; try done;
      unfold candidate_attrs; simpl; tauto. }
  destruct (truthy _); [|done].
  apply set_key_serializable; [|done].
  apply Hattr; [|done]. unfold candidate_attrs; simpl; tauto.
Qed.

Lemma candidate_fields i item :
  exists d,
    MediaDetails.candidate i item = VDict d /\
    lookup_key "title" d = Some (getattr (of_obj item) "title" (VStr "Unknown")) /\
    lookup_key "type" d = Some (getattr (of_obj item) "type" (VStr "unknown")) /\
    lookup_key "rating_key" d = Some (getattr (of_obj item) "ratingKey" VNone).
Proof.
  unfold MediaDetails.candidate.
  destruct (truthy _), (eq_str _ "episode"); eexists; (split; [reflexivity|]);
    repeat split.
Qed.

Lemma candidates_serializable results :
  Forall (fun item => plain item = true) (take 10 results) ->
  not_serializable (VList (MediaDetails.candidates results)) = None.
Proof.
  intros Hplain. apply not_serializable_list. unfold MediaDetails.candidates.
  apply Forall_forall. intros c Hin.
  apply list_elem_of_lookup in Hin as [i Hi].
  rewrite list_lookup_imap in Hi.
  destruct (take 10 results !! i) as [item|] eqn:Hitem; [|done].
  simpl in Hi. injection Hi as <-. apply candidate_serializable.
  rewrite Forall_forall in Hplain. apply Hplain.
  apply list_elem_of_lookup. eauto.
Qed.

Lemma media_get_details_snd repr self now r media_title media_id library_name :
  snd (MediaDetails.media_get_details repr self now r media_title media_id library_name) =
  try_except
    (MediaDetails.details_body repr (snd (acquire self now r))
       media_title media_id library_name)
    (fun e => Ok (failure "Error getting media details: " e)).
Proof. unfold MediaDetails.media_get_details. by destruct (acquire self now r). Qed.

Section Facts.
Variable repr : val -> string.
Variable isalnum : ascii -> bool.
Variable b64encode : string -> string.
Variable requests_get : string -> result Requests.Response.
Variable write_file : string -> string -> result unit.

(** C10.  When a title-based lookup of [media_get_artwork] or of
    [media_list_available_artwork] (valid art type, connection acquired)
    matches more than one entity, the tool returns the two-field object
    [status = "error"], [message = "Multiple items found matching
    '<title>'. Please use media_id for specific selection."]: it carries
    no [count] and no [results]. *)
Theorem artwork_tools_answer_ambiguous_title_with_error
    self now r plex media_title media_id library_name art_type
    save_to_file output_path results :
  by_title media_title media_id = true ->
  MediaArtwork.valid_art_type art_type = true ->
  snd (acquire self now r) = Ok plex ->
  title_matches plex media_title library_name = Ok results ->
  (1 < length results)%nat ->
  let message :=
    "Multiple items found matching '" +:+ format_opt media_title
      +:+ "'. Please use media_id for specific selection." in
  let answer := VDict [("status", VStr "error"); ("message", VStr message)] in
  snd (MediaArtwork.media_get_artwork repr isalnum b64encode requests_get write_file
         self now r media_title media_id library_name art_type
         save_to_file output_path) = Ok answer /\
  snd (MediaArtwork.media_list_available_artwork repr
         self now r media_title media_id library_name art_type) = Ok answer /\
  contains "media_id" message /\
  field "status" answer = Some (VStr "error") /\
  field "count" answer = None /\
  field "results" answer = None.
Proof.
  intros Ht Hart Hconn Hm Hlen message answer.
  pose proof (by_title_spec _ _ Ht) as (_ & Hno & _).
  assert ((1 <? length results)%nat = true) as Hlt by by apply Nat.ltb_lt.
  unfold MediaArtwork.media_get_artwork, MediaArtwork.media_list_available_artwork.
  destruct (acquire self now r) as [self' connection] eqn:Hacq.
  simpl in Hconn. subst connection. simpl.
  unfold MediaArtwork.artwork_body, MediaArtwork.available_body. simpl.
  rewrite Hno, Hart. simpl.
  rewrite !(find_media_by_title _ _ _ _ _ _ Ht Hm), Hlt.
  destruct results as [|media others]; [simpl in Hlen; lia|].
  repeat split; try done.
  exists ("Multiple items found matching '" +:+ format_opt media_title
            +:+ "'. Please use "), " for specific selection.".
  unfold message. by rewrite !StringFacts.append_assoc.
Qed.

(** C5, as the code has it.  When a title-based lookup of
    [media_get_details] matches more than one entity (connection acquired),
    the tool builds a candidate list of [min(count, 10)] items; the item at
    each position has the [title], the [type] and, as [rating_key], the
    [ratingKey] attribute of the match at that position: the integer [k]
    when that is [k], [None] when the match has no such attribute.  When
    the list is JSON data, as it is when the attributes read from the first
    ten matches are, the tool returns an object with
    [status = "multiple_results"], [count] the number of matches and
    [results] that list; when it is not, [json.dumps] raises and the tool
    returns [status = "error"] with the message
    ["Error getting media details: Object of type <class> is not JSON
    serializable"]. *)
Theorem media_get_details_lists_candidates
    self now r plex media_title media_id library_name results :
  by_title media_title media_id = true ->
  snd (acquire self now r) = Ok plex ->
  title_matches plex media_title library_name = Ok results ->
  (1 < length results)%nat ->
  let media_list := MediaDetails.candidates results in
  let answer :=
    snd (MediaDetails.media_get_details repr self now r
           media_title media_id library_name) in
  (not_serializable (VList media_list) = None ->
   exists message,
     answer =
     Ok (VDict [("status", VStr "multiple_results");
                ("message", VStr message);
                ("count", VInt (Z.of_nat (length results)));
                ("results", VList media_list)])) /\
  (forall cls,
      not_serializable (VList media_list) = Some cls ->
      answer =
      Ok (VDict [("status", VStr "error");
                 ("message",
                  VStr ("Error getting media details: Object of type " +:+ cls
                          +:+ " is not JSON serializable"))])) /\
  (Forall (fun item => plain item = true) (take 10 results) ->
   not_serializable (VList media_list) = None) /\
  length media_list = min (length results) 10 /\
  (length media_list <= 10)%nat /\
  (forall i item,
      results !! i = Some item -> (i < 10)%nat ->
      exists d,
        media_list !! i = Some (VDict d) /\
        lookup_key "title" d = Some (getattr (of_obj item) "title" (VStr "Unknown")) /\
        lookup_key "type" d = Some (getattr (of_obj item) "type" (VStr "unknown")) /\
        lookup_key "rating_key" d = Some (getattr (of_obj item) "ratingKey" VNone) /\
        (forall k, lookup_key "ratingKey" (obj_attrs item) = Some (VInt k) ->
                   lookup_key "rating_key" d = Some (VInt k)) /\
        (lookup_key "ratingKey" (obj_attrs item) = None ->
         lookup_key "rating_key" d = Some VNone)).
Proof.
  intros Ht Hconn Hm Hlen. cbv zeta.
  assert ((1 <? length results)%nat = true) as Hlt by by apply Nat.ltb_lt.
  assert (snd (MediaDetails.media_get_details repr self now r
                 media_title media_id library_name) =
          try_except
            (MediaDetails.multiple_results media_title results)
            (fun e => Ok (failure "Error getting media details: " e))) as ->.
  { rewrite media_get_details_snd, Hconn.
    rewrite (details_body_by_title _ _ _ _ _ _ Ht Hm), Hlt.
    destruct results as [|media others]; [simpl in Hlen; lia | done]. }
  unfold MediaDetails.multiple_results, json_dumps.
  change (not_serializable
            (VDict [("status", VStr "multiple_results");
                    ("message",
                     VStr ("Multiple items found matching '"
                             +:+ format_opt media_title
                             +:+ "'. Please specify a media_id or use a more specific title."));
                    ("count", VInt (Z.of_nat (length results)));
                    ("results", VList (MediaDetails.candidates results))]))
    with (match not_serializable (VList (MediaDetails.candidates results)) with
          | Some c => Some c
          | None => None
          end).
  split; [|split; [|split; [|split; [|split]]]].
  - intros ->. by eexists.
  - by intros cls ->.
  - apply candidates_serializable.
  - unfold MediaDetails.candidates. rewrite length_imap, length_take. lia.
  - unfold MediaDetails.candidates. rewrite length_imap, length_take. lia.
  - intros i item Hi Hi10.
    destruct (candidate_fields (S i) item) as (d & Hd & Htitle & Htype & Hkey).
    exists d. unfold MediaDetails.candidates.
    rewrite list_lookup_imap, lookup_take_lt, Hi by done. simpl.
    rewrite Hd. do 4 (split; [done|]). split.
    + intros k Hk. rewrite Hkey. unfold getattr, of_obj. by rewrite Hk.
    + intros Hk. rewrite Hkey. unfold getattr, of_obj. by rewrite Hk.
Qed.


End Facts.

Lemma media_get_details_lists_candidates_witness :
  exists message,
    snd (MediaDetails.media_get_details Examples.repr
           Examples.media_tools 0 Examples.reachable (Some "Alien") None None) =
      Ok (VDict [("status", VStr "multiple_results");
                 ("message", VStr message);
                 ("count", VInt 3);
                 ("results",
                  VList (MediaDetails.candidates
                           [Examples.alien; Examples.aliens; Examples.alien_nation]))]) /\
    length (MediaDetails.candidates
              [Examples.alien; Examples.aliens; Examples.alien_nation]) = 3%nat.
Proof.
  destruct (media_get_details_lists_candidates Examples.repr
              Examples.media_tools 0 Examples.reachable Examples.server
              (Some "Alien") None None
              [Examples.alien; Examples.aliens; Examples.alien_nation])
    as (Hresult & _ & Hplain & Hlength & _).
  - reflexivity.
  - reflexivity.
  - reflexivity.
  - simpl. lia.
  - destruct (Hresult (Hplain ltac:(repeat constructor))) as [message Hanswer].
    exists message. split; [exact Hanswer | exact Hlength].
Defined.

(** C5 as stated fails on matches without a [ratingKey]: the candidates of
    a title that matches two such entities carry [rating_key = None], not
    a numeric identifier. *)
Lemma media_get_details_candidate_without_identifier :
  let answer :=
    VDict [("status", VStr "multiple_results");
           ("message",
            VStr "Multiple items found matching 'Trailer'. Please specify a media_id or use a more specific title.");
           ("count", VInt 2);
           ("results",
            VList [VDict [("index", VInt 1); ("title", VStr "Trailer");
                          ("type", VStr "clip"); ("rating_key", VNone)];
                   VDict [("index", VInt 2); ("title", VStr "Trailer");
                          ("type", VStr "clip"); ("rating_key", VNone)]])] in
  snd (MediaDetails.media_get_details Examples.repr
         Examples.media_tools 0 (PlexClient.Probed CandidateExamples.archive 100)
         (Some "Trailer") None None) = Ok answer /\
  forall items item k,
    field "results" answer = Some (VList items) -> item ∈ items ->
    field "rating_key" item <> Some (VInt k).
Proof.
  split; [reflexivity|].
  intros items item k [= <-] Hin.
  apply elem_of_cons in Hin as [->|Hin]; [done|].
  apply elem_of_cons in Hin as [->|Hin]; [done|].
  by apply elem_of_nil in Hin.
Qed.



Lemma artwork_tools_answer_ambiguous_title_with_error_witness :
  let answer :=
    VDict [("status", VStr "error");
           ("message",
            VStr "Multiple items found matching 'Alien'. Please use media_id for specific selection.")] in
  snd (MediaArtwork.media_get_artwork Examples.repr Examples.isalnum Examples.b64encode
         Examples.no_network Examples.read_only
         Examples.media_tools 0 Examples.reachable
         (Some "Alien") None None "poster" false None) = Ok answer /\
  snd (MediaArtwork.media_list_available_artwork Examples.repr
         Examples.media_tools 0 Examples.reachable
         (Some "Alien") None None "poster") = Ok answer.
Proof.
  destruct (artwork_tools_answer_ambiguous_title_with_error
              Examples.repr Examples.isalnum Examples.b64encode
              Examples.no_network Examples.read_only
              Examples.media_tools 0 Examples.reachable Examples.server
              (Some "Alien") None None "poster" false None
              [Examples.alien; Examples.aliens; Examples.alien_nation])
    as (H1 & H2 & _).
  - reflexivity.
  - reflexivity.
  - reflexivity.
  - reflexivity.
  - simpl. lia.
  - split; [exact H1 | exact H2].
Defined.

End MediaFacts.

(** ** Every tool returns a document *)

Module EnvelopeFacts.
Import Tools MediaLookup Envelope.

Section Returns.
Variable P : val -> Prop.

Lemma returns_bind {A} (m : result A) (k : A -> result val) :
  (forall a, returns P (k a)) -> returns P (bind m k).
Proof. intros Hk. destruct m; simpl; [apply Hk | done]. Qed.

Lemma returns_dumps doc : P doc -> returns P (json_dumps doc).
Proof. intros HP. unfold json_dumps. by destruct (not_serializable doc). Qed.

Lemma returns_try suite handler :
  returns P suite ->
  (forall e, exists doc, handler e = Ok doc /\ P doc) ->
  exists doc, try_except suite handler = Ok doc /\ P doc.
Proof.
  intros Hs Hh. destruct suite as [doc|e]; simpl; [by exists doc | apply Hh].
Qed.
End Returns.

Lemma enveloped_error message : enveloped (error message).
Proof. done. Qed.

Lemma enveloped_search_by_title plex media_title library_name k :
  (forall results, enveloped (k results)) ->
  enveloped (search_by_title plex media_title library_name k).
Proof.
  intros Hk. unfold search_by_title.
  destruct (truthy (opt_str library_name)).
  - destruct (bind _ _) as [results|e]; [apply Hk|].
    destruct (is_NotFound e); done.
  - by apply returns_bind.
Qed.

Lemma enveloped_fetch_by_id plex media_id k :
  (forall media, enveloped (k media)) -> enveloped (fetch_by_id plex media_id k).
Proof.
  intros Hk. unfold fetch_by_id.
  destruct (Plex.fetchItem plex media_id); [apply Hk | done].
Qed.

Lemma enveloped_find_media plex media_title media_id library_name k :
  (forall media, enveloped (k media)) ->
  enveloped (MediaArtwork.find_media plex media_title media_id library_name k).
Proof.
  intros Hk. unfold MediaArtwork.find_media.
  destruct (truthy (opt_int media_id)).
  - by apply enveloped_fetch_by_id.
  - apply enveloped_search_by_title. intros [|media others]; [done|].
    destruct (1 <? _)%nat; [done | apply Hk].
Qed.

(** One step of a proof that a suite returns an envelope when it returns. *)
Ltac envelope_step :=
  first
    [ exact I
    | apply enveloped_error
    | apply returns_dumps; reflexivity
    | apply returns_bind; intros
    | apply enveloped_fetch_by_id; intros
    | apply enveloped_search_by_title; intros
    | apply enveloped_find_media; intros
    | match goal with
      | |- returns _ (if ?b then _ else _) => destruct b
      | |- returns _ (let '(_, _) := ?x in _) => destruct x
      | |- returns _ (match ?x with _ => _ end) => destruct x
      end ].

Lemma enveloped_details_of repr media : enveloped (MediaDetails.details_of repr media).
Proof. unfold MediaDetails.details_of. cbv zeta. repeat envelope_step. Qed.

Lemma enveloped_multiple_results media_title results :
  enveloped (MediaDetails.multiple_results media_title results).
Proof. unfold MediaDetails.multiple_results. cbv zeta. repeat envelope_step. Qed.

Lemma enveloped_details_body repr connection media_title media_id library_name :
  enveloped (MediaDetails.details_body repr connection media_title media_id library_name).
Proof.
  unfold MediaDetails.details_body.
  apply returns_bind. intros plex.
  destruct (no_identifier media_title media_id); [done|].
  destruct (truthy (opt_int media_id)).
  - apply enveloped_fetch_by_id. intros media. apply enveloped_details_of.
  - apply enveloped_search_by_title. intros [|media others]; [done|].
    destruct (1 <? _)%nat;
      [apply enveloped_multiple_results | apply enveloped_details_of].
Qed.

Lemma enveloped_search_body urlencode http_get plex_url plex_token query content_type :
  enveloped (MediaSearch.search_body urlencode http_get plex_url plex_token
               query content_type).
Proof. unfold MediaSearch.search_body. cbv zeta. repeat envelope_step. Qed.

Section Artwork.
Variable repr : val -> string.
Variable isalnum : ascii -> bool.
Variable b64encode : string -> string.
Variable requests_get : string -> result Requests.Response.
Variable write_file : string -> string -> result unit.

Lemma enveloped_artwork_of plex_url plex_token art_type save_to_file output_path media :
  enveloped (MediaArtwork.artwork_of repr isalnum b64encode requests_get write_file
               plex_url plex_token art_type save_to_file output_path media).
Proof. unfold MediaArtwork.artwork_of. cbv zeta. repeat envelope_step. Qed.

Lemma enveloped_artwork_body plex_url plex_token connection
    media_title media_id library_name art_type save_to_file output_path :
  enveloped (MediaArtwork.artwork_body repr isalnum b64encode requests_get write_file
               plex_url plex_token connection media_title media_id library_name
               art_type save_to_file output_path).
Proof.
  unfold MediaArtwork.artwork_body.
  apply returns_bind. intros plex.
  destruct (no_identifier media_title media_id); [done|].
  destruct (negb _); [done|].
  apply enveloped_find_media. intros media. apply enveloped_artwork_of.
Qed.

Lemma enveloped_available_of plex_url plex_token art_type media :
  enveloped (MediaArtwork.available_of repr plex_url plex_token art_type media).
Proof. unfold MediaArtwork.available_of. cbv zeta. repeat envelope_step. Qed.

Lemma enveloped_available_body plex_url plex_token connection
    media_title media_id library_name art_type :
  enveloped (MediaArtwork.available_body repr plex_url plex_token connection
               media_title media_id library_name art_type).
Proof.
  unfold MediaArtwork.available_body.
  apply returns_bind. intros plex.
  destruct (no_identifier media_title media_id); [done|].
  destruct (negb _); [done|].
  apply enveloped_find_media. intros media. apply enveloped_available_of.
Qed.

Lemma media_get_artwork_snd self now r media_title media_id library_name
    art_type save_to_file output_path :
  snd (MediaArtwork.media_get_artwork repr isalnum b64encode requests_get write_file
         self now r media_title media_id library_name art_type
         save_to_file output_path) =
  try_except
    (MediaArtwork.artwork_body repr isalnum b64encode requests_get write_file
       (Tools._plex_url self) (Tools._plex_token self) (snd (acquire self now r))
       media_title media_id library_name art_type save_to_file output_path)
    (fun e => Ok (failure "Error getting media artwork: " e)).
Proof. unfold MediaArtwork.media_get_artwork. by destruct (acquire self now r). Qed.

Lemma media_list_available_artwork_snd self now r media_title media_id
    library_name art_type :
  snd (MediaArtwork.media_list_available_artwork repr
         self now r media_title media_id library_name art_type) =
  try_except
    (MediaArtwork.available_body repr
       (Tools._plex_url self) (Tools._plex_token self) (snd (acquire self now r))
       media_title media_id library_name art_type)
    (fun e => Ok (failure "Error listing available artwork: " e)).
Proof.
  unfold MediaArtwork.media_list_available_artwork. by destruct (acquire self now r).
Qed.

End Artwork.

Lemma listing_list_body connection library_name content_type :
  returns listing (PlaylistList.list_body connection library_name content_type).
Proof.
  unfold PlaylistList.list_body.
  apply returns_bind. intros plex.
  destruct (_ && _).
  - right. by eexists.
  - apply returns_bind. intros playlists.
    destruct (truthy (opt_str library_name)).
    + destruct (bind _ _) as [playlists'|e].
      * apply returns_dumps. by left.
      * destruct (is_NotFound e); [|done]. right. by eexists.
    + apply returns_dumps. by left.
Qed.

Lemma playlist_list_snd self now r library_name content_type :
  snd (PlaylistList.playlist_list self now r library_name content_type) =
  try_except
    (PlaylistList.list_body (snd (acquire self now r)) library_name content_type)
    (fun e => Ok (VDict [("error", VStr (str_exn e))])).
Proof. unfold PlaylistList.playlist_list. by destruct (acquire self now r). Qed.

Lemma failure_well_formed context e : well_formed (failure context e) = true.
Proof. done. Qed.

(** *** Suites that make calls and return early *)

Section Suites.
Import Effects.
Variable P : val -> Prop.

Lemma returns_try_except suite handler :
  returns P suite -> (forall e, returns P (handler e)) ->
  returns P (Py.try_except suite handler).
Proof. intros Hs Hh. destruct suite as [doc|e]; simpl; [done | apply Hh]. Qed.

Lemma returns_eff_bind {A} (m : eff A) (k : A -> eff val) :
  (forall a, returns P (snd (k a))) -> returns P (snd (Effects.bind m k)).
Proof.
  intros Hk. destruct m as [made [a|e]]; simpl; [|done].
  specialize (Hk a). by destruct (k a).
Qed.

Lemma returns_eff_try (body : eff val) handler :
  returns P (snd body) -> (forall e, returns P (handler e)) ->
  returns P (snd (Effects.try_except body handler)).
Proof. intros Hb Hh. by apply returns_try_except. Qed.

Lemma yields_bind {A B} (Q : B -> Prop) (m : result A) (k : A -> result (early B)) :
  (forall a, yields P Q (k a)) -> yields P Q (Py.bind m k).
Proof. intros Hk. destruct m; simpl; [apply Hk | done]. Qed.

Lemma yields_answer {A} (Q : A -> Prop) text :
  returns P text -> yields P Q (answer text).
Proof. by destruct text. Qed.

Lemma yields_try_return {A} (Q : A -> Prop) body handler :
  yields P Q body -> (forall e, returns P (handler e)) ->
  yields P Q (try_return body handler).
Proof.
  intros Hb Hh. destruct body as [x|e]; simpl; [done|].
  by apply yields_answer.
Qed.

Lemma yields_and_then {A B} (Q : B -> Prop) (m : eff (early A)) k :
  yields P (fun _ => True) (snd m) ->
  (forall a, yields P Q (snd (k a))) ->
  yields P Q (snd (and_then m k)).
Proof.
  intros Hm Hk. destruct m as [made [[a|text]|e]]; simpl in *; [|done..].
  specialize (Hk a). by destruct (k a).
Qed.

Lemma returns_finish m : yields P P (snd m) -> returns P (snd (finish m)).
Proof. by destruct m as [made [[a|text]|e]]. Qed.

Lemma yields_step_returns r : returns P r -> yields P P (snd (step r)).
Proof. by destruct r. Qed.

Lemma yields_step {A} (r : result A) : yields P (fun _ => True) (snd (step r)).
Proof. by destruct r. Qed.

Lemma yields_act {A} (m : eff A) : yields P (fun _ => True) (snd (act m)).
Proof. by destruct m as [made [a|e]]. Qed.

Lemma yields_returned {A} (Q : A -> Prop) m :
  returns P (snd m) -> yields P Q (snd (returned m)).
Proof. by destruct m as [made [text|e]]. Qed.

Lemma yields_eff_bind {A B} (Q : B -> Prop) (m : eff A) (k : A -> eff (early B)) :
  (forall a, yields P Q (snd (k a))) -> yields P Q (snd (Effects.bind m k)).
Proof.
  intros Hk. destruct m as [made [a|e]]; simpl; [|done].
  specialize (Hk a). by destruct (k a).
Qed.

Lemma returns_eff_found {A} (m : eff (early A)) (k : early A -> eff val) :
  yields P (fun _ => True) (snd m) ->
  (forall a, returns P (snd (k (Continue a)))) ->
  (forall text, P text -> returns P (snd (k (Return text)))) ->
  returns P (snd (Effects.bind m k)).
Proof.
  intros Hm Hgo Hret. destruct m as [made [[a|text]|e]]; simpl in *; [| |done].
  - specialize (Hgo a). by destruct (k (Continue a)).
  - specialize (Hret text Hm). by destruct (k (Return text)).
Qed.

End Suites.

Lemma yields_mono {A} (P P' : val -> Prop) (Q : A -> Prop) m :
  (forall doc, P doc -> P' doc) -> Effects.yields P Q m -> Effects.yields P' Q m.
Proof. intros HP. destruct m as [[a|text]|e]; simpl; auto. Qed.

Lemma returns_mono (P P' : val -> Prop) m :
  (forall doc, P doc -> P' doc) -> returns P m -> returns P' m.
Proof. intros HP. destruct m as [doc|e]; simpl; auto. Qed.

(** One step of a proof that a suite with early returns answers with a
    document of the expected kind whenever it returns. *)
Ltac suite_step :=
  first
    [ exact I
    | apply returns_dumps; reflexivity
    | apply returns_finish
    | apply yields_and_then; [|intros]
    | apply yields_step_returns
    | apply yields_step
    | apply yields_act
    | apply yields_returned
    | apply yields_answer
    | apply yields_try_return; [|intros]
    | apply yields_bind; intros
    | apply returns_bind; intros
    | apply returns_eff_bind; intros
    | apply returns_eff_try; [|intros]
    | apply returns_try_except; [|intros]
    | match goal with
      | |- returns _ (snd (Effects.pure ?r)) => change (snd (Effects.pure r)) with r
      | |- Effects.yields _ _ (snd (Effects.pure ?r)) =>
          change (snd (Effects.pure r)) with r
      | |- Effects.yields _ _ (Ok (Effects.Continue _)) => exact I
      | |- context [if ?b then _ else _] => destruct b
      | |- context [match ?x with _ => _ end] => destruct x
      end ].

(** *** The lookups *)

Lemma yields_single (Q : obj -> Prop) media_title advice results :
  (forall media, Q media) ->
  Effects.yields well_formed_doc Q (MediaChange.single media_title advice results).
Proof.
  intros HQ. unfold MediaChange.single, MediaChange.multiple_results, no_media_found.
  cbv zeta. destruct results as [|media others]; [by apply yields_answer|].
  destruct (1 <? _)%nat; [|apply HQ].
  apply yields_answer. by apply returns_dumps.
Qed.

Lemma yields_search (Q : obj -> Prop) plex media_title library_name advice :
  (forall media, Q media) ->
  Effects.yields well_formed_doc Q
    (MediaChange.search plex media_title library_name advice).
Proof.
  intros HQ. unfold MediaChange.search.
  destruct (truthy _).
  - destruct (bind _ _) as [results|e]; [by apply yields_single|].
    destruct (is_NotFound e); [|done]. by apply yields_answer.
  - apply yields_bind. intros results. by apply yields_single.
Qed.

Lemma yields_find_media plex media_title media_id library_name :
  Effects.yields well_formed_doc (fun _ => True)
    (MediaDelete.find_media plex media_title media_id library_name).
Proof.
  unfold MediaDelete.find_media.
  destruct (no_identifier _ _); [by apply yields_answer|].
  destruct (truthy _); [|by apply yields_search].
  destruct (Plex.fetchItem _ _); [done|]. by apply yields_answer.
Qed.

Lemma yields_playlist_by_id truth plex playlist_id :
  Effects.yields error_doc (fun _ => True)
    (PlaylistDelete.find_by_id truth plex playlist_id).
Proof.
  unfold PlaylistDelete.find_by_id.
  match goal with
  | |- Effects.yields _ _ (match ?m with _ => _ end) =>
      assert (Effects.yields error_doc (fun _ : obj => True) m) as Hfound;
      [|destruct m; [exact Hfound | by apply yields_answer]]
  end.
  apply yields_bind. intros [playlist|]; [|by apply yields_answer].
  destruct (truth playlist); [done | by apply yields_answer].
Qed.

Lemma yields_playlist_by_title str_lower plex playlist_title :
  Effects.yields error_doc (fun _ => True)
    (PlaylistDelete.find_by_title str_lower plex playlist_title).
Proof.
  unfold PlaylistDelete.find_by_title.
  apply yields_bind. intros playlists. apply yields_bind.
  intros [|playlist others]; [by apply yields_answer|].
  destruct (1 <? _)%nat; [|done].
  apply yields_bind. intros matches. apply yields_answer. by apply returns_dumps.
Qed.

Lemma yields_locate str_lower truth plex playlist_title playlist_id :
  Effects.yields error_doc (fun _ => True)
    (PlaylistLookup.locate str_lower truth plex playlist_title playlist_id).
Proof.
  unfold PlaylistLookup.locate.
  destruct (truthy _); [apply yields_playlist_by_id | apply yields_playlist_by_title].
Qed.

Lemma yields_find_playlist str_lower truth plex playlist_title playlist_id :
  Effects.yields error_doc (fun _ => True)
    (PlaylistDelete.find_playlist str_lower truth plex playlist_title playlist_id).
Proof.
  unfold PlaylistDelete.find_playlist.
  destruct (no_identifier _ _); [by apply yields_answer|].
  destruct (truthy _); [apply yields_playlist_by_id | apply yields_playlist_by_title].
Qed.

Lemma error_object_change doc : error_object doc = true -> change_answer doc = true.
Proof. unfold change_answer. by intros ->. Qed.

Lemma error_object_contents doc : error_object doc = true -> contents_answer doc = true.
Proof. unfold contents_answer. by intros ->. Qed.

Lemma error_object_edit doc : error_object doc = true -> playlist_edit_answer doc = true.
Proof. unfold playlist_edit_answer. by intros ->. Qed.

Lemma well_formed_edit doc : well_formed doc = true -> edit_answer doc = true.
Proof. unfold edit_answer. by intros ->. Qed.

(** *** A tool: its suite under [try], and the handler *)

Lemma try_answers (P : val -> Prop) suite handler h :
  returns P suite ->
  (forall e, handler e = Ok (h e) /\ P (h e)) ->
  always P (try_except suite handler) /\ handles suite h (try_except suite handler).
Proof.
  intros Hs Hh. split.
  - destruct suite as [doc|e]; simpl; [by exists doc|].
    destruct (Hh e) as [-> HP]. by eexists.
  - intros e ->. simpl. by destruct (Hh e) as [-> _].
Qed.

Section Tools.
Import Effects.
Variable repr : val -> string.
Variable isalnum : ascii -> bool.
Variable b64encode : string -> string.
Variable urlencode : list (string * val) -> string.
Variable http_get : string -> list (string * string) -> result Requests.Response.
Variable requests_get : string -> result Requests.Response.
Variable write_file : string -> string -> result unit.
Variable float : Type.
Variable float_str : float -> string.
Variable float_eq : float -> val -> bool.
Variable str_lower : string -> string.
Variable truth : obj -> bool.
Variable path_exists : string -> bool.
Variable read_file : string -> result string.
Variable session_get : string -> result PlaylistUploadPoster.Response.
Variable library_search : Plex.PlexServer -> string -> result (list obj).
Variable myPlexAccount : Plex.PlexServer -> result PlaylistCopyToUser.Account.
Variable outcome : call -> result val.
Variable leaves : call -> obj.

Lemma returns_delete_body connection media_title media_id library_name :
  returns well_formed_doc
    (snd (MediaDelete.delete_body repr outcome connection
            media_title media_id library_name)).
Proof.
  unfold MediaDelete.delete_body.
  apply returns_eff_bind. intros plex.
  apply returns_eff_found; [apply yields_find_media | | done].
  intros media. cbv zeta. repeat suite_step.
Qed.

Lemma yields_set_image upload what label path url changes :
  yields well_formed_doc (fun _ => True)
    (snd (MediaSetArtwork.set_image path_exists outcome upload what label
            path url changes)).
Proof.
  unfold MediaSetArtwork.set_image.
  repeat first [ apply yields_eff_bind; intros | suite_step ].
Qed.

Lemma returns_set_artwork_body connection media_title library_name
    poster_path poster_url background_path background_url :
  returns well_formed_doc
    (snd (MediaSetArtwork.set_artwork_body repr path_exists outcome connection
            media_title library_name
            poster_path poster_url background_path background_url)).
Proof.
  unfold MediaSetArtwork.set_artwork_body.
  apply returns_eff_bind. intros plex.
  destruct (MediaSetArtwork.no_source _ _ _ _); [done|].
  apply returns_eff_found; [by apply yields_search | | done].
  intros media.
  apply returns_eff_found; [apply yields_set_image | | done].
  intros changes.
  apply returns_eff_found; [apply yields_set_image | | done].
  intros changes'. unfold MediaArtwork.media_title_attr. repeat suite_step.
Qed.

Lemma returns_edit_body connection media_title library_name
    new_title new_summary new_year new_rating new_content_rating new_studio
    new_tagline new_sort_title new_original_title
    new_genres add_genres remove_genres new_labels add_labels remove_labels :
  returns (fun doc => edit_answer doc = true)
    (snd (MediaEdit.edit_body repr float float_str float_eq outcome leaves
            connection media_title library_name
            new_title new_summary new_year new_rating new_content_rating new_studio
            new_tagline new_sort_title new_original_title
            new_genres add_genres remove_genres new_labels add_labels remove_labels)).
Proof.
  unfold MediaEdit.edit_body.
  apply returns_finish.
  apply yields_and_then; [apply yields_step|]. intros plex.
  apply yields_and_then.
  { apply (yields_mono well_formed_doc); [apply well_formed_edit|].
    by apply yields_search. }
  intros media. cbv zeta. repeat suite_step.
Qed.

Lemma yields_create_items plex library_name item_titles items :
  yields well_formed_doc (fun _ => True)
    (PlaylistCreate.find_items library_search plex library_name item_titles items).
Proof.
  revert items. induction item_titles as [|title item_titles IH]; intros items; [done|].
  cbn [PlaylistCreate.find_items].
  apply yields_bind. intros [|first others]; [|apply IH].
  apply yields_answer. by apply returns_dumps.
Qed.

Lemma returns_create_body connection playlist_title item_titles library_name summary :
  returns well_formed_doc
    (snd (PlaylistCreate.create_body library_search outcome connection
            playlist_title item_titles library_name summary)).
Proof.
  unfold PlaylistCreate.create_body.
  apply returns_finish.
  apply yields_and_then; [apply yields_step|]. intros plex.
  apply yields_and_then; [apply yields_create_items|].
  intros [|item items]; repeat suite_step.
Qed.

Lemma yields_edit_by_id plex playlist_id :
  yields (fun doc => playlist_edit_answer doc = true) (fun _ => True)
    (PlaylistEdit.find_by_id truth plex playlist_id).
Proof. unfold PlaylistEdit.find_by_id. repeat suite_step. Qed.

Lemma yields_edit_by_title plex playlist_title :
  yields (fun doc => playlist_edit_answer doc = true) (fun _ => True)
    (PlaylistEdit.find_by_title str_lower plex playlist_title).
Proof.
  unfold PlaylistEdit.find_by_title.
  apply yields_bind. intros playlists. apply yields_bind.
  intros [|playlist others]; [by apply yields_answer|].
  destruct (1 <? _)%nat.
  - apply yields_bind. intros matches. apply yields_answer.
    by apply returns_dumps.
  - apply yields_bind. by intros original_title.
Qed.

Lemma returns_playlist_edit_body connection playlist_title playlist_id
    new_title new_summary :
  returns (fun doc => playlist_edit_answer doc = true)
    (snd (PlaylistEdit.edit_body repr str_lower truth outcome leaves connection
            playlist_title playlist_id new_title new_summary)).
Proof.
  unfold PlaylistEdit.edit_body.
  apply returns_finish.
  apply yields_and_then; [apply yields_step|]. intros plex.
  apply yields_and_then.
  { change (snd (pure ?r)) with r.
    destruct (no_identifier _ _); [by apply yields_answer|].
    destruct (truthy _); [apply yields_edit_by_id | apply yields_edit_by_title]. }
  intros found.
  apply yields_and_then.
  { unfold PlaylistEdit.edit_title. repeat suite_step. }
  intros titled.
  apply yields_and_then.
  { unfold PlaylistEdit.edit_summary. repeat suite_step. }
  intros edited. cbv zeta. repeat suite_step.
Qed.

Lemma yields_located plex playlist_title playlist_id :
  yields (fun doc => change_answer doc = true) (fun _ => True)
    (PlaylistLookup.locate str_lower truth plex playlist_title playlist_id).
Proof.
  apply (yields_mono error_doc); [apply error_object_change | apply yields_locate].
Qed.

Lemma returns_upload_body connection playlist_title playlist_id
    poster_url poster_filepath :
  returns (fun doc => change_answer doc = true)
    (snd (PlaylistUploadPoster.upload_body repr str_lower truth session_get
            path_exists read_file outcome leaves connection
            playlist_title playlist_id poster_url poster_filepath)).
Proof.
  unfold PlaylistUploadPoster.upload_body.
  apply returns_finish.
  apply yields_and_then; [apply yields_step|]. intros plex.
  apply yields_and_then.
  { change (snd (pure ?r)) with r. unfold PlaylistLookup.no_playlist_identifier.
    destruct (no_identifier _ _); [by apply yields_answer|].
    destruct (_ && _); [by apply yields_answer|].
    destruct (_ && _); [by apply yields_answer|].
    apply yields_located. }
  intros playlist.
  apply yields_and_then.
  { unfold PlaylistUploadPoster.get_poster_data. repeat suite_step. }
  intros poster_data. unfold PlaylistUploadPoster.upload. repeat suite_step.
Qed.

Lemma returns_copy_body connection playlist_title playlist_id username :
  returns (fun doc => change_answer doc = true)
    (snd (PlaylistCopyToUser.copy_body repr str_lower truth myPlexAccount
            outcome leaves connection playlist_title playlist_id username)).
Proof.
  unfold PlaylistCopyToUser.copy_body.
  apply returns_finish.
  apply yields_and_then; [apply yields_step|]. intros plex.
  apply yields_and_then.
  { change (snd (pure ?r)) with r. unfold PlaylistLookup.no_playlist_identifier.
    destruct (no_identifier _ _); [by apply yields_answer|].
    destruct (negb _); [by apply yields_answer|].
    apply yields_located. }
  intros playlist.
  apply yields_and_then.
  { unfold PlaylistCopyToUser.find_target_user. repeat suite_step. }
  intros target_user. unfold PlaylistCopyToUser.copy. repeat suite_step.
Qed.

Lemma yields_items_by_title plex item_titles items_to_add :
  yields (fun doc => change_answer doc = true) (fun _ => True)
    (PlaylistAddTo.items_by_title library_search plex item_titles items_to_add).
Proof.
  revert items_to_add.
  induction item_titles as [|title item_titles IH]; intros items_to_add; [done|].
  cbn [PlaylistAddTo.items_by_title].
  apply yields_bind. intros [|first others]; [|apply IH].
  by apply yields_answer.
Qed.

Lemma yields_items_by_id plex item_ids items_to_add :
  yields (fun doc => change_answer doc = true) (fun _ => True)
    (PlaylistAddTo.items_by_id plex item_ids items_to_add).
Proof.
  revert items_to_add.
  induction item_ids as [|item_id item_ids IH]; intros items_to_add; [done|].
  cbn [PlaylistAddTo.items_by_id].
  destruct (Plex.fetchItem _ _); [apply IH|]. by apply yields_answer.
Qed.

Lemma yields_add_items plex item_titles item_ids :
  yields (fun doc => change_answer doc = true) (fun _ => True)
    (PlaylistAddTo.find_items library_search plex item_titles item_ids).
Proof.
  unfold PlaylistAddTo.find_items.
  match goal with
  | |- yields _ _ (Py.bind ?m _) =>
      assert (yields (fun doc => change_answer doc = true)
                (fun _ : list obj => True) m) as Hitems;
      [|destruct m as [[[|item items]|text]|e]; simpl; done]
  end.
  destruct (default [] item_titles); [|apply yields_items_by_title].
  destruct (default [] item_ids); [done | apply yields_items_by_id].
Qed.

Lemma returns_add_body connection playlist_title playlist_id item_titles item_ids :
  returns (fun doc => change_answer doc = true)
    (snd (PlaylistAddTo.add_body repr str_lower truth library_search outcome leaves
            connection playlist_title playlist_id item_titles item_ids)).
Proof.
  unfold PlaylistAddTo.add_body.
  apply returns_finish.
  apply yields_and_then; [apply yields_step|]. intros plex.
  apply yields_and_then.
  { change (snd (pure ?r)) with r. unfold PlaylistLookup.no_playlist_identifier.
    destruct (no_identifier _ _); [by apply yields_answer|].
    destruct (default [] item_titles), (default [] item_ids);
      first [ by apply yields_answer | apply yields_located ]. }
  intros playlist.
  apply yields_and_then; [apply yields_add_items|].
  intros items_to_add. unfold PlaylistAddTo.add. repeat suite_step.
Qed.

Lemma yields_remove_items current_items item_titles items_to_remove :
  yields (fun doc => change_answer doc = true) (fun _ => True)
    (PlaylistRemoveFrom.find_items str_lower current_items item_titles
       items_to_remove).
Proof.
  revert items_to_remove.
  induction item_titles as [|title item_titles IH]; intros items_to_remove; [done|].
  cbn [PlaylistRemoveFrom.find_items].
  apply yields_bind. intros items. apply yields_bind.
  intros [|item found]; [by apply yields_answer | apply IH].
Qed.

Lemma returns_remove_body connection playlist_title playlist_id item_titles :
  returns (fun doc => change_answer doc = true)
    (snd (PlaylistRemoveFrom.remove_body repr str_lower truth outcome leaves
            connection playlist_title playlist_id item_titles)).
Proof.
  unfold PlaylistRemoveFrom.remove_body.
  apply returns_finish.
  apply yields_and_then; [apply yields_step|]. intros plex.
  apply yields_and_then.
  { change (snd (pure ?r)) with r. unfold PlaylistLookup.no_playlist_identifier.
    destruct (no_identifier _ _); [by apply yields_answer|].
    destruct (default [] item_titles); [by apply yields_answer|].
    apply yields_located. }
  intros playlist.
  apply yields_and_then; [apply yields_step|]. intros current_items.
  apply yields_and_then; [apply yields_remove_items|].
  intros [|item items]; [by apply yields_answer|].
  unfold PlaylistRemoveFrom.remove. repeat suite_step.
Qed.

Lemma returns_playlist_delete_body connection playlist_title playlist_id :
  returns (fun doc => change_answer doc = true)
    (snd (PlaylistDelete.delete_body repr str_lower truth outcome connection
            playlist_title playlist_id)).
Proof.
  unfold PlaylistDelete.delete_body.
  apply returns_eff_bind. intros plex.
  apply returns_eff_found; [| |done].
  { apply (yields_mono error_doc); [apply error_object_change|].
    apply yields_find_playlist. }
  intros playlist. repeat suite_step.
Qed.

Lemma returns_contents_body connection playlist_title playlist_id :
  returns (fun doc => contents_answer doc = true)
    (PlaylistGetContents.contents_body str_lower truth connection
       playlist_title playlist_id).
Proof.
  unfold PlaylistGetContents.contents_body.
  apply returns_bind. intros plex.
  match goal with
  | |- returns _ (Py.bind ?m _) =>
      assert (yields (fun doc => contents_answer doc = true)
                (fun _ : obj => True) m) as Hfound;
      [|destruct m as [[playlist|text]|e]; simpl; [|done..]]
  end.
  { unfold PlaylistLookup.no_playlist_identifier.
    destruct (no_identifier _ _); [by apply yields_answer|].
    apply (yields_mono error_doc); [apply error_object_contents | apply yields_locate]. }
  apply returns_try_except; [|done].
  unfold PlaylistGetContents.contents_of. repeat suite_step.
Qed.

(** One tool: its definition unfolded to the suite under [try] and the
    handler. *)
Ltac tool_answers tool suite_returns :=
  unfold tool;
  destruct (acquire _ _ _) as [? ?];
  cbn [fst snd Effects.try_except];
  apply try_answers; [apply suite_returns | done].

(** C4, as the code has it.  For every input and every behaviour of the
    remote side, each of the sixteen tools of media_tools.py and
    playlist_tools.py returns a document and lets no exception out; an
    exception [e] of its [try] suite, raised by the acquisition of the
    connection or by anything after it, is answered with the document of
    its handler.
    - The seven media tools and [playlist_create] return an object with a
      [status] among ["success"], ["error"] and ["multiple_results"], and
      with a [message] string when the status is ["error"];
      [media_edit_metadata] may also return [status = "no_changes"] with a
      [message] string.  The handler answers [status = "error"] with a
      [message] made of the tool's prefix and [str(e)] ([playlist_create]:
      of [str(e)] alone).
    - The eight other playlist tools report an error with an object that
      has an [error] string and neither [status] nor [message]; their
      handler answers [{"error": str(e)}].  Otherwise [playlist_list]
      returns an array, [playlist_get_contents] an object with an [items]
      array and no [status], [playlist_edit] an array or an object with a
      boolean [updated] and no [status], and [playlist_upload_poster],
      [playlist_copy_to_user], [playlist_add_to], [playlist_remove_from]
      and [playlist_delete] an object with [status = "success"] and a
      [message] string. *)
Theorem tools_return_documents
    self now r query content_type media_title media_id library_name
    art_type save_to_file output_path
    title new_title new_summary new_year new_rating new_content_rating new_studio
    new_tagline new_sort_title new_original_title
    new_genres add_genres remove_genres new_labels add_labels remove_labels
    poster_path poster_url background_path background_url
    playlist_title playlist_id titles item_titles item_ids summary
    poster_filepath username :
  let connection := snd (acquire self now r) in
  let plex_url := Tools._plex_url self in
  let plex_token := Tools._plex_token self in
  let media_search :=
    MediaSearch.media_search urlencode http_get self query content_type in
  let media_get_details :=
    snd (MediaDetails.media_get_details repr self now r
           media_title media_id library_name) in
  let media_edit_metadata :=
    snd (snd (MediaEdit.media_edit_metadata repr float float_str float_eq
                outcome leaves self now r title library_name
                new_title new_summary new_year new_rating new_content_rating
                new_studio new_tagline new_sort_title new_original_title
                new_genres add_genres remove_genres
                new_labels add_labels remove_labels)) in
  let media_get_artwork :=
    snd (MediaArtwork.media_get_artwork repr isalnum b64encode requests_get
           write_file self now r media_title media_id library_name art_type
           save_to_file output_path) in
  let media_delete :=
    snd (snd (MediaDelete.media_delete repr outcome self now r
                media_title media_id library_name)) in
  let media_set_artwork :=
    snd (snd (MediaSetArtwork.media_set_artwork repr path_exists outcome
                self now r title library_name
                poster_path poster_url background_path background_url)) in
  let media_list_available_artwork :=
    snd (MediaArtwork.media_list_available_artwork repr self now r
           media_title media_id library_name art_type) in
  let playlist_list :=
    snd (PlaylistList.playlist_list self now r library_name content_type) in
  let playlist_create :=
    snd (snd (PlaylistCreate.playlist_create library_search outcome self now r
                title titles library_name summary)) in
  let playlist_edit :=
    snd (snd (PlaylistEdit.playlist_edit repr str_lower truth outcome leaves
                self now r playlist_title playlist_id new_title new_summary)) in
  let playlist_upload_poster :=
    snd (snd (PlaylistUploadPoster.playlist_upload_poster repr str_lower truth
                session_get path_exists read_file outcome leaves
                self now r playlist_title playlist_id
                poster_url poster_filepath)) in
  let playlist_copy_to_user :=
    snd (snd (PlaylistCopyToUser.playlist_copy_to_user repr str_lower truth
                myPlexAccount outcome leaves
                self now r playlist_title playlist_id username)) in
  let playlist_add_to :=
    snd (snd (PlaylistAddTo.playlist_add_to repr str_lower truth library_search
                outcome leaves
                self now r playlist_title playlist_id item_titles item_ids)) in
  let playlist_remove_from :=
    snd (snd (PlaylistRemoveFrom.playlist_remove_from repr str_lower truth
                outcome leaves
                self now r playlist_title playlist_id item_titles)) in
  let playlist_delete :=
    snd (snd (PlaylistDelete.playlist_delete repr str_lower truth outcome
                self now r playlist_title playlist_id)) in
  let playlist_get_contents :=
    snd (PlaylistGetContents.playlist_get_contents str_lower truth
           self now r playlist_title playlist_id) in
  (always (fun doc => well_formed doc = true) media_search /\
   handles
     (MediaSearch.search_body urlencode http_get plex_url plex_token
        query content_type)
     (failure "Error searching for media: ") media_search) /\
  (always (fun doc => well_formed doc = true) media_get_details /\
   handles
     (MediaDetails.details_body repr connection media_title media_id library_name)
     (failure "Error getting media details: ") media_get_details) /\
  (always (fun doc => edit_answer doc = true) media_edit_metadata /\
   handles
     (snd (MediaEdit.edit_body repr float float_str float_eq outcome leaves
             connection title library_name
             new_title new_summary new_year new_rating new_content_rating
             new_studio new_tagline new_sort_title new_original_title
             new_genres add_genres remove_genres
             new_labels add_labels remove_labels))
     (failure "Error editing media metadata: ") media_edit_metadata) /\
  (always (fun doc => well_formed doc = true) media_get_artwork /\
   handles
     (MediaArtwork.artwork_body repr isalnum b64encode requests_get write_file
        plex_url plex_token connection media_title media_id library_name
        art_type save_to_file output_path)
     (failure "Error getting media artwork: ") media_get_artwork) /\
  (always (fun doc => well_formed doc = true) media_delete /\
   handles
     (snd (MediaDelete.delete_body repr outcome connection
             media_title media_id library_name))
     (failure "Error deleting media: ") media_delete) /\
  (always (fun doc => well_formed doc = true) media_set_artwork /\
   handles
     (snd (MediaSetArtwork.set_artwork_body repr path_exists outcome connection
             title library_name
             poster_path poster_url background_path background_url))
     (failure "Error setting media artwork: ") media_set_artwork) /\
  (always (fun doc => well_formed doc = true) media_list_available_artwork /\
   handles
     (MediaArtwork.available_body repr plex_url plex_token connection
        media_title media_id library_name art_type)
     (failure "Error listing available artwork: ") media_list_available_artwork) /\
  (always listing playlist_list /\
   handles (PlaylistList.list_body connection library_name content_type)
     error_of playlist_list) /\
  (always (fun doc => well_formed doc = true) playlist_create /\
   handles
     (snd (PlaylistCreate.create_body library_search outcome connection
             title titles library_name summary))
     (failure "") playlist_create) /\
  (always (fun doc => playlist_edit_answer doc = true) playlist_edit /\
   handles
     (snd (PlaylistEdit.edit_body repr str_lower truth outcome leaves connection
             playlist_title playlist_id new_title new_summary))
     error_of playlist_edit) /\
  (always (fun doc => change_answer doc = true) playlist_upload_poster /\
   handles
     (snd (PlaylistUploadPoster.upload_body repr str_lower truth session_get
             path_exists read_file outcome leaves connection
             playlist_title playlist_id poster_url poster_filepath))
     error_of playlist_upload_poster) /\
  (always (fun doc => change_answer doc = true) playlist_copy_to_user /\
   handles
     (snd (PlaylistCopyToUser.copy_body repr str_lower truth myPlexAccount
             outcome leaves connection playlist_title playlist_id username))
     error_of playlist_copy_to_user) /\
  (always (fun doc => change_answer doc = true) playlist_add_to /\
   handles
     (snd (PlaylistAddTo.add_body repr str_lower truth library_search
             outcome leaves connection
             playlist_title playlist_id item_titles item_ids))
     error_of playlist_add_to) /\
  (always (fun doc => change_answer doc = true) playlist_remove_from /\
   handles
     (snd (PlaylistRemoveFrom.remove_body repr str_lower truth outcome leaves
             connection playlist_title playlist_id item_titles))
     error_of playlist_remove_from) /\
  (always (fun doc => change_answer doc = true) playlist_delete /\
   handles
     (snd (PlaylistDelete.delete_body repr str_lower truth outcome connection
             playlist_title playlist_id))
     error_of playlist_delete) /\
  (always (fun doc => contents_answer doc = true) playlist_get_contents /\
   handles
     (PlaylistGetContents.contents_body str_lower truth connection
        playlist_title playlist_id)
     error_of playlist_get_contents) /\
  (forall e, connection = Raise e ->
     media_get_details = Ok (failure "Error getting media details: " e) /\
     media_edit_metadata = Ok (failure "Error editing media metadata: " e) /\
     media_get_artwork = Ok (failure "Error getting media artwork: " e) /\
     media_delete = Ok (failure "Error deleting media: " e) /\
     media_set_artwork = Ok (failure "Error setting media artwork: " e) /\
     media_list_available_artwork =
       Ok (failure "Error listing available artwork: " e) /\
     playlist_list = Ok (error_of e) /\
     playlist_create = Ok (failure "" e) /\
     playlist_edit = Ok (error_of e) /\
     playlist_upload_poster = Ok (error_of e) /\
     playlist_copy_to_user = Ok (error_of e) /\
     playlist_add_to = Ok (error_of e) /\
     playlist_remove_from = Ok (error_of e) /\
     playlist_delete = Ok (error_of e) /\
     playlist_get_contents = Ok (error_of e)).
Proof.
  cbv zeta.
  split; [by apply try_answers; [apply enveloped_search_body|]|].
  split.
  { rewrite MediaFacts.media_get_details_snd.
    by apply try_answers; [apply enveloped_details_body|]. }
  split; [tool_answers MediaEdit.media_edit_metadata returns_edit_body|].
  split.
  { rewrite media_get_artwork_snd.
    by apply try_answers; [apply enveloped_artwork_body|]. }
  split; [tool_answers MediaDelete.media_delete returns_delete_body|].
  split; [tool_answers MediaSetArtwork.media_set_artwork returns_set_artwork_body|].
  split.
  { rewrite media_list_available_artwork_snd.
    by apply try_answers; [apply enveloped_available_body|]. }
  split.
  { rewrite playlist_list_snd.
    apply try_answers; [apply listing_list_body|].
    intros e. split; [done|]. right. by eexists. }
  split; [tool_answers PlaylistCreate.playlist_create returns_create_body|].
  split; [tool_answers PlaylistEdit.playlist_edit returns_playlist_edit_body|].
  split;
    [tool_answers PlaylistUploadPoster.playlist_upload_poster returns_upload_body|].
  split; [tool_answers PlaylistCopyToUser.playlist_copy_to_user returns_copy_body|].
  split; [tool_answers PlaylistAddTo.playlist_add_to returns_add_body|].
  split;
    [tool_answers PlaylistRemoveFrom.playlist_remove_from returns_remove_body|].
  split; [tool_answers PlaylistDelete.playlist_delete returns_playlist_delete_body|].
  split;
    [tool_answers PlaylistGetContents.playlist_get_contents returns_contents_body|].
  intros e He.
  rewrite MediaFacts.media_get_details_snd, media_get_artwork_snd,
    media_list_available_artwork_snd, playlist_list_snd.
  unfold MediaEdit.media_edit_metadata, MediaDelete.media_delete,
    MediaSetArtwork.media_set_artwork, PlaylistCreate.playlist_create,
    PlaylistEdit.playlist_edit, PlaylistUploadPoster.playlist_upload_poster,
    PlaylistCopyToUser.playlist_copy_to_user, PlaylistAddTo.playlist_add_to,
    PlaylistRemoveFrom.playlist_remove_from, PlaylistDelete.playlist_delete,
    PlaylistGetContents.playlist_get_contents.
  destruct (acquire self now r) as [self' connection].
  cbn [snd] in He. subst connection.
  by repeat split.
Qed.

End Tools.

(** C4 as stated fails on [playlist_list]: when the connection cannot be
    acquired it answers with an object that has neither [status] nor
    [message], and when it succeeds it answers with an array. *)
Lemma playlist_list_answers_without_status :
  let failed :=
    VDict [("error",
            VStr "Failed to connect to Plex server at http://plex:32400: timed out")] in
  snd (PlaylistList.playlist_list Examples.playlist_tools 0 Examples.unreachable
         None None) = Ok failed /\
  field "status" failed = None /\
  field "message" failed = None /\
  snd (PlaylistList.playlist_list Examples.playlist_tools 0 Examples.reachable
         None None) = Ok (VList []) /\
  is_object (VList []) = false.
Proof. repeat split. Qed.

Lemma tools_return_documents_witness :
  snd (snd (MediaDelete.media_delete Examples.repr ChangeExamples.posters_only
              Examples.media_tools 0 (PlexClient.Probed ChangeExamples.cinema 100)
              (Some "Alien") None None)) =
    Ok (VDict [("status", VStr "error");
               ("message", VStr "Error deleting media: (401) unauthorized")]) /\
  MediaSearch.media_search Examples.urlencode (fun url headers => Examples.no_network url)
    Examples.media_tools "Alien" None =
    Ok (VDict [("status", VStr "error");
               ("message", VStr "Error searching for media: Connection refused")]) /\
  snd (snd (PlaylistEdit.playlist_edit Examples.repr Py.lower ToolExamples.truth
              ChangeExamples.posters_only ToolExamples.leaves
              Examples.media_tools 0 (PlexClient.Probed PlaylistExamples.silent 100)
              (Some "Road Trip") None (Some "Road Trip 2") None)) =
    Ok (VDict [("error", VStr "(400) bad_request")]) /\
  snd (MediaDetails.media_get_details Examples.repr
         Examples.media_tools 0 Examples.unreachable (Some "Alien") None None) =
    Ok (VDict [("status", VStr "error");
               ("message",
                VStr "Error getting media details: Failed to connect to Plex server at http://plex:32400: timed out")]) /\
  snd (PlaylistGetContents.playlist_get_contents Py.lower ToolExamples.truth
         Examples.media_tools 0 Examples.unreachable (Some "Road Trip") None) =
    Ok (VDict [("error",
                VStr "Failed to connect to Plex server at http://plex:32400: timed out")]) /\
  always (fun doc => edit_answer doc = true)
    (snd (snd (MediaEdit.media_edit_metadata Examples.repr Z
                 ToolExamples.rating_str ToolExamples.rating_eq
                 ChangeExamples.posters_only ToolExamples.leaves
                 Examples.media_tools 0 (PlexClient.Probed ChangeExamples.cinema 100)
                 "Alien" None
                 (Some "Road Trip 2") None None None None None None None None
                 None None None None None None))) /\
  always (fun doc => change_answer doc = true)
    (snd (snd (PlaylistUploadPoster.playlist_upload_poster Examples.repr Py.lower
                 ToolExamples.truth ToolExamples.session_get ChangeExamples.on_disk
                 ToolExamples.read_file
                 ChangeExamples.posters_only ToolExamples.leaves
                 Examples.media_tools 0 (PlexClient.Probed ChangeExamples.cinema 100)
                 (Some "Road Trip") None None None))).
Proof.
  pose proof (fun r =>
    tools_return_documents Examples.repr Examples.isalnum Examples.b64encode
      Examples.urlencode (fun url headers => Examples.no_network url)
      Examples.no_network Examples.read_only
      Z ToolExamples.rating_str ToolExamples.rating_eq
      Py.lower ToolExamples.truth ChangeExamples.on_disk
      ToolExamples.read_file ToolExamples.session_get
      ToolExamples.library_search ToolExamples.myPlexAccount
      ChangeExamples.posters_only ToolExamples.leaves
      Examples.media_tools 0 r
      "Alien" None (Some "Alien") None None "poster" false None
      "Alien" (Some "Road Trip 2") None None None None None None None None
      None None None None None None
      (Some "poster.jpg") None None None
      (Some "Road Trip") None ["Alien"] (Some ["Alien"]) None None
      None (Some "ripley")) as Htools.
  destruct (Htools (PlexClient.Probed ChangeExamples.cinema 100))
    as ((_ & Hsearch) & _ & (Hedits & _) & _ & (_ & Hdelete) & _ & _ & _ & _ & _
        & (Hupload & _) & _).
  destruct (Htools (PlexClient.Probed PlaylistExamples.silent 100))
    as (_ & _ & _ & _ & _ & _ & _ & _ & _ & (_ & Hedit) & _).
  destruct (Htools Examples.unreachable)
    as (_ & _ & _ & _ & _ & _ & _ & _ & _ & _ & _ & _ & _ & _ & _ & _ & Hconn).
  destruct (Hconn (ExnFrom ConnectionError
                     "Failed to connect to Plex server at http://plex:32400: timed out"
                     (Exn (OtherError "ConnectTimeout") "timed out")) eq_refl)
    as (Hdetails & _ & _ & _ & _ & _ & _ & _ & _ & _ & _ & _ & _ & _ & Hcontents).
  split; [exact (Hdelete (Exn (OtherError "Unauthorized") "(401) unauthorized") eq_refl)|].
  split; [exact (Hsearch (Exn ConnectionError "Connection refused") eq_refl)|].
  split; [exact (Hedit (Exn (OtherError "BadRequest") "(400) bad_request") eq_refl)|].
  split; [exact Hdetails|].
  split; [exact Hcontents|].
  split; [exact Hedits | exact Hupload].
Defined.

End EnvelopeFacts.

(** ** The content-type filters of [media_search] *)

Module FilterFacts.
Import MediaSearch.

Lemma given_Some ct : given (Some ct) = true <-> ct <> "".
Proof.
  unfold given. simpl. rewrite negb_true_iff, String.eqb_neq. done.
Qed.

(** C8, as the code has it.  The two filters of the result loop are
    complementary.  The guard of the first holds exactly for a content type
    that is non-empty, has no comma and is not a key of [content_type_map]
    (the case in which the request parameters carry [type] and no
    [searchTypes]); the guard of the second exactly for one that is
    non-empty, has no comma and is a key.  They never hold together, and
    under either an item passes if and only if its type equals the content
    type; under neither, every item passes. *)
Theorem content_type_filters_are_complementary content_type :
  (unmapped_guard content_type = true <->
   exists ct, content_type = Some ct /\ ct <> "" /\ str_in "," ct = false /\
              lookup_key ct content_type_map = None) /\
  (mapped_guard content_type = true <->
   exists ct, content_type = Some ct /\ ct <> "" /\ str_in "," ct = false /\
              is_Some (lookup_key ct content_type_map)) /\
  unmapped_guard content_type && mapped_guard content_type = false /\
  (forall item_type,
      passes_filters content_type item_type =
      if unmapped_guard content_type || mapped_guard content_type
      then eq_str item_type (default "" content_type)
      else true) /\
  (forall plex_token query ct,
      content_type = Some ct ->
      unmapped_guard content_type = true ->
      lookup_key "type" (params plex_token query content_type) = Some (VStr ct) /\
      lookup_key "searchTypes" (params plex_token query content_type) = None).
Proof.
  destruct content_type as [ct|].
  2:{ repeat split; try done; by intros (? & ? & _). }
  split; [|split; [|split; [|split]]].
  - unfold unmapped_guard, in_content_type_map.
    rewrite !andb_true_iff, !negb_true_iff, given_Some, bool_decide_eq_false.
    split.
    + intros [[Hne Hcomma] Hmap]. exists ct. repeat split; try done.
      by apply eq_None_not_Some.
    + intros (ct' & [= <-] & Hne & Hcomma & Hmap). repeat split; try done.
      by apply eq_None_not_Some.
  - unfold mapped_guard, in_content_type_map.
    rewrite !andb_true_iff, !negb_true_iff, given_Some, bool_decide_eq_true.
    split.
    + intros [[Hne Hmap] Hcomma]. by exists ct.
    + by intros (ct' & [= <-] & Hne & Hcomma & Hmap).
  - unfold unmapped_guard, mapped_guard.
    destruct (given (Some ct)), (str_in "," ct), (in_content_type_map ct); done.
  - intros item_type. unfold passes_filters, unmapped_guard, mapped_guard.
    change (default "" (Some ct)) with ct.
    destruct (given (Some ct)), (str_in "," ct), (in_content_type_map ct),
      (eq_str item_type ct); done.
  - intros plex_token query ct' [= <-]. unfold unmapped_guard, in_content_type_map.
    rewrite !andb_true_iff, !negb_true_iff, bool_decide_eq_false.
    intros [[Hgiven Hcomma] Hmap]. apply eq_None_not_Some in Hmap.
    unfold params. rewrite Hgiven, Hcomma, Hmap. done.
Qed.

(** C8 as stated fails: the guard of the first filter holds for the content
    type ["season"], and the filter then drops a movie that an unfiltered
    search returns. *)
Lemma unmapped_filter_is_reachable :
  unmapped_guard (Some "season") = true /\
  passes_filters (Some "season") (VStr "movie") = false /\
  (exists doc,
      media_search Examples.urlencode (Examples.respond Examples.one_movie)
        Examples.media_tools "Alien" None = Ok doc /\
      Envelope.field "total_count" doc = Some (VInt 1)) /\
  (exists doc,
      media_search Examples.urlencode (Examples.respond Examples.one_movie)
        Examples.media_tools "Alien" (Some "season") = Ok doc /\
      Envelope.field "total_count" doc = Some (VInt 0)).
Proof.
  split; [reflexivity|]. split; [reflexivity|].
  split; eexists; (split; [vm_compute; reflexivity | reflexivity]).
Qed.

Lemma content_type_filters_are_complementary_witness :
  lookup_key "type" (params "secret" "Alien" (Some "season")) = Some (VStr "season") /\
  lookup_key "searchTypes" (params "secret" "Alien" (Some "season")) = None.
Proof.
  destruct (content_type_filters_are_complementary (Some "season"))
    as (_ & _ & _ & _ & H).
  apply (H "secret" "Alien" "season"); reflexivity.
Defined.

End FilterFacts.

(** * Further properties of the sources *)

(** ** plex_client.py *)

Module PlexClientInvariants.
Import PlexClient.

Section Facts.
Context {PlexServer : Type}.
Implicit Types (self : PlexClient.t PlexServer) (r : remote PlexServer).

Lemma connection_keeps_endpoint self now r :
  _plex_url (after (connection self now r)) = _plex_url self /\
  _plex_token (after (connection self now r)) = _plex_token self.
Proof.
  unfold connection. destruct (stale self now).
  - destruct r; simpl; done.
  - simpl. by destruct (_connection self).
Qed.

Lemma connection_keeps_never self now r :
  (_connection self = None -> _last_connection_time self = 0%Q) ->
  _connection (after (connection self now r)) = None ->
  _last_connection_time (after (connection self now r)) = 0%Q.
Proof.
  unfold connection. destruct (stale self now) eqn:Hs.
  - destruct r; simpl; done.
  - simpl. destruct (_connection self) eqn:Hc; simpl; intros Hinit; [by rewrite Hc|].
    intros _. by apply Hinit.
Qed.

(** X1.  Whatever the history of acquire calls on a client, its endpoint and
    token stay those given to the constructor, and whenever it holds no
    handle its timestamp is the "never" value 0. *)
Theorem run_keeps_endpoint_and_never url token calls :
  let self := fst (run (__init__ (PlexServer:=PlexServer) url token) calls) in
  _plex_url self = url /\
  _plex_token self = token /\
  (_connection self = None -> _last_connection_time self = 0%Q).
Proof.
  assert (forall calls' self0,
    let self := fst (run self0 calls') in
    _plex_url self = _plex_url self0 /\
    _plex_token self = _plex_token self0 /\
    ((_connection self0 = None -> _last_connection_time self0 = 0%Q) ->
     _connection self = None -> _last_connection_time self = 0%Q)) as Hrun.
  { induction calls' as [|[now r] calls' IH]; intros self0; simpl.
    - done.
    - specialize (IH (after (connection self0 now r))).
      destruct (run (after (connection self0 now r)) calls') as [self1 steps].
      simpl in *. destruct IH as (Hu & Ht & Hn).
      destruct (connection_keeps_endpoint self0 now r) as [Hu0 Ht0].
      rewrite Hu, Ht, Hu0, Ht0. repeat split.
      intros Hinit. apply Hn. by apply connection_keeps_never. }
  intros self. destruct (Hrun calls (__init__ url token)) as (Hu & Ht & Hn).
  repeat split; try done. by apply Hn.
Qed.

End Facts.

Lemma run_keeps_endpoint_and_never_witness :
  let self :=
    fst (run (__init__ "http://plex:32400" "secret")
           [(10%Q, Probed "s1" 11);
            (5000%Q, ConstructorRaises (Exn (OtherError "ConnectTimeout") "timed out"))]) in
  _plex_url self = "http://plex:32400" /\
  _connection self = None /\
  _last_connection_time self = 0%Q.
Proof.
  destruct (run_keeps_endpoint_and_never (PlexServer:=string)
              "http://plex:32400" "secret"
              [(10%Q, Probed "s1" 11);
               (5000%Q, ConstructorRaises (Exn (OtherError "ConnectTimeout") "timed out"))])
    as (Hu & _ & Hn).
  split; [exact Hu|]. split; [reflexivity | apply Hn; reflexivity].
Defined.

End PlexClientInvariants.

(** ** tools/tools.py and the [__init__] of the tools classes *)

Module RegistryComposition.
Import Tools Registry.

Section Facts.
Variable on_duplicate : AnyFunction -> AnyFunction -> AnyFunction.

Lemma add_tool_other (mcp : gmap string AnyFunction) fn name :
  name <> __name__ fn -> add_tool on_duplicate mcp fn !! name = mcp !! name.
Proof.
  intros Hne. unfold add_tool.
  destruct (mcp !! __name__ fn); by rewrite lookup_insert_ne.
Qed.

Lemma add_tools_other fns (mcp : gmap string AnyFunction) name :
  name ∉ names fns ->
  foldl (add_tool on_duplicate) mcp fns !! name = mcp !! name.
Proof.
  revert mcp. unfold names. induction fns as [|fn fns IH]; intros mcp Hnot; simpl.
  - done.
  - simpl in Hnot. rewrite IH by set_solver. apply add_tool_other. set_solver.
Qed.

Lemma add_tools_fresh fns (mcp : gmap string AnyFunction) fn :
  NoDup (__name__ <$> fns) ->
  (forall fn', fn' ∈ fns -> mcp !! __name__ fn' = None) ->
  fn ∈ fns ->
  foldl (add_tool on_duplicate) mcp fns !! __name__ fn = Some fn.
Proof.
  revert mcp. induction fns as [|fn0 fns IH]; intros mcp Hnodup Hfresh Hin.
  - by apply elem_of_nil in Hin.
  - simpl in *. apply NoDup_cons in Hnodup as [Hnotin Hnodup].
    apply elem_of_cons in Hin as [->|Hin].
    + rewrite add_tools_other.
      * unfold add_tool. rewrite (Hfresh fn0) by apply list_elem_of_here.
        apply lookup_insert_eq.
      * unfold names. by rewrite elem_of_list_to_set.
    + apply IH; [done| |done].
      intros fn' Hin'. rewrite add_tool_other.
      * apply Hfresh. by apply list_elem_of_further.
      * intros Heq. apply Hnotin. rewrite <- Heq. by apply list_elem_of_fmap_2.
Qed.

Lemma construct_unfold m url token permissions (mcp : gmap string AnyFunction) :
  construct on_duplicate m url token permissions mcp =
  foldl (add_tool on_duplicate) mcp (tools_of m permissions).
Proof. by destruct m. Qed.

Lemma tool_names_distinct permissions :
  NoDup (__name__ <$> (tools_of Media permissions ++ tools_of Playlist permissions)).
Proof. destruct permissions; apply (bool_decide_unpack _); by vm_compute. Qed.

(** X2.  Constructing [PlexMediaTools] and then [PlexPlaylistTools] (the
    order of server.py) on a dispatch surface that holds none of their tool
    names registers every tool of both under its own name, each bound to
    its own method, and leaves every other entry of the surface as it was;
    no tool of one module shadows a tool of the other, whatever the package
    does with duplicate names. *)
Theorem media_and_playlist_tools_do_not_shadow
    url token permissions (mcp : gmap string AnyFunction) :
  (forall fn,
      fn ∈ tools_of Media permissions ++ tools_of Playlist permissions ->
      mcp !! __name__ fn = None) ->
  let surface :=
    construct on_duplicate Playlist url token permissions
      (construct on_duplicate Media url token permissions mcp) in
  (forall fn,
      fn ∈ tools_of Media permissions ++ tools_of Playlist permissions ->
      surface !! __name__ fn = Some fn) /\
  (forall name,
      name ∉ names (tools_of Media permissions ++ tools_of Playlist permissions) ->
      surface !! name = mcp !! name).
Proof.
  intros Hfresh surface.
  assert (surface =
          foldl (add_tool on_duplicate) mcp
            (tools_of Media permissions ++ tools_of Playlist permissions)) as ->.
  { unfold surface. by rewrite !construct_unfold, foldl_app. }
  split.
  - intros fn Hin. apply add_tools_fresh; [apply tool_names_distinct|done|done].
  - intros name Hnot. by apply add_tools_other.
Qed.

(** X3.  Raising the configured tier only appends tools: the list a module
    registers at a tier is a prefix of the list it registers at any higher
    tier, so the tools of the lower tiers keep their registration order. *)
Theorem higher_tier_appends_tools m lower higher :
  tier_le lower higher = true ->
  tools_of m lower `prefix_of` tools_of m higher.
Proof.
  intros Hle.
  destruct m, lower, higher; try discriminate Hle;
    first [ by exists [] | eexists; reflexivity ].
Qed.

End Facts.

Lemma media_and_playlist_tools_do_not_shadow_witness :
  let surface :=
    construct (fun existing new => existing) Playlist "http://plex:32400" "secret" DELETE
      (construct (fun existing new => existing) Media "http://plex:32400" "secret" DELETE ∅) in
  surface !! "playlist_delete" = Some (PlexPlaylistToolsInit.self_ "playlist_delete") /\
  surface !! "media_delete" = Some (PlexMediaToolsInit.self_ "media_delete").
Proof.
  destruct (media_and_playlist_tools_do_not_shadow (fun existing new => existing)
              "http://plex:32400" "secret" DELETE ∅) as [Hown _].
  - intros fn _. apply lookup_empty.
  - split.
    + apply (Hown (PlexPlaylistToolsInit.self_ "playlist_delete")).
      vm_compute. repeat constructor.
    + apply (Hown (PlexMediaToolsInit.self_ "media_delete")).
      vm_compute. repeat constructor.
Defined.

Lemma higher_tier_appends_tools_witness :
  tools_of Playlist READ `prefix_of` tools_of Playlist DELETE.
Proof. apply higher_tier_appends_tools. reflexivity. Defined.

End RegistryComposition.

(** ** __main__.py *)

Module MainFacts.
Import Main.
Import Stdlib.Strings.Ascii.

Lemma iter_star_succ n :
  Nat.iter (S n) (String.append "*") "" =
  String "*"%char (Nat.iter n (String.append "*") "").
Proof. done. Qed.

Lemma iter_star_length n : String.length (Nat.iter n (String.append "*") "") = n.
Proof.
  induction n as [|n IH]; [done|].
  rewrite iter_star_succ. change (S (String.length (Nat.iter n (String.append "*") "")) = S n).
  by rewrite IH.
Qed.

Lemma iter_star_get n i c :
  String.get i (Nat.iter n (String.append "*") "") = Some c -> c = "*"%char.
Proof.
  revert i. induction n as [|n IH]; intros i; [by destruct i|].
  rewrite iter_star_succ. destruct i as [|i].
  - by intros [= <-].
  - apply IH.
Qed.

Lemma masked_long a b c d rest :
  masked (String a (String b (String c (String d rest)))) =
  String a (String b (String c (String d
    (Nat.iter (String.length rest) (String.append "*") "")))).
Proof.
  unfold masked, str_mul, len.
  replace (Z.to_nat _) with (String.length rest).
  - by destruct rest.
  - change (String.length (String a (String b (String c (String d rest)))))
      with (S (S (S (S (String.length rest))))). lia.
Qed.

(** X4.  The banner prints the first four characters of the token in clear
    and a star for each further character: the masked text has the length
    of the token when that is at least four, agrees with the token on the
    positions before the fifth and holds only stars from the fifth on.  A
    token of at most four characters is printed whole. *)
Theorem masked_shows_four_characters token :
  ((String.length token <= 4)%nat -> masked token = token) /\
  ((4 <= String.length token)%nat ->
   String.length (masked token) = String.length token) /\
  (forall i, (i < 4)%nat -> String.get i (masked token) = String.get i token) /\
  (forall i c, (4 <= i)%nat -> String.get i (masked token) = Some c -> c = "*"%char).
Proof.
  destruct token as [|a [|b [|c [|d rest]]]].
  1-4: repeat split; try done; simpl; try lia;
       intros i; repeat (destruct i as [|i]; try done; try lia).
  rewrite masked_long. split; [|split; [|split]].
  - simpl. intros Hlen. destruct rest; [done | simpl in Hlen; lia].
  - intros _. simpl. by rewrite iter_star_length.
  - intros i Hi. do 4 (destruct i as [|i]; [done|]). lia.
  - intros i c' Hi. do 4 (destruct i as [|i]; [lia|]). simpl.
    apply iter_star_get.
Qed.

Lemma masked_shows_four_characters_witness :
  masked "abc" = "abc" /\
  String.length (masked "abcdefgh") = 8%nat /\
  String.get 2 (masked "abcdefgh") = Some "c"%char.
Proof.
  destruct (masked_shows_four_characters "abc") as (Hshort & _).
  destruct (masked_shows_four_characters "abcdefgh") as (_ & Hlen & Hget & _).
  split; [apply Hshort; simpl; lia|].
  split; [apply Hlen; simpl; lia|].
  rewrite (Hget 2%nat); [reflexivity | lia].
Defined.

End MainFacts.

(** ** tools/media_tools.py: the grouped results of [media_search] *)

Module SearchFacts.
Import MediaSearch SearchShape.

Lemma key_eqb_sym a b : key_eqb a b = key_eqb b a.
Proof.
  destruct a as [|x|x|x| | |], b as [|y|y|y| | |]; simpl; try done.
  - by destruct x, y.
  - by rewrite Z.eqb_sym.
  - by rewrite String.eqb_sym.
Qed.

Lemma key_eqb_refl k : hashable k = true -> key_eqb k k = true.
Proof.
  destruct k; simpl; try done; intros _.
  - by destruct b.
  - apply Z.eqb_refl.
  - apply String.eqb_refl.
Qed.

Lemma key_eqb_str k t : key_eqb k (VStr t) = true <-> k = VStr t.
Proof.
  destruct k; simpl; try (split; discriminate).
  rewrite String.eqb_eq. split; [by intros -> | by intros [= ->]].
Qed.

Lemma group_mem_false k (g : groups) :
  group_mem k g = false <-> Forall (fun kv => key_eqb (fst kv) k = false) g.
Proof.
  unfold group_mem. induction g as [|kv g IH]; simpl.
  - split; [constructor | done].
  - rewrite orb_false_iff, IH. split.
    + intros [? ?]. by constructor.
    + by inversion 1.
Qed.

Lemma group_mem_true k (g : groups) :
  group_mem k g = true <-> exists kv, kv ∈ g /\ key_eqb (fst kv) k = true.
Proof.
  unfold group_mem. rewrite existsb_exists. split.
  - intros (kv & Hin & Hk). exists kv. by rewrite list_elem_of_In.
  - intros (kv & Hin & Hk). exists kv. by rewrite <- list_elem_of_In.
Qed.

Lemma group_mem_app k (g1 g2 : groups) :
  group_mem k (g1 ++ g2) = group_mem k g1 || group_mem k g2.
Proof. apply existsb_app. Qed.

Lemma group_get_absent k (g : groups) : group_mem k g = false -> group_get k g = [].
Proof.
  induction g as [|[k' items] g IH]; simpl; [done|].
  intros [Hk Hg]%orb_false_iff. simpl in Hk. by rewrite Hk, IH.
Qed.

Lemma group_set_new k items (g : groups) :
  group_mem k g = false -> group_set k items g = g ++ [(k, items)].
Proof.
  induction g as [|[k' items'] g IH]; simpl; [done|].
  intros [Hk Hg]%orb_false_iff. simpl in Hk. by rewrite Hk, IH.
Qed.

Lemma group_mem_set q k items (g : groups) :
  group_mem q (group_set k items g) =
  group_mem q g || negb (group_mem k g) && key_eqb k q.
Proof.
  induction g as [|[k' items'] g IH]; simpl.
  - by rewrite orb_false_r.
  - destruct (key_eqb k' k) eqn:Hk; simpl.
    + by rewrite orb_false_r.
    + rewrite IH. by rewrite orb_assoc.
Qed.

Lemma entries_set k items (g : groups) :
  (entries (group_set k items g) + length (group_get k g) =
   entries g + length items)%nat.
Proof.
  unfold entries. induction g as [|[k' items'] g IH]; simpl; [lia|].
  destruct (key_eqb k' k); simpl; lia.
Qed.

Lemma distinct_keys_set k items (g : groups) :
  hashable k = true ->
  distinct_keys g = true -> distinct_keys (group_set k items g) = true.
Proof.
  intros Hk. induction g as [|[k' items'] g IH]; simpl.
  - intros _. by rewrite Hk.
  - intros [[Hh Hm]%andb_true_iff Hd]%andb_true_iff.
    destruct (key_eqb k' k) eqn:Heq; simpl.
    + by rewrite Hh, Hm, Hd.
    + rewrite Hh, IH by done. rewrite group_mem_set.
      apply negb_true_iff in Hm. rewrite Hm. simpl.
      rewrite key_eqb_sym, Heq. by rewrite andb_false_r.
Qed.

Lemma group_get_distinct kv (g : groups) :
  distinct_keys g = true -> kv ∈ g -> group_get (fst kv) g = snd kv.
Proof.
  induction g as [|[k' items'] g IH]; simpl; intros Hd Hin.
  - by apply elem_of_nil in Hin.
  - apply andb_true_iff in Hd as [[Hh Hm]%andb_true_iff Hd].
    apply elem_of_cons in Hin as [->|Hin]; simpl.
    + by rewrite key_eqb_refl.
    + apply negb_true_iff, group_mem_false in Hm.
      rewrite Forall_forall in Hm. specialize (Hm kv Hin).
      rewrite key_eqb_sym, Hm. by apply IH.
Qed.

Lemma distinct_keys_hashable kv (g : groups) :
  distinct_keys g = true -> kv ∈ g -> hashable (fst kv) = true.
Proof.
  induction g as [|[k' items'] g IH]; simpl; intros Hd Hin.
  - by apply elem_of_nil in Hin.
  - apply andb_true_iff in Hd as [[Hh Hm]%andb_true_iff Hd].
    apply elem_of_cons in Hin as [->|Hin]; [done | by apply IH].
Qed.

Lemma distinct_keys_NoDup (g : groups) : distinct_keys g = true -> NoDup g.
Proof.
  induction g as [|[k' items'] g IH]; simpl; intros Hd; [constructor|].
  apply andb_true_iff in Hd as [[Hh Hm]%andb_true_iff Hd].
  constructor; [|by apply IH].
  intros Hin. apply negb_true_iff, group_mem_false in Hm.
  rewrite Forall_forall in Hm. specialize (Hm _ Hin). simpl in Hm.
  by rewrite key_eqb_refl in Hm.
Qed.

Lemma omap_ext_in {A B} (f1 f2 : A -> option B) (l : list A) :
  (forall x, x ∈ l -> f1 x = f2 x) -> omap f1 l = omap f2 l.
Proof.
  induction l as [|x l IH]; intros Hext; csimpl; [done|].
  rewrite (Hext x) by apply list_elem_of_here.
  rewrite IH; [done|]. intros y Hy. apply Hext. by apply list_elem_of_further.
Qed.

Lemma omap_filter {A} (b : A -> bool) (l : list A) :
  omap (fun x => if b x then None else Some x) l = filter (fun x => b x = false) l.
Proof.
  induction l as [|x l IH]; csimpl; [done|].
  rewrite filter_cons. destruct (b x) eqn:Hb; csimpl; by rewrite IH.
Qed.

Lemma known_loop (g : groups) ts acc :
  NoDup ts ->
  (forall t, t ∈ ts -> group_mem (VStr t) acc = false) ->
  foldl (fun ordered_results type_name =>
           if group_mem (VStr type_name) g
           then group_set (VStr type_name)
                  (group_get (VStr type_name) g) ordered_results
           else ordered_results) acc ts =
  acc ++ omap (fun type_name =>
                 if group_mem (VStr type_name) g
                 then Some (VStr type_name, group_get (VStr type_name) g)
                 else None) ts.
Proof.
  revert acc. induction ts as [|t ts IH]; intros acc Hnodup Hfresh; simpl.
  - by rewrite app_nil_r.
  - apply NoDup_cons in Hnodup as [Hnotin Hnodup].
    destruct (group_mem (VStr t) g) eqn:Hmem.
    + rewrite group_set_new by (apply Hfresh, list_elem_of_here).
      rewrite IH; [by rewrite <- app_assoc|done|].
      intros t' Hin. rewrite group_mem_app, Hfresh by by apply list_elem_of_further.
      simpl. rewrite orb_false_r. apply String.eqb_neq. by intros ->.
    + apply IH; [done|]. intros t' Hin. apply Hfresh. by apply list_elem_of_further.
Qed.

Lemma remaining_loop (g g' : groups) acc :
  distinct_keys g' = true ->
  foldl (fun ordered_results type_name =>
           if negb (group_mem type_name ordered_results)
           then group_set type_name (group_get type_name g) ordered_results
           else ordered_results) acc (fst <$> g') =
  acc ++ omap (fun kv =>
                 if group_mem (fst kv) acc then None
                 else Some (fst kv, group_get (fst kv) g)) g'.
Proof.
  revert acc. induction g' as [|[k items] g' IH]; intros acc Hd; simpl.
  - by rewrite app_nil_r.
  - apply andb_true_iff in Hd as [[Hh Hm]%andb_true_iff Hd].
    destruct (group_mem k acc) eqn:Hmem; simpl.
    + by apply IH.
    + rewrite group_set_new by done. rewrite IH by done.
      rewrite <- app_assoc. simpl. do 2 f_equal.
      apply omap_ext_in. intros kv Hin.
      rewrite group_mem_app. simpl. rewrite orb_false_r.
      apply negb_true_iff, group_mem_false in Hm.
      rewrite Forall_forall in Hm. specialize (Hm kv Hin).
      rewrite key_eqb_sym in Hm. by rewrite Hm, orb_false_r.
Qed.

Lemma type_order_NoDup : NoDup type_order.
Proof. apply (bool_decide_unpack _). by vm_compute. Qed.

Lemma is_one_of_true k names :
  is_one_of k names = true <-> exists t, t ∈ names /\ k = VStr t.
Proof.
  unfold is_one_of. rewrite existsb_exists. split.
  - intros (t & Hin & Heq). exists t. rewrite list_elem_of_In. split; [done|].
    destruct k; try done. simpl in Heq. apply String.eqb_eq in Heq. by subst.
  - intros (t & Hin & ->). exists t. rewrite <- list_elem_of_In. split; [done|].
    apply String.eqb_refl.
Qed.

Lemma known_first_mem k (g : groups) :
  distinct_keys g = true ->
  (exists items, (k, items) ∈ g) ->
  group_mem k (known_first g) = is_one_of k type_order.
Proof.
  intros Hd [items Hin]. apply eq_true_iff_eq.
  rewrite group_mem_true, is_one_of_true. unfold known_first. split.
  - intros ([k' items'] & Hin' & Hk).
    apply list_elem_of_omap in Hin' as (t & Ht & Hsome).
    destruct (group_mem (VStr t) g); [|done]. injection Hsome as <- <-.
    exists t. split; [done|]. cbn [fst] in Hk. rewrite key_eqb_sym in Hk.
    by apply key_eqb_str in Hk.
  - intros (t & Ht & ->). exists (VStr t, group_get (VStr t) g). split.
    + apply list_elem_of_omap. exists t. split; [done|].
      assert (group_mem (VStr t) g = true) as ->; [|done].
      apply group_mem_true. exists (VStr t, items). split; [done|].
      apply String.eqb_refl.
    + apply String.eqb_refl.
Qed.

Lemma ordered_split (g : groups) :
  distinct_keys g = true -> ordered g = known_first g ++ others g.
Proof.
  intros Hd. unfold ordered.
  rewrite (known_loop g type_order []);
    [|apply type_order_NoDup|done].
  rewrite app_nil_l. fold (known_first g).
  rewrite remaining_loop by done. f_equal. unfold others.
  rewrite <- (omap_filter (fun kv : val * list val => is_one_of (fst kv) type_order)).
  apply omap_ext_in. intros [k items] Hin. cbn [fst].
  rewrite (known_first_mem k g) by eauto.
  pose proof (group_get_distinct (k, items) g Hd Hin) as Hget.
  cbn [fst snd] in Hget. by rewrite Hget.
Qed.

Lemma known_first_perm (g : groups) :
  distinct_keys g = true ->
  known_first g ≡ₚ filter (fun kv => ¬ is_one_of (fst kv) type_order = false) g.
Proof.
  intros Hd. apply NoDup_Permutation.
  - apply (NoDup_fmap_1 fst). unfold known_first.
    assert (forall ts, NoDup ts ->
              NoDup (fst <$> omap (fun type_name =>
                       if group_mem (VStr type_name) g
                       then Some (VStr type_name, group_get (VStr type_name) g)
                       else None) ts)) as Hts.
    { induction ts as [|t ts IH]; intros Hnd; simpl; [constructor|].
      apply NoDup_cons in Hnd as [Hnotin Hnd].
      destruct (group_mem (VStr t) g); simpl; [|by apply IH].
      constructor; [|by apply IH].
      intros Hin. apply list_elem_of_fmap in Hin as ([k items] & Hk & Hin).
      simpl in Hk. subst k.
      apply list_elem_of_omap in Hin as (t' & Ht' & Hsome).
      destruct (group_mem (VStr t') g); [|done].
      apply Hnotin. by injection Hsome as <- _. }
    apply Hts, type_order_NoDup.
  - apply NoDup_filter. by apply distinct_keys_NoDup.
  - intros [k items]. rewrite list_elem_of_filter. unfold known_first.
    rewrite list_elem_of_omap. cbn [fst]. split.
    + intros (t & Ht & Hsome).
      destruct (group_mem (VStr t) g) eqn:Hmem; [|done].
      injection Hsome as <- <-.
      apply group_mem_true in Hmem as ([k' items'] & Hin & Hk).
      cbn [fst] in Hk. apply key_eqb_str in Hk. subst k'.
      pose proof (group_get_distinct _ g Hd Hin) as Hget.
      cbn [fst snd] in Hget. rewrite Hget. split; [|done].
      rewrite not_false_iff_true. apply is_one_of_true. eauto.
    + intros [Hone Hin]. rewrite not_false_iff_true in Hone.
      apply is_one_of_true in Hone as (t & Ht & ->). exists t. split; [done|].
      assert (group_mem (VStr t) g = true) as ->.
      { apply group_mem_true. exists (VStr t, items). split; [done|].
        apply String.eqb_refl. }
      pose proof (group_get_distinct _ g Hd Hin) as Hget.
      cbn [fst snd] in Hget. by rewrite Hget.
Qed.

Lemma ordered_perm (g : groups) : distinct_keys g = true -> ordered g ≡ₚ g.
Proof.
  intros Hd.
  rewrite ordered_split, known_first_perm by done.
  rewrite (comm (++)). unfold others. apply filter_app_complement.
Qed.

(** X5.  The display order of the groups: when the keys of the groups are
    hashable and pairwise different, [ordered] lists the groups of the
    types named in [type_order] first, in that order, then the groups of
    all other types in the order in which they were first met; it neither
    drops nor repeats a group. *)
Theorem ordered_lists_known_types_first (g : groups) :
  distinct_keys g = true ->
  ordered g = known_first g ++ others g /\
  ordered g ≡ₚ g.
Proof.
  intros Hd. split; [by apply ordered_split | by apply ordered_perm].
Qed.

Lemma ordered_lists_known_types_first_witness :
  ordered [(VStr "photo", [VInt 1]); (VStr "movie", [VInt 2]); (VStr "track", [VInt 3])] =
  [(VStr "track", [VInt 3]); (VStr "movie", [VInt 2]); (VStr "photo", [VInt 1])].
Proof.
  destruct (ordered_lists_known_types_first
              [(VStr "photo", [VInt 1]); (VStr "movie", [VInt 2]);
               (VStr "track", [VInt 3])] eq_refl) as [-> _].
  reflexivity.
Defined.

(** *** The loop over the search results *)

Lemma for_each_invariant {S A} (I : S -> Prop) (body : S -> A -> result S) l s s' :
  (forall s x s', body s x = Ok s' -> I s -> I s') ->
  for_each l s body = Ok s' -> I s -> I s'.
Proof.
  intros Hbody. revert s. induction l as [|x l IH]; intros s; simpl.
  - by intros [= <-].
  - destruct (body s x) as [s1|e] eqn:Hs1; simpl; [|done].
    intros Hrest Hs. apply (IH s1); [done|]. by apply (Hbody s x).
Qed.

Lemma lookup_set_key_ne {A} k k' (v : A) d :
  k <> k' -> lookup_key k (set_key k' v d) = lookup_key k d.
Proof.
  intros Hne. induction d as [|[k0 v0] d IH]; simpl.
  - by apply String.eqb_neq in Hne as ->.
  - destruct (String.eqb k' k0) eqn:Hk'; simpl.
    + apply String.eqb_eq in Hk' as <-.
      by apply String.eqb_neq in Hne as ->.
    + by rewrite IH.
Qed.

Lemma lookup_update_notin {A} k (d more : list (string * A)) :
  k ∉ fst <$> more -> lookup_key k (update d more) = lookup_key k d.
Proof.
  unfold update. revert d. induction more as [|[k' v'] more IH]; intros d Hnot; simpl.
  - done.
  - rewrite IH by set_solver. apply lookup_set_key_ne. set_solver.
Qed.

Lemma copy_if_present_type item key field formatted_item :
  field <> "type" ->
  lookup_key "type" (copy_if_present item key field formatted_item) =
  lookup_key "type" formatted_item.
Proof.
  intros Hne. unfold copy_if_present.
  destruct (lookup_key key item); [|done]. by apply lookup_set_key_ne.
Qed.

(** Solves [key ∉ keys] for literal keys. *)
Ltac literal_notin := apply (bool_decide_unpack _); by vm_compute.

Lemma formatted_item_type item item_type :
  lookup_key "type"
    (with_thumbs item item_type
       (with_media_info item item_type (formatted item item_type))) =
  Some item_type.
Proof.
  assert (lookup_key "type" (formatted item item_type) = Some item_type) as Hf.
  { unfold formatted.
    repeat (destruct (eq_str item_type _); [by rewrite lookup_update_notin by literal_notin|]).
    done. }
  assert (lookup_key "type" (with_media_info item item_type (formatted item item_type))
          = Some item_type) as Hm.
  { unfold with_media_info.
    destruct (lookup_key "Media" item) as [media|]; [|done].
    destruct (match media with VList (first :: _) => first | _ => media end);
      try done.
    repeat (destruct (is_one_of item_type _);
            [by rewrite lookup_update_notin by literal_notin|]).
    done. }
  unfold with_thumbs. destruct (eq_str item_type "track"); [|done].
  by rewrite !copy_if_present_type.
Qed.

Lemma passes_filters_given ct item_type :
  given (Some ct) = true -> str_in "," ct = false ->
  passes_filters (Some ct) item_type = eq_str item_type ct.
Proof.
  intros Hg Hc. unfold passes_filters, unmapped_guard, mapped_guard.
  rewrite Hg, Hc. change (default "" (Some ct)) with ct.
  destruct (in_content_type_map ct), (eq_str item_type ct); done.
Qed.

Lemma eq_str_true v t : eq_str v t = true <-> v = VStr t.
Proof.
  destruct v; simpl; try (split; discriminate).
  rewrite String.eqb_eq. split; [by intros -> | by intros [= ->]].
Qed.

(** What one pass of the loop body does to the state when it keeps the
    item. *)
Lemma search_result_step_inv content_type g n search_result g' n' :
  search_result_step content_type (g, n) search_result = Ok (g', n') ->
  (g' = g /\ n' = n) \/
  exists item item_type,
    hashable item_type = true /\
    passes_filters content_type item_type = true /\
    n' = (n + 1)%Z /\
    let g1 := if negb (group_mem item_type g) then group_set item_type [] g else g in
    g' = group_set item_type
           (group_get item_type g1 ++
              [VDict (with_thumbs item item_type
                        (with_media_info item item_type (formatted item item_type)))])
           g1.
Proof.
  unfold search_result_step.
  destruct (contains_key "Metadata" search_result) as [has|]; simpl; [|done].
  destruct has; simpl; [|intros [= <- <-]; by left].
  destruct (getitem search_result "Metadata") as [item|]; simpl; [|done].
  destruct (dict_get item "type" (VStr "unknown")) as [item_type|]; simpl; [|done].
  destruct item as [| | | | |item|]; try done.
  destruct (passes_filters content_type item_type) eqn:Hp; simpl;
    [|intros [= <- <-]; by left].
  destruct (hashable item_type) eqn:Hh; simpl; [|done].
  intros [= <- <-]. right. by exists item, item_type.
Qed.

Lemma search_result_step_counts content_type s search_result s' :
  search_result_step content_type s search_result = Ok s' ->
  distinct_keys (fst s) = true /\ snd s = Z.of_nat (entries (fst s)) ->
  distinct_keys (fst s') = true /\ snd s' = Z.of_nat (entries (fst s')).
Proof.
  destruct s as [g n], s' as [g' n']. simpl.
  intros [[-> ->]|(item & item_type & Hh & _ & -> & ->)]%search_result_step_inv
    [Hd ->]; [done|].
  set (g1 := if negb (group_mem item_type g) then group_set item_type [] g else g).
  assert (distinct_keys g1 = true) as Hd1.
  { unfold g1. destruct (negb _); [by apply distinct_keys_set | done]. }
  assert (entries g1 = entries g) as He1.
  { unfold g1. destruct (group_mem item_type g) eqn:Hmem; simpl; [done|].
    pose proof (entries_set item_type [] g) as He.
    rewrite (group_get_absent _ _ Hmem) in He. simpl in He. lia. }
  split; [by apply distinct_keys_set|].
  match goal with |- context [group_set item_type ?items g1] =>
    pose proof (entries_set item_type items g1) as He end.
  rewrite length_app in He. simpl in He. lia.
Qed.

Lemma group_set_keys (K : val -> Prop) k items (g : groups) :
  K k -> Forall (fun kv => K (fst kv)) g ->
  Forall (fun kv => K (fst kv)) (group_set k items g).
Proof.
  intros Hk. induction 1 as [|[k' items'] g Hx Hg IH]; simpl.
  - by repeat constructor.
  - destruct (key_eqb k' k); constructor; done.
Qed.

Lemma group_set_values (V : list val -> Prop) k items (g : groups) :
  V items -> Forall (fun kv => V (snd kv)) g ->
  Forall (fun kv => V (snd kv)) (group_set k items g).
Proof.
  intros Hv. induction 1 as [|[k' items'] g Hx Hg IH]; simpl.
  - by repeat constructor.
  - destruct (key_eqb k' k); constructor; done.
Qed.

Lemma group_get_values (V : list val -> Prop) k (g : groups) :
  V [] -> Forall (fun kv => V (snd kv)) g -> V (group_get k g).
Proof.
  intros Hnil. induction 1 as [|[k' items'] g Hx Hg IH]; simpl; [done|].
  by destruct (key_eqb k' k).
Qed.

Lemma search_result_step_typed ct s search_result s' :
  given (Some ct) = true -> str_in "," ct = false ->
  search_result_step (Some ct) s search_result = Ok s' ->
  Forall (fun kv => fst kv = VStr ct) (fst s) /\
  Forall (fun kv => Forall (has_type ct) (snd kv)) (fst s) ->
  Forall (fun kv => fst kv = VStr ct) (fst s') /\
  Forall (fun kv => Forall (has_type ct) (snd kv)) (fst s').
Proof.
  intros Hg Hc. destruct s as [g n], s' as [g' n']. simpl.
  intros [[-> ->]|(item & item_type & Hh & Hp & -> & ->)]%search_result_step_inv
    [Hk Hv]; [done|].
  rewrite passes_filters_given in Hp by done. apply eq_str_true in Hp as ->.
  set (g1 := if negb (group_mem (VStr ct) g) then group_set (VStr ct) [] g else g).
  assert (Forall (fun kv => fst kv = VStr ct) g1) as Hk1.
  { unfold g1. destruct (negb _); [|done].
    by apply (group_set_keys (fun k => k = VStr ct)). }
  assert (Forall (fun kv => Forall (has_type ct) (snd kv)) g1) as Hv1.
  { unfold g1. destruct (negb _); [|done].
    by apply (group_set_values (Forall (has_type ct))). }
  split; [by apply (group_set_keys (fun k => k = VStr ct))|].
  apply (group_set_values (Forall (has_type ct))); [|done].
  apply Forall_app. split.
  - by apply (group_get_values (Forall (has_type ct))).
  - constructor; [|done]. unfold has_type. simpl. apply formatted_item_type.
Qed.

Lemma json_dumps_inv v doc : json_dumps v = Ok doc -> doc = v.
Proof. unfold json_dumps. by destruct (not_serializable v); intros [= <-]. Qed.

(** The two documents a search that the server answered returns. *)
Lemma search_body_inv urlencode http_get plex_url plex_token query content_type doc :
  search_body urlencode http_get plex_url plex_token query content_type = Ok doc ->
  Envelope.field "results_by_type" doc = None \/
  exists search_results g n,
    for_each search_results ([], 0%Z) (search_result_step content_type) = Ok (g, n) /\
    Envelope.field "total_count" doc = Some (VInt n) /\
    Envelope.field "results_by_type" doc =
      Some (VDict ((fun kv => (json_key (fst kv), VList (snd kv))) <$> ordered g)).
Proof.
  unfold search_body. cbv zeta.
  destruct (http_get _ _) as [response|]; simpl; [|done].
  destruct (Requests.raise_for_status response); simpl; [|done].
  destruct (Requests.json response) as [data|]; simpl; [|done].
  destruct (contains_key "MediaContainer" data) as [has_container|]; simpl; [|done].
  destruct has_container; simpl; [|intros ->%json_dumps_inv; by left].
  destruct (dict_get data "MediaContainer" (VDict [])) as [container0|]; simpl; [|done].
  destruct (contains_key "SearchResult" container0) as [has_results|]; simpl; [|done].
  destruct has_results; simpl; [|intros ->%json_dumps_inv; by left].
  destruct (getitem data "MediaContainer") as [container|]; simpl; [|done].
  destruct (getitem container "SearchResult") as [search_results|]; simpl; [|done].
  destruct (iter search_results) as [l|]; simpl; [|done].
  destruct (for_each l _ _) as [[g n]|] eqn:Hloop; simpl; [|done].
  intros ->%json_dumps_inv. right. by exists l, g, n.
Qed.

Lemma media_search_inv urlencode http_get {PlexServer} (self : Tools.PlexMcpTools PlexServer)
    query content_type doc gs :
  media_search urlencode http_get self query content_type = Ok doc ->
  Envelope.field "results_by_type" doc = Some (VDict gs) ->
  exists search_results g n,
    for_each search_results ([], 0%Z) (search_result_step content_type) = Ok (g, n) /\
    Envelope.field "total_count" doc = Some (VInt n) /\
    gs = (fun kv => (json_key (fst kv), VList (snd kv))) <$> ordered g.
Proof.
  unfold media_search.
  destruct (search_body _ _ _ _ _ _) as [doc'|e] eqn:Hbody; simpl.
  - intros [= <-] Hgs.
    apply search_body_inv in Hbody as [Hnone|(l & g & n & Hloop & Hn & Hr)].
    + by rewrite Hnone in Hgs.
    + rewrite Hr in Hgs. injection Hgs as <-. by exists l, g, n.
  - by intros [= <-].
Qed.

Lemma listed_groups (g : groups) :
  listed ((fun kv => (json_key (fst kv), VList (snd kv))) <$> g) = entries g.
Proof.
  unfold listed, entries. induction g as [|[k items] g IH]; csimpl; [done|].
  by rewrite IH.
Qed.

Lemma loop_counts content_type search_results g n :
  for_each search_results ([], 0%Z) (search_result_step content_type) = Ok (g, n) ->
  distinct_keys g = true /\ n = Z.of_nat (entries g).
Proof.
  intros Hloop.
  apply (for_each_invariant
           (fun s => distinct_keys (fst s) = true /\ snd s = Z.of_nat (entries (fst s)))
           _ _ _ _ (search_result_step_counts content_type) Hloop).
  done.
Qed.

Lemma one_key_one_group ct (g : groups) :
  distinct_keys g = true ->
  Forall (fun kv => fst kv = VStr ct) g ->
  (length g <= 1)%nat.
Proof.
  destruct g as [|[k1 items1] [|[k2 items2] g]]; simpl; [lia|lia|].
  intros Hd Hk. exfalso.
  inversion Hk as [|? ? Hk1 Hk']; subst. inversion Hk' as [|? ? Hk2 _]; subst.
  simpl in Hk1, Hk2. subst k1 k2. simpl in Hd. by rewrite String.eqb_refl in Hd.
Qed.

(** X6.  Whenever [media_search] returns a document with a
    [results_by_type] member, its [total_count] is the number of results
    listed under [results_by_type], all groups taken together. *)
Theorem media_search_counts_listed_results urlencode http_get {PlexServer}
    (self : Tools.PlexMcpTools PlexServer) query content_type doc gs :
  media_search urlencode http_get self query content_type = Ok doc ->
  Envelope.field "results_by_type" doc = Some (VDict gs) ->
  Envelope.field "total_count" doc = Some (VInt (Z.of_nat (listed gs))).
Proof.
  intros Hdoc Hgs.
  destruct (media_search_inv _ _ _ _ _ _ _ Hdoc Hgs) as (l & g & n & Hloop & Hn & ->).
  apply loop_counts in Hloop as [Hd ->].
  rewrite Hn, listed_groups. unfold entries. by rewrite (ordered_perm g Hd).
Qed.

(** X7.  When [media_search] is asked for one content type (non-empty, no
    comma), every result it lists carries that type: [results_by_type] has
    at most one group, its key is the content type, and each result in it
    has that [type]. *)
Theorem media_search_lists_requested_type_only urlencode http_get {PlexServer}
    (self : Tools.PlexMcpTools PlexServer) query ct doc gs :
  ct <> "" ->
  str_in "," ct = false ->
  media_search urlencode http_get self query (Some ct) = Ok doc ->
  Envelope.field "results_by_type" doc = Some (VDict gs) ->
  (length gs <= 1)%nat /\
  Forall (fun kv =>
            fst kv = ct /\
            exists items, snd kv = VList items /\ Forall (has_type ct) items) gs.
Proof.
  intros Hne Hcomma Hdoc Hgs.
  assert (given (Some ct) = true) as Hgiven.
  { unfold given. simpl. by apply negb_true_iff, String.eqb_neq. }
  destruct (media_search_inv _ _ _ _ _ _ _ Hdoc Hgs) as (l & g & n & Hloop & Hn & ->).
  pose proof (loop_counts _ _ _ _ Hloop) as [Hd _].
  assert (Forall (fun kv => fst kv = VStr ct) g /\
          Forall (fun kv => Forall (has_type ct) (snd kv)) g) as [Hk Hv].
  { apply (for_each_invariant
             (fun s => Forall (fun kv => fst kv = VStr ct) (fst s) /\
                       Forall (fun kv => Forall (has_type ct) (snd kv)) (fst s))
             _ _ _ _ (fun s x s' => search_result_step_typed ct s x s' Hgiven Hcomma)
             Hloop).
    by split. }
  split.
  - rewrite length_fmap, (ordered_perm g Hd). by apply (one_key_one_group ct).
  - apply Forall_fmap. rewrite (ordered_perm g Hd).
    apply Forall_forall. intros [k items] Hin.
    rewrite Forall_forall in Hk, Hv.
    specialize (Hk _ Hin). specialize (Hv _ Hin). simpl in *. subst k.
    split; [done|]. by exists items.
Qed.

Lemma media_search_counts_listed_results_witness :
  exists doc gs,
    media_search Examples.urlencode (Examples.respond Examples.one_movie)
      Examples.media_tools "Alien" None = Ok doc /\
    Envelope.field "results_by_type" doc = Some (VDict gs) /\
    Envelope.field "total_count" doc = Some (VInt (Z.of_nat (listed gs))) /\
    listed gs = 1%nat.
Proof.
  eexists _, _. split; [vm_compute; reflexivity|]. split; [vm_compute; reflexivity|].
  split; [|reflexivity].
  eapply (media_search_counts_listed_results Examples.urlencode
            (Examples.respond Examples.one_movie) Examples.media_tools "Alien" None).
  - vm_compute. reflexivity.
  - vm_compute. reflexivity.
Defined.

Lemma media_search_lists_requested_type_only_witness :
  exists doc gs,
    media_search Examples.urlencode (Examples.respond Examples.one_movie)
      Examples.media_tools "Alien" (Some "movie") = Ok doc /\
    Envelope.field "results_by_type" doc = Some (VDict gs) /\
    (length gs <= 1)%nat.
Proof.
  eexists _, _. split; [vm_compute; reflexivity|]. split; [vm_compute; reflexivity|].
  eapply (media_search_lists_requested_type_only Examples.urlencode
            (Examples.respond Examples.one_movie) Examples.media_tools "Alien" "movie").
  - discriminate.
  - reflexivity.
  - vm_compute. reflexivity.
  - vm_compute. reflexivity.
Defined.

End SearchFacts.

(** ** tools/media_tools.py: how the read tools look an item up *)

Module LookupFacts.
Import Tools MediaLookup Envelope.

Lemma truthy_id id : id <> 0%Z -> truthy (opt_int (Some id)) = true.
Proof. intros Hne. simpl. by apply negb_true_iff, Z.eqb_neq. Qed.

Lemma no_identifier_spec media_title media_id :
  no_identifier media_title media_id = true <->
  (media_id = None \/ media_id = Some 0%Z) /\
  (media_title = None \/ media_title = Some "").
Proof.
  unfold no_identifier. rewrite andb_true_iff, !negb_true_iff. split.
  - intros [Hid Ht]. split.
    + destruct media_id as [id|]; [|by left]. right. simpl in Hid.
      apply negb_false_iff, Z.eqb_eq in Hid. by subst.
    + destruct media_title as [t|]; [|by left]. right. simpl in Ht.
      apply negb_false_iff, String.eqb_eq in Ht. by subst.
  - intros [[->| ->] [->| ->]]; done.
Qed.

Lemma search_by_title_raises plex media_title library_name k e :
  title_matches plex media_title library_name = Raise e ->
  search_by_title plex media_title library_name k =
  if truthy (opt_str library_name) && is_NotFound e
  then error ("Library '" +:+ default "" library_name +:+ "' not found")
  else Raise e.
Proof.
  unfold title_matches, search_by_title.
  destruct (truthy (opt_str library_name)); simpl.
  - by intros ->.
  - by intros ->.
Qed.

Section Facts.
Variable repr : val -> string.
Variable isalnum : ascii -> bool.
Variable b64encode : string -> string.
Variable requests_get : string -> result Requests.Response.
Variable write_file : string -> string -> result unit.

Abbreviation details self now r media_title media_id library_name :=
  (snd (MediaDetails.media_get_details repr self now r
          media_title media_id library_name)).
Abbreviation artwork self now r media_title media_id library_name art_type
    save_to_file output_path :=
  (snd (MediaArtwork.media_get_artwork repr isalnum b64encode requests_get write_file
          self now r media_title media_id library_name art_type
          save_to_file output_path)).
Abbreviation available self now r media_title media_id library_name art_type :=
  (snd (MediaArtwork.media_list_available_artwork repr
          self now r media_title media_id library_name art_type)).

(** X8.  An identifier takes precedence over a title: with a non-zero
    [media_id], what the three lookup tools return does not depend on
    [media_title] or [library_name]; and when [fetchItem] raises, whatever
    the exception, they answer ["Media with ID '<id>' not found"]. *)
Theorem lookup_by_id_ignores_title
    self now r id title1 library1 title2 library2 art_type save_to_file output_path :
  id <> 0%Z ->
  details self now r title1 (Some id) library1 =
    details self now r title2 (Some id) library2 /\
  artwork self now r title1 (Some id) library1 art_type save_to_file output_path =
    artwork self now r title2 (Some id) library2 art_type save_to_file output_path /\
  available self now r title1 (Some id) library1 art_type =
    available self now r title2 (Some id) library2 art_type /\
  (forall plex e,
      snd (acquire self now r) = Ok plex ->
      Plex.fetchItem plex id = Raise e ->
      let answer :=
        VDict [("status", VStr "error");
               ("message", VStr ("Media with ID '" +:+ pretty id +:+ "' not found"))] in
      details self now r title1 (Some id) library1 = Ok answer /\
      (MediaArtwork.valid_art_type art_type = true ->
       artwork self now r title1 (Some id) library1 art_type save_to_file output_path
         = Ok answer /\
       available self now r title1 (Some id) library1 art_type = Ok answer)).
Proof.
  intros Hid. pose proof (truthy_id id Hid) as Ht.
  assert (forall title, no_identifier title (Some id) = false) as Hno.
  { intros title. unfold no_identifier. by rewrite Ht. }
  rewrite !MediaFacts.media_get_details_snd, !EnvelopeFacts.media_get_artwork_snd,
    !EnvelopeFacts.media_list_available_artwork_snd.
  unfold MediaDetails.details_body, MediaArtwork.artwork_body,
    MediaArtwork.available_body, MediaArtwork.find_media.
  rewrite !Hno, Ht.
  split; [done|]. split; [done|]. split; [done|].
  intros plex e -> He. simpl. unfold fetch_by_id. rewrite He. simpl.
  split; [done|]. intros ->. done.
Qed.

(** X9.  The argument checks come before any lookup, and after the
    connection.  With the connection acquired: when neither a non-zero
    [media_id] nor a non-empty [media_title] is given, the three lookup
    tools answer ["Either media_id or media_title must be provided"], the
    artwork tools even for an invalid [art_type]; when an identifier is
    given and [art_type] is not one of ["poster"], ["art"], ["background"],
    the artwork tools answer with the art-type error whatever the server
    holds. *)
Theorem argument_checks_precede_lookup
    self now r plex media_title media_id library_name art_type
    save_to_file output_path :
  snd (acquire self now r) = Ok plex ->
  (no_identifier media_title media_id = true ->
   let answer :=
     VDict [("status", VStr "error");
            ("message", VStr "Either media_id or media_title must be provided")] in
   details self now r media_title media_id library_name = Ok answer /\
   artwork self now r media_title media_id library_name art_type
     save_to_file output_path = Ok answer /\
   available self now r media_title media_id library_name art_type = Ok answer) /\
  (no_identifier media_title media_id = false ->
   MediaArtwork.valid_art_type art_type = false ->
   let answer :=
     VDict [("status", VStr "error");
            ("message", VStr "art_type must be 'poster', 'art', or 'background'")] in
   artwork self now r media_title media_id library_name art_type
     save_to_file output_path = Ok answer /\
   available self now r media_title media_id library_name art_type = Ok answer).
Proof.
  intros Hconn.
  rewrite !MediaFacts.media_get_details_snd, !EnvelopeFacts.media_get_artwork_snd,
    !EnvelopeFacts.media_list_available_artwork_snd, Hconn.
  unfold MediaDetails.details_body, MediaArtwork.artwork_body,
    MediaArtwork.available_body. simpl.
  split.
  - by intros ->.
  - by intros -> ->.
Qed.

(** X10.  Errors of a title-based lookup, for the three lookup tools.  When
    the lookup of the named library or the search inside it raises
    [NotFound], the tool answers ["Library '<name>' not found"] (also when
    the library exists and it is its search that raised).  Any other
    exception of these calls, and any exception, [NotFound] too, of the
    server-wide search made when no library is named, is answered with the
    tool's generic error envelope. *)
Theorem library_lookup_errors
    self now r plex media_title media_id library_name art_type
    save_to_file output_path e :
  by_title media_title media_id = true ->
  MediaArtwork.valid_art_type art_type = true ->
  snd (acquire self now r) = Ok plex ->
  title_matches plex media_title library_name = Raise e ->
  (truthy (opt_str library_name) = true -> is_NotFound e = true ->
   let answer :=
     VDict [("status", VStr "error");
            ("message",
             VStr ("Library '" +:+ default "" library_name +:+ "' not found"))] in
   details self now r media_title media_id library_name = Ok answer /\
   artwork self now r media_title media_id library_name art_type
     save_to_file output_path = Ok answer /\
   available self now r media_title media_id library_name art_type = Ok answer) /\
  (truthy (opt_str library_name) = false \/ is_NotFound e = false ->
   details self now r media_title media_id library_name =
     Ok (failure "Error getting media details: " e) /\
   artwork self now r media_title media_id library_name art_type
     save_to_file output_path =
     Ok (failure "Error getting media artwork: " e) /\
   available self now r media_title media_id library_name art_type =
     Ok (failure "Error listing available artwork: " e)).
Proof.
  intros Ht Hart Hconn Hm.
  pose proof (MediaFacts.by_title_spec _ _ Ht) as (Hid & Hno & _).
  rewrite !MediaFacts.media_get_details_snd, !EnvelopeFacts.media_get_artwork_snd,
    !EnvelopeFacts.media_list_available_artwork_snd, Hconn.
  unfold MediaDetails.details_body, MediaArtwork.artwork_body,
    MediaArtwork.available_body, MediaArtwork.find_media.
  simpl. rewrite Hno, Hid, Hart.
  rewrite !(search_by_title_raises _ _ _ _ _ Hm).
  split.
  - by intros -> ->.
  - intros [-> | ->]; [done|]. by rewrite andb_false_r.
Qed.

End Facts.

Lemma lookup_by_id_ignores_title_witness :
  snd (MediaDetails.media_get_details Examples.repr
         Examples.media_tools 0 Examples.reachable (Some "Alien") (Some 101%Z) None) =
  Ok (VDict [("status", VStr "error");
             ("message", VStr "Media with ID '101' not found")]).
Proof.
  destruct (lookup_by_id_ignores_title Examples.repr Examples.isalnum
              Examples.b64encode Examples.no_network Examples.read_only
              Examples.media_tools 0 Examples.reachable 101%Z
              (Some "Alien") None None None "poster" false None)
    as (_ & _ & _ & Hfail).
  - discriminate.
  - destruct (Hfail Examples.server (Exn NotFound "not found") eq_refl eq_refl)
      as [Hdetails _].
    exact Hdetails.
Defined.

Lemma argument_checks_precede_lookup_witness :
  snd (MediaArtwork.media_get_artwork Examples.repr Examples.isalnum Examples.b64encode
         Examples.no_network Examples.read_only
         Examples.media_tools 0 Examples.reachable
         (Some "") (Some 0%Z) None "banner" false None) =
  Ok (VDict [("status", VStr "error");
             ("message", VStr "Either media_id or media_title must be provided")]) /\
  snd (MediaArtwork.media_list_available_artwork Examples.repr
         Examples.media_tools 0 Examples.reachable
         (Some "Alien") None None "banner") =
  Ok (VDict [("status", VStr "error");
             ("message", VStr "art_type must be 'poster', 'art', or 'background'")]).
Proof.
  split.
  - destruct (argument_checks_precede_lookup Examples.repr Examples.isalnum
                Examples.b64encode Examples.no_network Examples.read_only
                Examples.media_tools 0 Examples.reachable Examples.server
                (Some "") (Some 0%Z) None "banner" false None eq_refl)
      as [Hnone _].
    destruct (Hnone eq_refl) as (_ & Hartwork & _). exact Hartwork.
  - destruct (argument_checks_precede_lookup Examples.repr Examples.isalnum
                Examples.b64encode Examples.no_network Examples.read_only
                Examples.media_tools 0 Examples.reachable Examples.server
                (Some "Alien") None None "banner" false None eq_refl)
      as [_ Hart].
    destruct (Hart eq_refl eq_refl) as [_ Havailable]. exact Havailable.
Defined.

Lemma library_lookup_errors_witness :
  snd (MediaDetails.media_get_details Examples.repr
         Examples.media_tools 0 Examples.reachable
         (Some "Alien") None (Some "Movies")) =
  Ok (VDict [("status", VStr "error");
             ("message", VStr "Library 'Movies' not found")]).
Proof.
  destruct (library_lookup_errors Examples.repr Examples.isalnum
              Examples.b64encode Examples.no_network Examples.read_only
              Examples.media_tools 0 Examples.reachable Examples.server
              (Some "Alien") None (Some "Movies") "poster" false None
              (Exn NotFound "Invalid library section")
              eq_refl eq_refl eq_refl eq_refl)
    as [Hlibrary _].
  destruct (Hlibrary eq_refl eq_refl) as [Hdetails _]. exact Hdetails.
Defined.

End LookupFacts.

(** ** tools/media_tools.py: the file name [media_get_artwork] generates *)

Module ArtworkNameFacts.
Import MediaArtwork ArtworkName.
Import Stdlib.Strings.Ascii.

Lemma append_nil_r (s : string) : s +:+ "" = s.
Proof. induction s as [|c s IH]; [done|]. change (String c (s +:+ "") = String c s). by rewrite IH. Qed.

Lemma list_ascii_app (s1 s2 : string) :
  String.list_ascii_of_string (s1 +:+ s2) =
  String.list_ascii_of_string s1 ++ String.list_ascii_of_string s2.
Proof.
  induction s1 as [|c s1 IH]; [done|].
  change (c :: String.list_ascii_of_string (s1 +:+ s2) =
          c :: (String.list_ascii_of_string s1 ++ String.list_ascii_of_string s2)).
  by rewrite IH.
Qed.

Lemma join_empty_cons (x : string) (l : list string) : join "" (x :: l) = x +:+ join "" l.
Proof. destruct l as [|y l]; [by rewrite append_nil_r | done]. Qed.

Lemma head_rev {A} (l : list A) : head (rev l) = last l.
Proof.
  induction l as [|x l _] using rev_ind; [done|].
  by rewrite rev_unit, last_snoc.
Qed.

Lemma last_rev {A} (l : list A) : last (rev l) = head l.
Proof. by rewrite <- head_rev, rev_involutive. Qed.

Lemma lstrip_suffix (l : list ascii) : exists pre, l = pre ++ lstrip_chars l.
Proof.
  induction l as [|c l [pre IH]]; [by exists []|]. simpl.
  destruct (is_space c); [|by exists []].
  exists (c :: pre). simpl. by rewrite <- IH.
Qed.

Lemma lstrip_head (l : list ascii) c :
  head (lstrip_chars l) = Some c -> is_space c = false.
Proof.
  induction l as [|x l IH]; [done|]. simpl.
  destruct (is_space x) eqn:Hx; [done|]. simpl. by intros [= <-].
Qed.

Lemma lstrip_id (l : list ascii) :
  (forall c, head l = Some c -> is_space c = false) -> lstrip_chars l = l.
Proof. destruct l as [|x l]; [done|]. intros H. simpl. by rewrite (H x). Qed.

Lemma strip_chars (s : string) :
  String.list_ascii_of_string (strip s) =
  rev (lstrip_chars (rev (lstrip_chars (String.list_ascii_of_string s)))).
Proof. unfold strip. by rewrite String.list_ascii_of_string_of_list_ascii. Qed.

Lemma strip_subset (s : string) c :
  c ∈ String.list_ascii_of_string (strip s) -> c ∈ String.list_ascii_of_string s.
Proof.
  rewrite strip_chars. set (l := String.list_ascii_of_string s).
  destruct (lstrip_suffix l) as [pre1 H1].
  destruct (lstrip_suffix (rev (lstrip_chars l))) as [pre2 H2].
  intros Hc%list_elem_of_In%in_rev%list_elem_of_In.
  rewrite H1. apply elem_of_app. right.
  apply list_elem_of_In, in_rev, list_elem_of_In.
  rewrite H2. apply elem_of_app. by right.
Qed.

Lemma strip_trimmed (s : string) : trimmed (String.list_ascii_of_string (strip s)).
Proof.
  rewrite strip_chars. set (l := String.list_ascii_of_string s).
  destruct (lstrip_suffix (rev (lstrip_chars l))) as [pre H].
  set (z := lstrip_chars (rev (lstrip_chars l))) in *.
  split; intros c Hc.
  - apply (lstrip_head l).
    rewrite <- (rev_involutive (lstrip_chars l)), H, rev_app_distr.
    destruct (rev z); [done|]. exact Hc.
  - rewrite last_rev in Hc. by apply (lstrip_head (rev (lstrip_chars l))).
Qed.

Lemma strip_id (s : string) :
  trimmed (String.list_ascii_of_string s) -> strip s = s.
Proof.
  intros [Hhead Hlast]. unfold strip.
  rewrite (lstrip_id _ Hhead), lstrip_id, rev_involutive.
  - apply String.string_of_list_ascii_of_string.
  - intros c. rewrite head_rev. apply Hlast.
Qed.

Section Facts.
Variable isalnum : ascii -> bool.

Lemma keeps_plain (c : ascii) :
  str_isalnum isalnum (String c "") ||
    bool_decide (String c "" ∈ [" "; "-"; "_"]) = allowed isalnum c.
Proof.
  unfold str_isalnum, allowed. simpl. rewrite andb_true_r. f_equal.
  apply bool_decide_ext. rewrite !elem_of_cons, !elem_of_nil.
  split; intros [H|[H|[H|[]]]]; [left|right;left|right;right;left|left|right;left|right;right;left];
    congruence.
Qed.

Lemma kept_characters (cs : list ascii) :
  comprehension
    (fun c =>
       match c with
       | VStr c =>
           Ok (if str_isalnum isalnum c || bool_decide (c ∈ [" "; "-"; "_"])
               then c else "")
       | _ => Raise (attribute_error c "isalnum")
       end)
    ((fun c => VStr (String c "")) <$> cs) =
  Ok ((fun c => if allowed isalnum c then String c "" else "") <$> cs).
Proof.
  induction cs as [|c cs IH]; [done|].
  rewrite !fmap_cons. cbn [comprehension bind]. rewrite IH. cbn [bind].
  by rewrite keeps_plain.
Qed.

Lemma joined_characters (cs : list ascii) :
  String.list_ascii_of_string
    (join "" ((fun c => if allowed isalnum c then String c "" else "") <$> cs)) =
  filter (fun c => allowed isalnum c = true) cs.
Proof.
  induction cs as [|c cs IH]; [done|].
  rewrite fmap_cons, join_empty_cons, list_ascii_app, IH, filter_cons.
  destruct (allowed isalnum c) eqn:Hc.
  - rewrite decide_True by done. done.
  - rewrite decide_False by done. done.
Qed.

Lemma safe_title_chars (s : string) :
  safe_title isalnum (VStr s) =
  Ok (strip (String.string_of_list_ascii
               (filter (fun c => allowed isalnum c = true)
                  (String.list_ascii_of_string s)))).
Proof.
  unfold safe_title. cbn [iter bind]. unfold chars.
  rewrite kept_characters. cbn [bind].
  by rewrite <- joined_characters, String.string_of_list_ascii_of_string.
Qed.

(** X11.  The file name stem [media_get_artwork] derives from a title: for
    every title string it is defined, each of its characters is a character
    of the title that is alphanumeric or one of space, hyphen, underscore,
    and it has no white space at either end.  A title that already has
    this form is its own stem. *)
Theorem safe_title_is_plain_and_trimmed (s : string) :
  exists t,
    safe_title isalnum (VStr s) = Ok t /\
    (forall c, c ∈ String.list_ascii_of_string t ->
       c ∈ String.list_ascii_of_string s /\ allowed isalnum c = true) /\
    trimmed (String.list_ascii_of_string t) /\
    (Forall (fun c => allowed isalnum c = true) (String.list_ascii_of_string s) ->
     trimmed (String.list_ascii_of_string s) -> t = s).
Proof.
  eexists. split; [apply safe_title_chars|]. split; [|split].
  - intros c Hc%strip_subset.
    rewrite String.list_ascii_of_string_of_list_ascii in Hc.
    by apply list_elem_of_filter in Hc as [? ?].
  - apply strip_trimmed.
  - intros Hall.
    assert (filter (fun c => allowed isalnum c = true) (String.list_ascii_of_string s)
            = String.list_ascii_of_string s) as ->.
    { induction Hall as [|c l Hc _ IH]; [done|].
      rewrite filter_cons, decide_True by done. by rewrite IH. }
    intros Htrim. rewrite String.string_of_list_ascii_of_string. by apply strip_id.
Qed.

End Facts.

Lemma safe_title_is_plain_and_trimmed_witness :
  safe_title Examples.isalnum (VStr "Alien Nation") = Ok "Alien Nation" /\
  safe_title Examples.isalnum (VStr " ../Alien: Nation ") = Ok "Alien Nation".
Proof.
  split; [|reflexivity].
  destruct (safe_title_is_plain_and_trimmed Examples.isalnum "Alien Nation")
    as (t & -> & _ & _ & Hsame).
  f_equal. apply Hsame.
  - repeat constructor.
  - split; intros c [= <-]; reflexivity.
Defined.

End ArtworkNameFacts.

(** ** tools/playlist_tools.py: [playlist_list] *)

Module PlaylistListFacts.
Import Tools MediaLookup PlaylistList PlaylistShape.

Lemma lower_char_idem c : lower_char (lower_char c) = lower_char c.
Proof. destruct c as [[] [] [] [] [] [] [] []]; reflexivity. Qed.

Lemma lower_idem s : lower (lower s) = lower s.
Proof.
  unfold lower. rewrite String.list_ascii_of_string_of_list_ascii. f_equal.
  induction (String.list_ascii_of_string s) as [|c l IH]; [done|].
  rewrite !fmap_cons. by rewrite lower_char_idem, IH.
Qed.

Lemma lower_truthy s : truthy (VStr (lower s)) = truthy (VStr s).
Proof. by destruct s. Qed.

Lemma lookup_getattr p name x dflt :
  lookup_key name (obj_attrs p) = Some x -> getattr (of_obj p) name dflt = x.
Proof. unfold getattr, of_obj. by intros ->. Qed.

Lemma playlist_entry_complete p :
  complete p = true ->
  playlist_entry p =
  VDict [("title", getattr (of_obj p) "title" VNone);
         ("key", getattr (of_obj p) "key" VNone);
         ("ratingKey", getattr (of_obj p) "ratingKey" VNone);
         ("type", getattr (of_obj p) "playlistType" VNone);
         ("summary", getattr (of_obj p) "summary" (VStr ""));
         ("duration", getattr (of_obj p) "duration" VNone);
         ("item_count", getattr (of_obj p) "leafCount" VNone)] /\
  is_Some (lookup_key "title" (obj_attrs p)) /\
  is_Some (lookup_key "key" (obj_attrs p)).
Proof.
  unfold complete, playlist_entry, attr_or, attr, hasattr, getattr, of_obj.
  cbn [forallb]. rewrite !andb_true_iff, !bool_decide_eq_true.
  intros ([t ->] & [k ->] & [rk ->] & [ty ->] & _). cbn [bind default].
  split; [|by split; eexists].
  repeat f_equal;
    match goal with
    | |- (if bool_decide (is_Some ?o) then _ else _) = _ => by destruct o
    end.
Qed.

Lemma playlist_entry_incomplete p :
  complete p = false ->
  exists message,
    playlist_entry p =
    VDict [("title", getattr (of_obj p) "title" (VStr "Unknown"));
           ("key", getattr (of_obj p) "key" (VStr "Unknown"));
           ("error", VStr message)].
Proof.
  unfold complete, playlist_entry, attr, hasattr, of_obj.
  cbn [forallb]. rewrite andb_true_r.
  destruct (lookup_key "title" (obj_attrs p)) as [t|]; cbn [bind];
    [|by eexists].
  destruct (lookup_key "key" (obj_attrs p)) as [k|]; cbn [bind];
    [|by eexists].
  destruct (lookup_key "ratingKey" (obj_attrs p)) as [rk|]; cbn [bind];
    [|by eexists].
  destruct (lookup_key "playlistType" (obj_attrs p)) as [ty|]; cbn [bind];
    [|by eexists].
  rewrite !bool_decide_eq_true_2 by by eexists. done.
Qed.

Lemma getattr_plain v name dflt :
  not_serializable dflt = None ->
  not_serializable (getattr v name VNone) = None ->
  not_serializable (getattr v name dflt) = None.
Proof.
  intros Hd. unfold getattr. destruct v; try done.
  by destruct (lookup_key name attrs).
Qed.

Lemma playlist_entry_plain p :
  plain_attrs p -> not_serializable (playlist_entry p) = None.
Proof.
  intros Hp. unfold plain_attrs in Hp. rewrite !Forall_cons in Hp.
  destruct Hp as (Ht & Hk & Hrk & Hty & Hs & Hd & Hl & _).
  destruct (complete p) eqn:Hc.
  - destruct (playlist_entry_complete p Hc) as [-> _].
    apply MediaFacts.not_serializable_dict. repeat constructor; try done.
    by apply getattr_plain.
  - destruct (playlist_entry_incomplete p Hc) as [message ->].
    apply MediaFacts.not_serializable_dict.
    repeat constructor; try done; by apply getattr_plain.
Qed.

Lemma list_body_listed plex library_name content_type ps :
  (truthy (opt_str content_type) = true ->
   lower (default "" content_type) ∈ valid_types) ->
  listed_playlists plex library_name content_type = Ok ps ->
  list_body (Ok plex) library_name content_type =
  json_dumps (VList (playlist_entry <$> ps)).
Proof.
  intros Hct Hl. unfold list_body, listed_playlists in *. cbn [bind].
  assert (truthy (opt_str content_type)
          && negb (bool_decide (lower (default "" content_type) ∈ valid_types))
          = false) as ->.
  { destruct (truthy (opt_str content_type)); [|done].
    by rewrite bool_decide_eq_true_2 by by apply Hct. }
  destruct (Plex.playlists plex (playlist_type content_type)) as [all|e];
    [|done]. cbn [bind] in *.
  destruct (truthy (opt_str library_name)).
  - by rewrite Hl.
  - by injection Hl as ->.
Qed.

(** X12.  With the connection acquired, a content type that is absent or
    one of audio, video, photo (in any case), the listing calls returning
    the playlists [ps], and attributes that are JSON data, [playlist_list]
    returns an array with one entry per playlist, in order.  Every entry
    has the playlist's title and key (["Unknown"] for a missing one); the
    entry of a playlist that lacks one of title, key, ratingKey,
    playlistType carries an [error] member and does not disturb the other
    entries, and the entry of any other playlist has no [error] member and
    gives its ratingKey and type. *)
Theorem playlist_list_has_one_entry_per_playlist
    self now r plex library_name content_type ps :
  snd (acquire self now r) = Ok plex ->
  (truthy (opt_str content_type) = true ->
   lower (default "" content_type) ∈ valid_types) ->
  listed_playlists plex library_name content_type = Ok ps ->
  Forall plain_attrs ps ->
  exists entries,
    snd (playlist_list self now r library_name content_type) = Ok (VList entries) /\
    length entries = length ps /\
    forall i p, ps !! i = Some p ->
      exists d,
        entries !! i = Some (VDict d) /\
        lookup_key "title" d = Some (getattr (of_obj p) "title" (VStr "Unknown")) /\
        lookup_key "key" d = Some (getattr (of_obj p) "key" (VStr "Unknown")) /\
        (complete p = false -> is_Some (lookup_key "error" d) /\ length d = 3%nat) /\
        (complete p = true ->
         lookup_key "error" d = None /\
         lookup_key "ratingKey" d = lookup_key "ratingKey" (obj_attrs p) /\
         lookup_key "type" d = lookup_key "playlistType" (obj_attrs p)).
Proof.
  intros Hconn Hct Hl Hplain.
  exists (playlist_entry <$> ps).
  rewrite EnvelopeFacts.playlist_list_snd, Hconn, (list_body_listed _ _ _ _ Hct Hl).
  split; [|split].
  - rewrite MediaFacts.json_dumps_ok; [done|].
    apply MediaFacts.not_serializable_list, Forall_fmap.
    eapply Forall_impl; [exact Hplain|]. intros p. apply playlist_entry_plain.
  - by rewrite length_fmap.
  - intros i p Hp. rewrite list_lookup_fmap, Hp. cbn [fmap option_fmap option_map].
    destruct (complete p) eqn:Hc.
    + destruct (playlist_entry_complete p Hc) as (-> & [t Ht] & [k Hk]).
      eexists. split; [done|].
      unfold complete in Hc. cbn [forallb] in Hc.
      rewrite !andb_true_iff in Hc. destruct Hc as (_ & _ & Hrk & Hty & _).
      unfold hasattr, of_obj in Hrk, Hty.
      apply bool_decide_eq_true in Hrk as [rk Hrk], Hty as [ty Hty].
      rewrite !(lookup_getattr _ _ _ _ Ht), !(lookup_getattr _ _ _ _ Hk),
        (lookup_getattr _ _ _ _ Hrk), (lookup_getattr _ _ _ _ Hty), Hrk, Hty.
      repeat split; done.
    + destruct (playlist_entry_incomplete p Hc) as [message ->].
      eexists. split; [done|]. split; [done|]. split; [done|].
      split; [|done]. intros _. split; [by eexists | done].
Qed.

(** X13.  With a library named, [playlist_list] still asks the server for
    all playlists first: when that call raises, the tool answers with the
    exception's text and the library is not consulted; when it returns,
    its result is not used, and a [NotFound] from the library lookup or
    from the library's listing is answered with
    ["Library '<name>' not found"]. *)
Theorem playlist_list_asks_server_before_library
    self now r plex library_name content_type :
  snd (acquire self now r) = Ok plex ->
  (truthy (opt_str content_type) = true ->
   lower (default "" content_type) ∈ valid_types) ->
  truthy (opt_str library_name) = true ->
  (forall e,
      Plex.playlists plex (playlist_type content_type) = Raise e ->
      snd (playlist_list self now r library_name content_type) =
      Ok (VDict [("error", VStr (str_exn e))])) /\
  (forall all e,
      Plex.playlists plex (playlist_type content_type) = Ok all ->
      (library <- Plex.library_section plex (default "" library_name) ;;
       Plex.section_playlists library (playlist_type content_type))%py = Raise e ->
      snd (playlist_list self now r library_name content_type) =
      Ok (VDict [("error",
                  VStr (if is_NotFound e
                        then "Library '" +:+ default "" library_name +:+ "' not found"
                        else str_exn e))])).
Proof.
  intros Hconn Hct Hlib.
  rewrite EnvelopeFacts.playlist_list_snd, Hconn. unfold list_body. cbn [bind].
  assert (truthy (opt_str content_type)
          && negb (bool_decide (lower (default "" content_type) ∈ valid_types))
          = false) as ->.
  { destruct (truthy (opt_str content_type)); [|done].
    by rewrite bool_decide_eq_true_2 by by apply Hct. }
  rewrite Hlib. split.
  - by intros e ->.
  - intros all e -> ->. cbn [bind]. by destruct (is_NotFound e).
Qed.

(** X14.  [playlist_list] reads its content type case-insensitively: a
    content type and its lower-case form give the same run, whatever the
    server does. *)
Theorem playlist_list_content_type_ignores_case
    self now r library_name content_type :
  playlist_list self now r library_name (Some content_type) =
  playlist_list self now r library_name (Some (lower content_type)).
Proof.
  unfold playlist_list. destruct (acquire self now r) as [self' connection].
  f_equal. f_equal. unfold list_body, playlist_type.
  cbn [opt_str default fmap option_fmap option_map]. unfold id.
  by rewrite lower_truthy, lower_idem.
Qed.

Lemma playlist_list_has_one_entry_per_playlist_witness :
  exists entries,
    snd (playlist_list Examples.playlist_tools 0
           (PlexClient.Probed PlaylistExamples.jukebox 100) None (Some "Audio")) =
    Ok (VList entries) /\
    length entries = 2%nat.
Proof.
  destruct (playlist_list_has_one_entry_per_playlist
              Examples.playlist_tools 0
              (PlexClient.Probed PlaylistExamples.jukebox 100)
              PlaylistExamples.jukebox None (Some "Audio")
              [PlaylistExamples.road_trip; PlaylistExamples.broken])
    as (entries & Hentries & Hlength & _).
  - reflexivity.
  - intros _. apply (bool_decide_unpack _). vm_compute. exact I.
  - reflexivity.
  - repeat constructor.
  - exists entries. split; [exact Hentries | exact Hlength].
Defined.

Lemma playlist_list_asks_server_before_library_witness :
  snd (playlist_list Examples.playlist_tools 0
         (PlexClient.Probed PlaylistExamples.silent 100) (Some "Music") None) =
  Ok (VDict [("error", VStr "(400) bad_request")]).
Proof.
  destruct (playlist_list_asks_server_before_library
              Examples.playlist_tools 0
              (PlexClient.Probed PlaylistExamples.silent 100)
              PlaylistExamples.silent (Some "Music") None)
    as [Hserver _].
  - reflexivity.
  - discriminate.
  - reflexivity.
  - exact (Hserver _ eq_refl).
Defined.

End PlaylistListFacts.

(** ** tools/media_tools.py: [media_delete] and [media_set_artwork] *)

Module ChangeFacts.
Import Tools MediaLookup Effects MediaChange Envelope.

Lemma answer_inv {A} (text : result json_text) (found : early A) :
  answer text = Ok found -> exists doc, text = Ok doc /\ found = Return doc.
Proof. unfold answer. destruct text as [doc|e]; [|done]. intros [= <-]. by exists doc. Qed.

Lemma error_inv message doc :
  error message = Ok doc ->
  doc = VDict [("status", VStr "error"); ("message", VStr message)].
Proof. apply SearchFacts.json_dumps_inv. Qed.

Lemma single_continue media_title advice results media :
  single media_title advice results = Ok (Continue media) -> results = [media].
Proof.
  unfold single. destruct results as [|first others].
  - by intros (doc & _ & [=])%answer_inv.
  - destruct others as [|second others]; simpl.
    + by intros [= <-].
    + by intros (doc & _ & [=])%answer_inv.
Qed.

Lemma single_return media_title advice results doc :
  single media_title advice results = Ok (Return doc) ->
  field "status" doc = Some (VStr "error") /\ is_string (field "message" doc) = true \/
  field "status" doc = Some (VStr "multiple_results").
Proof.
  unfold single. destruct results as [|first others].
  - intros (doc' & Hdoc%error_inv & [= <-])%answer_inv. subst. by left.
  - destruct (1 <? _)%nat; [|done].
    intros (doc' & Hdoc%SearchFacts.json_dumps_inv & [= <-])%answer_inv.
    subst. by right.
Qed.

Lemma search_spec plex media_title library_name advice :
  search plex media_title library_name advice =
  match title_matches plex media_title library_name with
  | Ok results => single media_title advice results
  | Raise e =>
      if truthy (opt_str library_name) && is_NotFound e
      then answer (error ("Library '" +:+ default "" library_name +:+ "' not found"))
      else Raise e
  end.
Proof.
  unfold search, title_matches. destruct (truthy (opt_str library_name)); simpl.
  - by destruct (Py.bind _ _).
  - by destruct (Plex.search plex media_title).
Qed.

Lemma search_continue plex media_title library_name advice media :
  search plex media_title library_name advice = Ok (Continue media) ->
  title_matches plex media_title library_name = Ok [media].
Proof.
  rewrite search_spec.
  destruct (title_matches plex media_title library_name) as [results|e].
  - by intros ->%single_continue.
  - destruct (_ && _); [|done]. by intros (doc & _ & [=])%answer_inv.
Qed.

Lemma search_return plex media_title library_name advice doc :
  search plex media_title library_name advice = Ok (Return doc) ->
  field "status" doc = Some (VStr "error") /\ is_string (field "message" doc) = true \/
  field "status" doc = Some (VStr "multiple_results").
Proof.
  rewrite search_spec.
  destruct (title_matches plex media_title library_name) as [results|e].
  - apply single_return.
  - destruct (_ && _); [|done].
    intros (doc' & Hdoc%error_inv & [= <-])%answer_inv. subst. by left.
Qed.

Lemma find_media_continue plex media_title media_id library_name media :
  MediaDelete.find_media plex media_title media_id library_name = Ok (Continue media) ->
  if truthy (opt_int media_id)
  then Plex.fetchItem plex (default 0%Z media_id) = Ok media
  else truthy (opt_str media_title) = true /\
       title_matches plex media_title library_name = Ok [media].
Proof.
  unfold MediaDelete.find_media, no_identifier.
  destruct (truthy (opt_int media_id)); cbn [negb andb].
  - destruct (Plex.fetchItem plex _) as [found|e]; [by intros [= <-]|].
    by intros (doc & _ & [=])%answer_inv.
  - destruct (truthy (opt_str media_title)); cbn [negb andb].
    + intros H%search_continue. by split.
    + by intros (doc & _ & [=])%answer_inv.
Qed.

Lemma find_media_return plex media_title media_id library_name doc :
  MediaDelete.find_media plex media_title media_id library_name = Ok (Return doc) ->
  field "status" doc = Some (VStr "error") /\ is_string (field "message" doc) = true \/
  field "status" doc = Some (VStr "multiple_results").
Proof.
  unfold MediaDelete.find_media.
  destruct (no_identifier media_title media_id).
  { intros (doc' & Hdoc%error_inv & [= <-])%answer_inv. subst. by left. }
  destruct (truthy (opt_int media_id)).
  - destruct (Plex.fetchItem plex _) as [found|e]; [done|].
    intros (doc' & Hdoc%error_inv & [= <-])%answer_inv. subst. by left.
  - apply search_return.
Qed.

Section Delete.
Variable repr : val -> string.
Variable outcome : call -> result val.

Lemma media_delete_snd self now r media_title media_id library_name :
  snd (MediaDelete.media_delete repr outcome self now r
         media_title media_id library_name) =
  try_except
    (MediaDelete.delete_body repr outcome (snd (acquire self now r))
       media_title media_id library_name)
    (fun e => Ok (failure "Error deleting media: " e)).
Proof. unfold MediaDelete.media_delete. by destruct (acquire self now r). Qed.

(** The three ways the suite of [media_delete] ends. *)
Lemma delete_body_cases plex media_title media_id library_name :
  let run :=
    MediaDelete.delete_body repr outcome (Ok plex) media_title media_id library_name in
  match MediaDelete.find_media plex media_title media_id library_name with
  | Ok (Continue media) =>
      fst run = [Delete media] /\
      snd run =
      (_ <- outcome (Delete media) ;;
       json_dumps
         (VDict [("status", VStr "success");
                 ("message",
                  VStr ("Successfully deleted '"
                          +:+ str repr (getattr (of_obj media) "title" (VStr "Unknown"))
                          +:+ "' ("
                          +:+ str repr (getattr (of_obj media) "type" (VStr "unknown"))
                          +:+ ")"));
                 ("deleted_title", getattr (of_obj media) "title" (VStr "Unknown"));
                 ("deleted_type", getattr (of_obj media) "type" (VStr "unknown"))]))%py
  | Ok (Return text) => run = ([], Ok text)
  | Raise e => run = ([], Raise e)
  end.
Proof.
  unfold MediaDelete.delete_body. cbn [pure Effects.bind].
  destruct (MediaDelete.find_media _ _ _ _) as [[media|text]|e]; cbn; [|done|done].
  destruct (outcome (Delete media)); cbn; done.
Qed.

(** X15.  [media_delete] makes no call that changes the library other than
    one [delete()], and makes it only on the item [fetchItem] returned for
    a non-zero [media_id], or else on the only match of a non-empty title:
    nothing is deleted when no identifier is given, when the connection or
    the lookup fails, when nothing matches or when several items match. *)
Theorem media_delete_deletes_only_the_item_found
    self now r media_title media_id library_name :
  let run :=
    snd (MediaDelete.media_delete repr outcome self now r
           media_title media_id library_name) in
  fst run = [] \/
  exists plex media,
    fst run = [Delete media] /\
    snd (acquire self now r) = Ok plex /\
    if truthy (opt_int media_id)
    then Plex.fetchItem plex (default 0%Z media_id) = Ok media
    else truthy (opt_str media_title) = true /\
         title_matches plex media_title library_name = Ok [media].
Proof.
  cbv zeta. rewrite media_delete_snd. unfold try_except. cbn [fst].
  destruct (snd (acquire self now r)) as [plex|e]; [|by left].
  pose proof (delete_body_cases plex media_title media_id library_name) as Hrun.
  cbv zeta in Hrun.
  destruct (MediaDelete.find_media plex media_title media_id library_name)
    as [[media|text]|e] eqn:Hfind.
  - right. exists plex, media. destruct Hrun as [-> _].
    split; [done|]. split; [done|]. by apply find_media_continue.
  - left. by rewrite Hrun.
  - left. by rewrite Hrun.
Qed.

(** X16.  What [media_delete] reports.  It returns [status = "success"]
    only after a [delete()] that returned normally, and then [deleted_title]
    is the title of the item deleted; when [delete()] raises, it returns
    the error envelope ["Error deleting media: <text>"]. *)
Theorem media_delete_reports_success_only_after_delete
    self now r media_title media_id library_name :
  let run :=
    snd (MediaDelete.media_delete repr outcome self now r
           media_title media_id library_name) in
  (forall doc,
      snd run = Ok doc ->
      field "status" doc = Some (VStr "success") ->
      exists media result,
        fst run = [Delete media] /\
        outcome (Delete media) = Ok result /\
        field "deleted_title" doc =
          Some (getattr (of_obj media) "title" (VStr "Unknown"))) /\
  (forall media e,
      fst run = [Delete media] ->
      outcome (Delete media) = Raise e ->
      snd run = Ok (failure "Error deleting media: " e)).
Proof.
  cbv zeta. rewrite media_delete_snd. unfold try_except. cbn [fst snd].
  destruct (snd (acquire self now r)) as [plex|e].
  2:{ split; [|done]. cbn. by intros doc [= <-]. }
  pose proof (delete_body_cases plex media_title media_id library_name) as Hrun.
  cbv zeta in Hrun.
  destruct (MediaDelete.find_media plex media_title media_id library_name)
    as [[media|text]|e] eqn:Hfind.
  - destruct Hrun as [-> ->]. split.
    + intros doc Hdoc Hstatus.
      destruct (outcome (Delete media)) as [result|e] eqn:Hout; cbn in Hdoc.
      * exists media, result. split; [done|]. split; [done|].
        destruct (json_dumps _) as [doc'|e] eqn:Hdumps; cbn in Hdoc.
        -- apply SearchFacts.json_dumps_inv in Hdumps. by simplify_eq.
        -- by simplify_eq.
      * by simplify_eq.
    + intros media' e [= <-] ->. done.
  - rewrite Hrun. split; [|done]. cbn. intros doc [= <-] Hstatus.
    destruct (find_media_return _ _ _ _ _ Hfind) as [[H _]|H]; congruence.
  - rewrite Hrun. split; [|done]. cbn. by intros doc [= <-].
Qed.

End Delete.

Lemma media_delete_reports_success_only_after_delete_witness :
  exists media,
    fst (snd (MediaDelete.media_delete Examples.repr ChangeExamples.accepts
                Examples.media_tools 0 (PlexClient.Probed ChangeExamples.cinema 100)
                None (Some 101%Z) None)) = [Delete media] /\
    getattr (of_obj media) "title" (VStr "Unknown") = VStr "Alien".
Proof.
  destruct (media_delete_reports_success_only_after_delete
              Examples.repr ChangeExamples.accepts
              Examples.media_tools 0 (PlexClient.Probed ChangeExamples.cinema 100)
              None (Some 101%Z) None)
    as [Hsuccess _].
  destruct (Hsuccess _ eq_refl eq_refl) as (media & result & Hmade & _ & Htitle).
  exists media. split; [exact Hmade|].
  injection Htitle as Htitle. symmetry. exact Htitle.
Defined.

Lemma status_well_formed doc :
  field "status" doc = Some (VStr "error") /\ is_string (field "message" doc) = true \/
  field "status" doc = Some (VStr "multiple_results") ->
  well_formed doc = true.
Proof.
  unfold well_formed. destruct doc; try by intros [[? _]|?].
  intros [[-> ->]| ->]; done.
Qed.

Section SetArtwork.
Import ArtworkSource.
Variable repr : val -> string.
Variable path_exists : string -> bool.
Variable outcome : call -> result val.

Lemma media_set_artwork_snd self now r media_title library_name
    poster_path poster_url background_path background_url :
  snd (MediaSetArtwork.media_set_artwork repr path_exists outcome self now r
         media_title library_name
         poster_path poster_url background_path background_url) =
  try_except
    (MediaSetArtwork.set_artwork_body repr path_exists outcome
       (snd (acquire self now r)) media_title library_name
       poster_path poster_url background_path background_url)
    (fun e => Ok (failure "Error setting media artwork: " e)).
Proof. unfold MediaSetArtwork.media_set_artwork. by destruct (acquire self now r). Qed.

(** The four ways a block ends. *)
Lemma set_image_run upload what label path url changes :
  MediaSetArtwork.set_image path_exists outcome upload what label path url changes =
  if truthy (opt_str path) then
    if path_exists (default "" path) then
      ([upload (FromFile (default "" path))],
       (_ <- outcome (upload (FromFile (default "" path))) ;;
        Ok (Continue (changes ++ [what +:+ " (from file)"])))%py)
    else
      ([],
       Ok (Return
             (VDict [("status", VStr "error");
                     ("message",
                      VStr (label +:+ " file not found: " +:+ default "" path))])))
  else if truthy (opt_str url) then
    ([upload (FromUrl (default "" url))],
     (_ <- outcome (upload (FromUrl (default "" url))) ;;
      Ok (Continue (changes ++ [what +:+ " (from URL)"])))%py)
  else ([], Ok (Continue changes)).
Proof.
  unfold MediaSetArtwork.set_image.
  destruct (truthy (opt_str path)).
  - destruct (path_exists (default "" path)); [|done].
    cbn. by destruct (outcome _).
  - destruct (truthy (opt_str url)); [|done].
    cbn. by destruct (outcome _).
Qed.

Lemma set_image_made upload what label path url changes :
  exists srcs,
    fst (MediaSetArtwork.set_image path_exists outcome upload what label
           path url changes) = upload <$> srcs /\
    (length srcs <= 1)%nat /\
    Forall (uploads_from path_exists path url) srcs.
Proof.
  rewrite set_image_run. unfold uploads_from.
  destruct (truthy (opt_str path)) eqn:Hpath.
  - destruct (path_exists (default "" path)) eqn:Hfile.
    + exists [FromFile (default "" path)]. split; [done|]. split; [done|].
      constructor; [|done]. by left.
    + exists []. split; [done|]. split; [simpl; lia | constructor].
  - destruct (truthy (opt_str url)) eqn:Hurl.
    + exists [FromUrl (default "" url)]. split; [done|]. split; [done|].
      constructor; [|done]. by right.
    + exists []. split; [done|]. split; [simpl; lia | constructor].
Qed.

Lemma set_image_return upload what label path url changes made doc :
  MediaSetArtwork.set_image path_exists outcome upload what label path url changes
    = (made, Ok (Return doc)) ->
  well_formed doc = true.
Proof.
  rewrite set_image_run.
  destruct (truthy (opt_str path)).
  - destruct (path_exists (default "" path)); [|by intros [= _ <-]].
    by destruct (outcome _).
  - destruct (truthy (opt_str url)); [|done]. by destruct (outcome _).
Qed.

(** The suite of [media_set_artwork] once the item is found. *)
Lemma set_artwork_body_found plex media_title library_name
    poster_path poster_url background_path background_url media :
  MediaSetArtwork.no_source poster_path poster_url background_path background_url
    = false ->
  search plex (Some media_title) library_name "Please be more specific."
    = Ok (Continue media) ->
  MediaSetArtwork.set_artwork_body repr path_exists outcome (Ok plex)
    media_title library_name poster_path poster_url background_path background_url =
  (poster <- MediaSetArtwork.set_image path_exists outcome (UploadPoster media)
               "poster" "Poster" poster_path poster_url [] ;;
   match poster with
   | Return text => pure (Ok text)
   | Continue changes =>
       background <- MediaSetArtwork.set_image path_exists outcome (UploadArt media)
                       "background art" "Background"
                       background_path background_url changes ;;
       match background with
       | Return text => pure (Ok text)
       | Continue changes =>
           pure
             (title <- MediaArtwork.media_title_attr media ;;
              json_dumps
                (VDict [("status", VStr "success");
                        ("message",
                         VStr ("Successfully updated artwork for '"
                                 +:+ str repr title +:+ "'"));
                        ("changes", VList (VStr <$> changes));
                        ("title", title);
                        ("type", getattr (of_obj media) "type" (VStr "unknown"))]))%py
       end
   end)%eff.
Proof.
  intros Hsource Hsearch. unfold MediaSetArtwork.set_artwork_body.
  cbn [pure Effects.bind]. rewrite Hsource, Hsearch.
  by destruct (Effects.bind _ _).
Qed.

Lemma set_artwork_body_not_found plex media_title library_name
    poster_path poster_url background_path background_url :
  (forall media,
      search plex (Some media_title) library_name "Please be more specific."
        <> Ok (Continue media)) ->
  fst (MediaSetArtwork.set_artwork_body repr path_exists outcome (Ok plex)
         media_title library_name
         poster_path poster_url background_path background_url) = [] /\
  returns (fun doc => well_formed doc = true)
    (snd (MediaSetArtwork.set_artwork_body repr path_exists outcome (Ok plex)
            media_title library_name
            poster_path poster_url background_path background_url)).
Proof.
  intros Hnone. unfold MediaSetArtwork.set_artwork_body.
  cbn [pure Effects.bind].
  destruct (MediaSetArtwork.no_source _ _ _ _); [done|].
  destruct (search plex _ _ _) as [[media|text]|e] eqn:Hsearch; cbn.
  - by destruct (Hnone media).
  - split; [done|]. by apply status_well_formed, (search_return _ _ _ _ _ Hsearch).
  - done.
Qed.

(** X17.  [media_set_artwork] changes the library only by uploads to the
    only match of the title: it uploads at most one poster and then at
    most one background image, a file only when a path is given and the
    file is there, an image from a URL only when no path is given for that
    image; it uploads nothing when the connection or the search fails,
    when nothing matches or when several items match. *)
Theorem media_set_artwork_uploads_to_the_single_match
    self now r media_title library_name
    poster_path poster_url background_path background_url :
  let run :=
    snd (MediaSetArtwork.media_set_artwork repr path_exists outcome self now r
           media_title library_name
           poster_path poster_url background_path background_url) in
  fst run = [] \/
  exists plex media posters backgrounds,
    snd (acquire self now r) = Ok plex /\
    title_matches plex (Some media_title) library_name = Ok [media] /\
    fst run = (UploadPoster media <$> posters) ++ (UploadArt media <$> backgrounds) /\
    (length posters <= 1)%nat /\ (length backgrounds <= 1)%nat /\
    Forall (uploads_from path_exists poster_path poster_url) posters /\
    Forall (uploads_from path_exists background_path background_url) backgrounds.
Proof.
  cbv zeta. rewrite media_set_artwork_snd. unfold try_except. cbn [fst].
  destruct (snd (acquire self now r)) as [plex|e]; [|by left].
  destruct (MediaSetArtwork.no_source poster_path poster_url
              background_path background_url) eqn:Hsource.
  { left. unfold MediaSetArtwork.set_artwork_body. cbn [pure Effects.bind].
    by rewrite Hsource. }
  destruct (search plex (Some media_title) library_name "Please be more specific.")
    as [[media|text]|e] eqn:Hsearch.
  2,3: left; apply set_artwork_body_not_found; intros media; by rewrite Hsearch.
  right. rewrite (set_artwork_body_found _ _ _ _ _ _ _ _ Hsource Hsearch).
  apply search_continue in Hsearch.
  destruct (set_image_made (UploadPoster media) "poster" "Poster"
              poster_path poster_url []) as (posters & Hposters & Hlp & Hgp).
  destruct (MediaSetArtwork.set_image path_exists outcome (UploadPoster media) _ _ _ _ _)
    as [made1 [[changes|text]|e]]; cbn [fst] in Hposters; subst made1.
  - destruct (set_image_made (UploadArt media) "background art" "Background"
                background_path background_url changes)
      as (backgrounds & Hbackgrounds & Hlb & Hgb).
    exists plex, media, posters, backgrounds.
    repeat (split; [done|]). split; [|done].
    cbn [Effects.bind].
    destruct (MediaSetArtwork.set_image path_exists outcome (UploadArt media) _ _ _ _ _)
      as [made2 [[changes2|text]|e]]; cbn [fst] in Hbackgrounds; subst made2;
      cbn; by rewrite ?app_nil_r.
  - exists plex, media, posters, []. cbn. rewrite app_nil_r.
    repeat (split; [done|]). split; [lia|]. split; [done|constructor].
  - exists plex, media, posters, []. cbn. rewrite app_nil_r.
    repeat (split; [done|]). split; [lia|]. split; [done|constructor].
Qed.

Lemma search_single plex media_title library_name advice media :
  title_matches plex media_title library_name = Ok [media] ->
  search plex media_title library_name advice = Ok (Continue media).
Proof. rewrite search_spec. by intros ->. Qed.

Lemma given_truthy path url src :
  uploads_from path_exists path url src ->
  truthy (opt_str path) || truthy (opt_str url) = true.
Proof. intros [(-> & _)|(_ & -> & _)]; [done | apply orb_true_r]. Qed.

Lemma set_image_given upload what label path url changes src :
  uploads_from path_exists path url src ->
  MediaSetArtwork.set_image path_exists outcome upload what label path url changes =
  ([upload src],
   (_ <- outcome (upload src) ;;
    Ok (Continue
          (changes ++ [what +:+ (match src with
                                 | FromFile _ => " (from file)"
                                 | FromUrl _ => " (from URL)"
                                 end)])))%py).
Proof.
  rewrite set_image_run. by intros [(-> & -> & ->)|(-> & -> & ->)].
Qed.

Lemma set_image_missing upload what label path url changes :
  missing path_exists path = true ->
  MediaSetArtwork.set_image path_exists outcome upload what label path url changes =
  ([],
   Ok (Return
         (VDict [("status", VStr "error");
                 ("message",
                  VStr (label +:+ " file not found: " +:+ default "" path))]))).
Proof.
  rewrite set_image_run. unfold missing.
  intros [-> ->%negb_true_iff]%andb_true_iff. done.
Qed.

(** X18.  An error answer of [media_set_artwork] does not mean that nothing
    was changed.  With the item found: when a poster path is given and no
    file is there, nothing is uploaded, whatever the background source;
    but when the poster has been uploaded and the background path names no
    file, or the upload of the background raises, the tool answers
    [status = "error"] after the poster upload has been made. *)
Theorem media_set_artwork_error_after_upload
    self now r plex media media_title library_name
    poster_path poster_url background_path background_url :
  snd (acquire self now r) = Ok plex ->
  title_matches plex (Some media_title) library_name = Ok [media] ->
  let run :=
    snd (MediaSetArtwork.media_set_artwork repr path_exists outcome self now r
           media_title library_name
           poster_path poster_url background_path background_url) in
  (missing path_exists poster_path = true ->
   run =
   ([], Ok (VDict [("status", VStr "error");
                   ("message",
                    VStr ("Poster file not found: " +:+ default "" poster_path))]))) /\
  (forall src result,
      uploads_from path_exists poster_path poster_url src ->
      outcome (UploadPoster media src) = Ok result ->
      (missing path_exists background_path = true ->
       run =
       ([UploadPoster media src],
        Ok (VDict [("status", VStr "error");
                   ("message",
                    VStr ("Background file not found: "
                            +:+ default "" background_path))]))) /\
      (forall src' e,
          uploads_from path_exists background_path background_url src' ->
          outcome (UploadArt media src') = Raise e ->
          run =
          ([UploadPoster media src; UploadArt media src'],
           Ok (failure "Error setting media artwork: " e)))).
Proof.
  intros Hconn Hmatch. cbv zeta.
  rewrite media_set_artwork_snd, Hconn.
  pose proof (search_single _ _ _ "Please be more specific." _ Hmatch) as Hsearch.
  split.
  - intros Hmissing.
    assert (MediaSetArtwork.no_source poster_path poster_url
              background_path background_url = false) as Hsource.
    { unfold MediaSetArtwork.no_source.
      by apply andb_true_iff in Hmissing as [-> _]. }
    rewrite (set_artwork_body_found _ _ _ _ _ _ _ _ Hsource Hsearch).
    by rewrite (set_image_missing _ _ _ _ _ _ Hmissing).
  - intros src result Hsrc Hposter.
    assert (MediaSetArtwork.no_source poster_path poster_url
              background_path background_url = false) as Hsource.
    { unfold MediaSetArtwork.no_source.
      pose proof (given_truthy _ _ _ Hsrc) as Ht.
      by destruct (truthy (opt_str poster_path)), (truthy (opt_str poster_url)). }
    rewrite (set_artwork_body_found _ _ _ _ _ _ _ _ Hsource Hsearch).
    rewrite (set_image_given _ _ _ _ _ _ _ Hsrc), Hposter.
    split.
    + intros Hmissing. cbn [Effects.bind Py.bind].
      by rewrite (set_image_missing _ _ _ _ _ _ Hmissing).
    + intros src' e Hsrc' Hart. cbn [Effects.bind Py.bind].
      by rewrite (set_image_given _ _ _ _ _ _ _ Hsrc'), Hart.
Qed.

(** X19.  [media_delete] and [media_set_artwork] answer every input: they
    return normally, whatever the connection, the lookup and the calls on
    the item do, with an object whose [status] is ["success"], ["error"] or
    ["multiple_results"] and that carries a [message] string when the
    status is ["error"]. *)
Theorem change_tools_return_documents
    self now r media_title media_id library_name title
    poster_path poster_url background_path background_url :
  (exists doc,
      snd (snd (MediaDelete.media_delete repr outcome self now r
                  media_title media_id library_name)) = Ok doc /\
      well_formed doc = true) /\
  (exists doc,
      snd (snd (MediaSetArtwork.media_set_artwork repr path_exists outcome self now r
                  title library_name
                  poster_path poster_url background_path background_url)) = Ok doc /\
      well_formed doc = true).
Proof.
  split.
  - rewrite media_delete_snd. unfold try_except. cbn [snd].
    apply EnvelopeFacts.returns_try; [|by eexists].
    destruct (snd (acquire self now r)) as [plex|e]; [|done].
    pose proof (delete_body_cases repr outcome plex media_title media_id library_name)
      as Hrun. cbv zeta in Hrun.
    destruct (MediaDelete.find_media plex media_title media_id library_name)
      as [[media|text]|e] eqn:Hfind.
    + destruct Hrun as [_ ->].
      apply EnvelopeFacts.returns_bind. intros _.
      by apply EnvelopeFacts.returns_dumps.
    + rewrite Hrun. cbn.
      by apply status_well_formed, (find_media_return _ _ _ _ _ Hfind).
    + by rewrite Hrun.
  - rewrite media_set_artwork_snd. unfold try_except. cbn [snd].
    apply EnvelopeFacts.returns_try; [|by eexists].
    destruct (snd (acquire self now r)) as [plex|e]; [|done].
    destruct (MediaSetArtwork.no_source poster_path poster_url
                background_path background_url) eqn:Hsource.
    { unfold MediaSetArtwork.set_artwork_body. cbn [pure Effects.bind].
      by rewrite Hsource. }
    destruct (search plex (Some title) library_name "Please be more specific.")
      as [[media|text]|e] eqn:Hsearch.
    2,3: apply set_artwork_body_not_found; intros media; by rewrite Hsearch.
    rewrite (set_artwork_body_found _ _ _ _ _ _ _ _ Hsource Hsearch).
    destruct (MediaSetArtwork.set_image path_exists outcome (UploadPoster media) _ _ _ _ _)
      as [made1 [[changes|text]|e]] eqn:Hposter; cbn [Effects.bind].
    + destruct (MediaSetArtwork.set_image path_exists outcome (UploadArt media) _ _ _ _ _)
        as [made2 [[changes2|text]|e]] eqn:Hbackground; cbn.
      * apply EnvelopeFacts.returns_bind. intros value.
        by apply EnvelopeFacts.returns_dumps.
      * by apply (set_image_return _ _ _ _ _ _ _ _ Hbackground).
      * done.
    + cbn. by apply (set_image_return _ _ _ _ _ _ _ _ Hposter).
    + done.
Qed.

End SetArtwork.

Lemma media_set_artwork_error_after_upload_witness :
  snd (MediaSetArtwork.media_set_artwork Examples.repr ChangeExamples.on_disk
         ChangeExamples.accepts
         Examples.media_tools 0 (PlexClient.Probed ChangeExamples.cinema 100)
         "Alien" None None (Some "http://img/alien.jpg") (Some "art.jpg") None) =
  ([UploadPoster Examples.alien (FromUrl "http://img/alien.jpg")],
   Ok (VDict [("status", VStr "error");
              ("message", VStr "Background file not found: art.jpg")])).
Proof.
  destruct (media_set_artwork_error_after_upload
              Examples.repr ChangeExamples.on_disk ChangeExamples.accepts
              Examples.media_tools 0 (PlexClient.Probed ChangeExamples.cinema 100)
              ChangeExamples.cinema Examples.alien
              "Alien" None None (Some "http://img/alien.jpg") (Some "art.jpg") None
              eq_refl eq_refl)
    as [_ Hposter].
  destruct (Hposter (FromUrl "http://img/alien.jpg") VNone) as [Hmissing _].
  - right. repeat split.
  - reflexivity.
  - exact (Hmissing eq_refl).
Defined.

End ChangeFacts.

(** ** tools/playlist_tools.py: [playlist_delete] *)

Module PlaylistDeleteFacts.
Import Tools MediaLookup Effects PlaylistList PlaylistDelete Envelope.

Lemma attr_inv p name x :
  attr (of_obj p) name = Ok x -> lookup_key name (obj_attrs p) = Some x.
Proof.
  unfold attr, of_obj. destruct (lookup_key name (obj_attrs p)); [|done].
  by intros [= <-].
Qed.

Lemma error_only_inv message doc :
  error_only message = Ok doc -> doc = VDict [("error", VStr message)].
Proof. apply SearchFacts.json_dumps_inv. Qed.

Lemma answer_error_only {A} message (found : early A) :
  answer (error_only message) = Ok found ->
  found = Return (VDict [("error", VStr message)]).
Proof. by intros [= <-]. Qed.

Lemma next_with_key_some all_playlists playlist_id p :
  next_with_key all_playlists playlist_id = Ok (Some p) ->
  p ∈ all_playlists /\
  exists ratingKey,
    lookup_key "ratingKey" (obj_attrs p) = Some ratingKey /\
    eq_int ratingKey playlist_id = true.
Proof.
  induction all_playlists as [|q rest IH]; [done|]. cbn [next_with_key].
  destruct (attr (of_obj q) "ratingKey") as [ratingKey|e] eqn:Hkey; [|done].
  cbn [Py.bind]. destruct (eq_int ratingKey playlist_id) eqn:Heq.
  - intros [= <-]. split; [apply list_elem_of_here|].
    exists ratingKey. split; [by apply attr_inv | done].
  - intros [Hin Hp]%IH. split; [by apply list_elem_of_further | done].
Qed.

Lemma matching_filter str_lower playlists playlist_title found :
  matching str_lower playlists playlist_title = Ok found ->
  found = filter (fun p => same_title str_lower playlist_title p = true) playlists.
Proof.
  revert found. induction playlists as [|p rest IH]; intros found.
  - by intros [= <-].
  - cbn [matching]. unfold same_title at 1.
    destruct (attr (of_obj p) "title") as [title|e] eqn:Htitle; [|done].
    apply attr_inv in Htitle. cbn [Py.bind].
    destruct title as [| | |title| | |]; try done. cbn [lower_of Py.bind].
    destruct (matching str_lower rest playlist_title) as [found'|e]; [|done].
    cbn [Py.bind]. intros [= <-]. rewrite filter_cons.
    unfold same_title at 1. rewrite Htitle, (IH found' eq_refl).
    destruct (String.eqb (str_lower title) (str_lower playlist_title)).
    + by rewrite decide_True.
    + by rewrite decide_False.
Qed.

Section Delete.
Variable repr : val -> string.
Variable str_lower : string -> string.
Variable truth : obj -> bool.
Variable outcome : call -> result val.

Lemma find_by_id_continue plex playlist_id p :
  find_by_id truth plex playlist_id = Ok (Continue p) ->
  truth p = true /\
  (Plex.fetchItem plex playlist_id = Ok p \/
   exists e all_playlists ratingKey,
     Plex.fetchItem plex playlist_id = Raise e /\
     Plex.playlists plex None = Ok all_playlists /\
     p ∈ all_playlists /\
     lookup_key "ratingKey" (obj_attrs p) = Some ratingKey /\
     eq_int ratingKey playlist_id = true).
Proof.
  unfold find_by_id.
  destruct (Plex.fetchItem plex playlist_id) as [q|e] eqn:Hfetch.
  - cbn [Py.bind]. destruct (truth q) eqn:Hq; [|done].
    intros [= <-]. split; [done|]. by left.
  - destruct (Plex.playlists plex None) as [all_playlists|e'] eqn:Hall;
      [|done]. cbn [Py.bind].
    destruct (next_with_key all_playlists playlist_id) as [[q|]|e'] eqn:Hnext;
      [|done|done]. cbn [Py.bind].
    destruct (truth q) eqn:Hq; [|done].
    intros [= <-]. split; [done|]. right.
    destruct (next_with_key_some _ _ _ Hnext) as (Hin & ratingKey & Hkey & Heq).
    by exists e, all_playlists, ratingKey.
Qed.

Lemma find_by_id_return plex playlist_id doc :
  find_by_id truth plex playlist_id = Ok (Return doc) ->
  is_string (field "error" doc) = true /\ field "status" doc = None.
Proof.
  unfold find_by_id.
  destruct (Py.bind _ _) as [[q|text]|e] eqn:Hbody.
  - done.
  - intros [= <-]. revert Hbody.
    destruct (match Plex.fetchItem plex playlist_id with
              | Ok playlist => Ok (Some playlist)
              | Raise _ => _ end) as [[q|]|e]; cbn [Py.bind]; [| |done].
    + destruct (truth q); [done|]. by intros [= <-].
    + by intros [= <-].
  - by intros [= <-].
Qed.

Lemma find_by_title_continue plex playlist_title p :
  find_by_title str_lower plex playlist_title = Ok (Continue p) ->
  exists all_playlists,
    Plex.playlists plex None = Ok all_playlists /\
    filter (fun q => same_title str_lower (default "" playlist_title) q = true) all_playlists
      = [p].
Proof.
  unfold find_by_title.
  destruct (Plex.playlists plex None) as [all_playlists|e]; [|done].
  cbn [Py.bind].
  destruct (matching str_lower all_playlists (default "" playlist_title))
    as [found|e] eqn:Hfound; [|done].
  apply matching_filter in Hfound. cbn [Py.bind].
  destruct found as [|q [|q' others]]; [done| |].
  - cbn. intros [= <-]. by exists all_playlists.
  - cbn [length Nat.ltb Nat.leb].
    destruct (comprehension _ _) as [matches|e]; cbn [Py.bind]; [|done].
    by destruct (json_dumps _).
Qed.

Lemma find_by_title_return plex playlist_title doc :
  find_by_title str_lower plex playlist_title = Ok (Return doc) ->
  is_string (field "error" doc) = true /\ field "status" doc = None.
Proof.
  unfold find_by_title.
  destruct (Plex.playlists plex None) as [all_playlists|e]; [|done].
  cbn [Py.bind].
  destruct (matching str_lower all_playlists (default "" playlist_title))
    as [found|e]; [|done]. cbn [Py.bind].
  destruct found as [|q [|q' others]]; [by intros [= <-]|done|].
  cbn [length Nat.ltb Nat.leb].
  destruct (comprehension _ _) as [matches|e]; cbn [Py.bind]; [|done].
  destruct (json_dumps _) as [doc'|e] eqn:Hdumps; [|done].
  apply SearchFacts.json_dumps_inv in Hdumps. subst doc'. by intros [= <-].
Qed.

Lemma find_playlist_return plex playlist_title playlist_id doc :
  find_playlist str_lower truth plex playlist_title playlist_id = Ok (Return doc) ->
  is_string (field "error" doc) = true /\ field "status" doc = None.
Proof.
  unfold find_playlist.
  destruct (no_identifier playlist_title playlist_id); [by intros [= <-]|].
  destruct (truthy (opt_int playlist_id)).
  - apply find_by_id_return.
  - apply find_by_title_return.
Qed.

Lemma playlist_delete_snd self now r playlist_title playlist_id :
  snd (playlist_delete repr str_lower truth outcome self now r playlist_title playlist_id) =
  try_except
    (delete_body repr str_lower truth outcome (snd (acquire self now r))
       playlist_title playlist_id)
    (fun e => Ok (VDict [("error", VStr (str_exn e))])).
Proof. unfold playlist_delete. by destruct (acquire self now r). Qed.

(** The ways the suite of [playlist_delete] ends. *)
Lemma playlist_delete_body_cases plex playlist_title playlist_id :
  let run := delete_body repr str_lower truth outcome (Ok plex) playlist_title playlist_id in
  match find_playlist str_lower truth plex playlist_title playlist_id with
  | Ok (Continue playlist) =>
      match attr (of_obj playlist) "title" with
      | Ok title =>
          fst run = [Delete playlist] /\
          snd run =
          match outcome (Delete playlist) with
          | Ok _ =>
              Ok (VDict [("status", VStr "success");
                         ("message",
                          VStr ("Playlist '" +:+ str repr title
                                  +:+ "' deleted successfully"))])
          | Raise e =>
              Ok (VDict [("error", VStr ("Error deleting playlist: " +:+ str_exn e))])
          end
      | Raise e => run = ([], Raise e)
      end
  | Ok (Return text) => run = ([], Ok text)
  | Raise e => run = ([], Raise e)
  end.
Proof.
  unfold delete_body. cbn [pure Effects.bind].
  destruct (find_playlist _ _ _ _) as [[playlist|text]|e];
    cbn [pure Effects.bind app]; [|done|done].
  destruct (attr (of_obj playlist) "title") as [title|e];
    cbn [pure Effects.bind app]; [|done].
  unfold try_except, invoke.
  destruct (outcome (Delete playlist)); cbn; done.
Qed.

(** X20.  [playlist_delete] makes no call that changes the library other
    than one [delete()], and makes it only on a playlist that counts as
    true and that [fetchItem] returned for a non-zero [playlist_id], or,
    when [fetchItem] raised, that is a playlist of the server with that
    [ratingKey]; or else on the only playlist of the server whose title is
    the given one up to case.  Nothing is deleted when no identifier is
    given, when the connection or a lookup fails, when nothing matches or
    when several playlists match. *)
Theorem playlist_delete_deletes_only_the_playlist_found
    self now r playlist_title playlist_id :
  let run :=
    snd (playlist_delete repr str_lower truth outcome self now r playlist_title playlist_id) in
  fst run = [] \/
  exists plex playlist,
    fst run = [Delete playlist] /\
    snd (acquire self now r) = Ok plex /\
    if truthy (opt_int playlist_id)
    then
      truth playlist = true /\
      (Plex.fetchItem plex (default 0%Z playlist_id) = Ok playlist \/
       exists e all_playlists ratingKey,
         Plex.fetchItem plex (default 0%Z playlist_id) = Raise e /\
         Plex.playlists plex None = Ok all_playlists /\
         playlist ∈ all_playlists /\
         lookup_key "ratingKey" (obj_attrs playlist) = Some ratingKey /\
         eq_int ratingKey (default 0%Z playlist_id) = true)
    else
      truthy (opt_str playlist_title) = true /\
      exists all_playlists,
        Plex.playlists plex None = Ok all_playlists /\
        filter (fun q => same_title str_lower (default "" playlist_title) q = true)
          all_playlists = [playlist].
Proof.
  cbv zeta. rewrite playlist_delete_snd. unfold try_except. cbn [fst].
  destruct (snd (acquire self now r)) as [plex|e]; [|by left].
  pose proof (playlist_delete_body_cases plex playlist_title playlist_id) as Hrun.
  cbv zeta in Hrun.
  destruct (find_playlist str_lower truth plex playlist_title playlist_id)
    as [[playlist|text]|e] eqn:Hfind.
  - destruct (attr (of_obj playlist) "title") as [title|e];
      [|left; by rewrite Hrun].
    right. exists plex, playlist. destruct Hrun as [-> _].
    split; [done|]. split; [done|].
    unfold find_playlist, no_identifier in Hfind.
    destruct (truthy (opt_int playlist_id)); cbn [negb andb] in Hfind.
    + by apply find_by_id_continue.
    + destruct (truthy (opt_str playlist_title)); cbn [negb andb] in Hfind;
        [|done].
      split; [done|]. by apply find_by_title_continue.
  - left. by rewrite Hrun.
  - left. by rewrite Hrun.
Qed.

(** X21.  [playlist_delete] answers every input: it returns normally,
    whatever the connection, the lookups and [delete()] do, with an object
    that has an [error] string or [status = "success"]; it returns
    [status = "success"] only after a [delete()] that returned normally,
    and when [delete()] raises it returns
    [{"error": "Error deleting playlist: <text>"}]. *)
Theorem playlist_delete_answers self now r playlist_title playlist_id :
  let run :=
    snd (playlist_delete repr str_lower truth outcome self now r playlist_title playlist_id) in
  exists doc,
    snd run = Ok doc /\
    answered doc /\
    (field "status" doc = Some (VStr "success") ->
     exists playlist result,
       fst run = [Delete playlist] /\ outcome (Delete playlist) = Ok result) /\
    (forall playlist e,
        fst run = [Delete playlist] -> outcome (Delete playlist) = Raise e ->
        doc = VDict [("error", VStr ("Error deleting playlist: " +:+ str_exn e))]).
Proof.
  cbv zeta. rewrite playlist_delete_snd. unfold try_except, answered. cbn [fst snd].
  destruct (snd (acquire self now r)) as [plex|e].
  2:{ eexists. split; [done|]. split; [by left|]. by split. }
  pose proof (playlist_delete_body_cases plex playlist_title playlist_id) as Hrun.
  cbv zeta in Hrun.
  destruct (find_playlist str_lower truth plex playlist_title playlist_id)
    as [[playlist|text]|e] eqn:Hfind.
  - destruct (attr (of_obj playlist) "title") as [title|e].
    + destruct Hrun as [-> ->].
      destruct (outcome (Delete playlist)) as [result|e] eqn:Hout.
      * eexists. split; [done|]. split; [by right|]. split.
        -- intros _. by exists playlist, result.
        -- intros playlist' e [= <-]. by rewrite Hout.
      * eexists. split; [done|]. split; [by left|]. split; [done|].
        intros playlist' e' [= <-]. rewrite Hout. by intros [= <-].
    + rewrite Hrun. eexists. split; [done|]. split; [by left|]. by split.
  - rewrite Hrun. exists text. split; [done|].
    destruct (find_playlist_return _ _ _ _ Hfind) as [Herror Hstatus].
    split; [by left|]. split; [by rewrite Hstatus | done].
  - rewrite Hrun. eexists. split; [done|]. split; [by left|]. by split.
Qed.

Lemma delete_body_return plex playlist_title playlist_id text :
  find_playlist str_lower truth plex playlist_title playlist_id = Ok (Return text) ->
  delete_body repr str_lower truth outcome (Ok plex) playlist_title playlist_id = ([], Ok text).
Proof.
  intros Hfind.
  pose proof (playlist_delete_body_cases plex playlist_title playlist_id) as Hrun.
  cbv zeta in Hrun. by rewrite Hfind in Hrun.
Qed.

(** X22.  [playlist_delete] with a non-zero [playlist_id].  The title is
    not read.  A playlist that [fetchItem] returns but that counts as false
    (an object with [__len__] that is empty) is answered with
    ["Playlist with ID '<id>' not found"] and is not deleted.  When
    [fetchItem] raises, the playlists of the server are listed: an
    exception of that listing is answered with
    ["Error fetching playlist by ID: <text>"]. *)
Theorem playlist_delete_by_id
    self now r plex playlist_id playlist_title playlist_title' :
  playlist_id <> 0%Z ->
  snd (acquire self now r) = Ok plex ->
  let run :=
    snd (playlist_delete repr str_lower truth outcome self now r
           playlist_title (Some playlist_id)) in
  run = snd (playlist_delete repr str_lower truth outcome self now r
               playlist_title' (Some playlist_id)) /\
  (forall playlist,
      Plex.fetchItem plex playlist_id = Ok playlist ->
      truth playlist = false ->
      run =
      ([], Ok (VDict [("error",
                       VStr ("Playlist with ID '" +:+ pretty playlist_id
                               +:+ "' not found"))]))) /\
  (forall e e',
      Plex.fetchItem plex playlist_id = Raise e ->
      Plex.playlists plex None = Raise e' ->
      run =
      ([], Ok (VDict [("error",
                       VStr ("Error fetching playlist by ID: " +:+ str_exn e'))]))).
Proof.
  intros Hid Hconn. cbv zeta.
  pose proof (LookupFacts.truthy_id playlist_id Hid) as Ht.
  assert (forall title,
             find_playlist str_lower truth plex title (Some playlist_id) =
             find_by_id truth plex playlist_id) as Hfind.
  { intros title. unfold find_playlist, no_identifier. by rewrite Ht. }
  rewrite !playlist_delete_snd, Hconn.
  assert (forall title,
             delete_body repr str_lower truth outcome (Ok plex) title (Some playlist_id) =
             delete_body repr str_lower truth outcome (Ok plex) playlist_title
               (Some playlist_id)) as Hsame.
  { intros title. unfold delete_body. cbn [pure Effects.bind]. by rewrite !Hfind. }
  split; [by rewrite (Hsame playlist_title')|]. split.
  - intros playlist Hfetch Htruth.
    rewrite (delete_body_return plex _ _
               (VDict [("error",
                        VStr ("Playlist with ID '" +:+ pretty playlist_id
                                +:+ "' not found"))])); [done|].
    rewrite Hfind. unfold find_by_id. rewrite Hfetch. cbn [Py.bind].
    by rewrite Htruth.
  - intros e e' Hfetch Hall.
    rewrite (delete_body_return plex _ _
               (VDict [("error",
                        VStr ("Error fetching playlist by ID: " +:+ str_exn e'))]));
      [done|].
    rewrite Hfind. unfold find_by_id. by rewrite Hfetch, Hall.
Qed.

End Delete.

Lemma playlist_delete_answers_witness :
  exists playlist,
    fst (snd (playlist_delete Examples.repr Py.lower (fun playlist => true)
                ChangeExamples.accepts Examples.playlist_tools 0
                (PlexClient.Probed PlaylistExamples.jukebox 100)
                None (Some 201%Z))) = [Delete playlist].
Proof.
  destruct (playlist_delete_answers Examples.repr Py.lower (fun playlist => true)
              ChangeExamples.accepts Examples.playlist_tools 0
              (PlexClient.Probed PlaylistExamples.jukebox 100)
              None (Some 201%Z))
    as (doc & Hdoc & _ & Hsuccess & _).
  vm_compute in Hdoc. injection Hdoc as <-.
  destruct (Hsuccess eq_refl) as (playlist & _ & Hmade & _).
  by exists playlist.
Defined.

Lemma playlist_delete_by_id_witness :
  snd (playlist_delete Examples.repr Py.lower (fun playlist => true)
         ChangeExamples.accepts Examples.playlist_tools 0
         (PlexClient.Probed PlaylistExamples.silent 100)
         (Some "Road Trip") (Some 201%Z)) =
  ([], Ok (VDict [("error",
                   VStr "Error fetching playlist by ID: (400) bad_request")])).
Proof.
  destruct (playlist_delete_by_id Examples.repr Py.lower (fun playlist => true)
              ChangeExamples.accepts Examples.playlist_tools 0
              (PlexClient.Probed PlaylistExamples.silent 100)
              PlaylistExamples.silent 201%Z (Some "Road Trip") None)
    as (_ & _ & Hlisting).
  - discriminate.
  - reflexivity.
  - exact (Hlisting _ _ eq_refl eq_refl).
Defined.

End PlaylistDeleteFacts.

(** ** tools/media_tools.py: what the artwork tools return on success *)

Module ArtworkFacts.
Import Tools MediaLookup MediaArtwork Envelope.

Lemma error_not_success message doc :
  error message = Ok doc -> field "status" doc <> Some (VStr "success").
Proof. intros ->%SearchFacts.json_dumps_inv. done. Qed.

(** A lookup that ends in [status = "success"] has found an item and run
    the rest of the suite on it. *)
Lemma find_media_success plex media_title media_id library_name k doc :
  find_media plex media_title media_id library_name k = Ok doc ->
  field "status" doc = Some (VStr "success") ->
  exists media, k media = Ok doc.
Proof.
  unfold find_media, fetch_by_id, search_by_title, no_media_found, multiple_items.
  intros Hdoc Hstatus.
  destruct (truthy (opt_int media_id)).
  - destruct (Plex.fetchItem plex _) as [media|e]; [by exists media|].
    by destruct (error_not_success _ _ Hdoc).
  - assert (forall results,
               match results with
               | [] =>
                   error ("No media found matching '" +:+ format_opt media_title +:+ "'")
               | media :: _ =>
                   if (1 <? length results)%nat
                   then error ("Multiple items found matching '"
                                 +:+ format_opt media_title
                                 +:+ "'. Please use media_id for specific selection.")
                   else k media
               end = Ok doc ->
               exists media, k media = Ok doc) as Hpick.
    { intros [|media others] Hk.
      - by destruct (error_not_success _ _ Hk).
      - destruct (1 <? _)%nat; [|by exists media].
        by destruct (error_not_success _ _ Hk). }
    destruct (truthy (opt_str library_name)).
    + destruct (bind _ _) as [results|e]; [by apply (Hpick results)|].
      destruct (is_NotFound e); [|done].
      by destruct (error_not_success _ _ Hdoc).
    + destruct (Plex.search plex media_title) as [results|e]; [|done].
      by apply (Hpick results).
Qed.

(** The same, with the item named. *)
Lemma find_media_found plex media_title media_id library_name k doc :
  find_media plex media_title media_id library_name k = Ok doc ->
  field "status" doc = Some (VStr "success") ->
  exists media,
    ArtworkName.found plex media_title media_id library_name media /\
    k media = Ok doc.
Proof.
  unfold find_media, fetch_by_id, ArtworkName.found. intros Hdoc Hstatus.
  destruct (truthy (opt_int media_id)).
  - destruct (Plex.fetchItem plex _) as [media|e]; [by exists media|].
    by destruct (error_not_success _ _ Hdoc).
  - destruct (title_matches plex media_title library_name) as [results|e] eqn:Hm.
    + rewrite (MediaFacts.search_by_title_matches _ _ _ _ _ Hm) in Hdoc.
      destruct results as [|media [|second others]].
      * by destruct (error_not_success _ _ Hdoc).
      * by exists media.
      * by destruct (error_not_success _ _ Hdoc).
    + rewrite (LookupFacts.search_by_title_raises _ _ _ _ _ Hm) in Hdoc.
      destruct (_ && _); [|done]. by destruct (error_not_success _ _ Hdoc).
Qed.

Section Facts.
Variable repr : val -> string.
Variable isalnum : ascii -> bool.
Variable b64encode : string -> string.
Variable requests_get : string -> result Requests.Response.
Variable write_file : string -> string -> result unit.

(** X23.  A successful [media_get_artwork] without [save_to_file] returns
    the image of the item the lookup found: the request went to the
    server's URL followed by the path held by the item's [thumb] attribute
    (for ["poster"]) or [art] attribute (for ["art"] and ["background"])
    and ["?X-Plex-Token=<token>"]; [data] is the base64 text of the
    response's content, [size] its length and [title] the item's title;
    and the document returns that URL, with the token in it, in [url]. *)
Theorem media_get_artwork_returns_fetched_image
    self now r media_title media_id library_name art_type output_path doc :
  snd (media_get_artwork repr isalnum b64encode requests_get write_file
         self now r media_title media_id library_name art_type false output_path)
    = Ok doc ->
  field "status" doc = Some (VStr "success") ->
  exists plex media response,
    let full_url :=
      Tools._plex_url self +:+ str repr (ArtworkName.artwork_url art_type media)
        +:+ "?X-Plex-Token=" +:+ Tools._plex_token self in
    snd (acquire self now r) = Ok plex /\
    ArtworkName.found plex media_title media_id library_name media /\
    valid_art_type art_type = true /\
    truthy (ArtworkName.artwork_url art_type media) = true /\
    requests_get full_url = Ok response /\
    field "url" doc = Some (VStr full_url) /\
    field "data" doc = Some (VStr (b64encode (Requests.content response))) /\
    field "size" doc =
      Some (VInt (Z.of_nat (String.length (Requests.content response)))) /\
    media_title_attr media = Ok (default VNone (field "title" doc)).
Proof.
  rewrite EnvelopeFacts.media_get_artwork_snd. intros Hdoc Hstatus.
  destruct (artwork_body _ _ _ _ _ _ _ _ _ _ _ _ _ _) as [doc'|e] eqn:Hbody;
    cbn in Hdoc; [|by injection Hdoc as <-].
  injection Hdoc as ->. unfold artwork_body in Hbody.
  destruct (snd (acquire self now r)) as [plex|e]; [|done]. cbn [bind] in Hbody.
  destruct (no_identifier media_title media_id);
    [by destruct (error_not_success _ _ Hbody)|].
  destruct (valid_art_type art_type) eqn:Hart; cbn [negb] in Hbody;
    [|by destruct (error_not_success _ _ Hbody)].
  destruct (find_media_found _ _ _ _ _ _ Hbody Hstatus) as (media & Hfound & Hmedia).
  clear Hbody. exists plex, media.
  unfold artwork_of in Hmedia. cbv zeta in Hmedia.
  fold (ArtworkName.artwork_url art_type media) in Hmedia.
  destruct (truthy (ArtworkName.artwork_url art_type media)) eqn:Hurl;
    cbn [negb] in Hmedia; [|by destruct (error_not_success _ _ Hmedia)].
  cbv zeta.
  destruct (requests_get _) as [response|e] eqn:Hget; [|done].
  exists response. cbn [bind] in Hmedia.
  destruct (Requests.raise_for_status response); [|done]. cbn [bind] in Hmedia.
  destruct (media_title_attr media) as [title|e]; [|done]. cbn [bind] in Hmedia.
  apply SearchFacts.json_dumps_inv in Hmedia. subst doc. done.
Qed.

(** X24.  A successful [media_list_available_artwork] counts what it lists:
    [available_count] is the number of entries of [available_artwork]; and
    every [thumb_url] it gives is the server's URL followed by a path and
    ["?X-Plex-Token=<token>"]. *)
Theorem media_list_available_artwork_counts_entries
    self now r media_title media_id library_name art_type doc :
  snd (media_list_available_artwork repr
         self now r media_title media_id library_name art_type) = Ok doc ->
  field "status" doc = Some (VStr "success") ->
  exists entries,
    field "available_artwork" doc = Some (VList entries) /\
    field "available_count" doc = Some (VInt (Z.of_nat (length entries))) /\
    Forall
      (fun entry =>
         forall url,
           field "thumb_url" entry = Some url ->
           exists path,
             url = VStr (Tools._plex_url self +:+ path +:+ "?X-Plex-Token="
                           +:+ Tools._plex_token self))
      entries.
Proof.
  rewrite EnvelopeFacts.media_list_available_artwork_snd. intros Hdoc Hstatus.
  destruct (available_body _ _ _ _ _ _ _ _) as [doc'|e] eqn:Hbody;
    cbn in Hdoc; [|by injection Hdoc as <-].
  injection Hdoc as ->. unfold available_body in Hbody.
  destruct (snd (acquire self now r)) as [plex|e]; [|done]. cbn [bind] in Hbody.
  destruct (no_identifier media_title media_id);
    [by destruct (error_not_success _ _ Hbody)|].
  destruct (negb (valid_art_type art_type));
    [by destruct (error_not_success _ _ Hbody)|].
  destruct (find_media_success _ _ _ _ _ _ Hbody Hstatus) as [media Hmedia].
  clear Hbody. unfold available_of in Hmedia.
  destruct (if String.eqb art_type "poster" then _ else _) as [artwork_items|e];
    [|done]. cbn [bind] in Hmedia.
  destruct (iter artwork_items) as [items|e]; [|done]. cbn [bind] in Hmedia.
  cbv zeta in Hmedia. apply SearchFacts.json_dumps_inv in Hmedia. subst doc.
  eexists. split; [done|]. split; [done|].
  apply Forall_fmap, Forall_forall. intros artwork _ url. unfold artwork_info.
  destruct (hasattr artwork "thumb"); [|done].
  intros [= <-]. by eexists.
Qed.

(** X25.  A successful [media_get_artwork] with [save_to_file] has written
    the image of the item the lookup found: the request went to the
    server's URL followed by the path held by the item's [thumb] or [art]
    attribute and the token, the content of the response was written to
    the path the document reports in [file_path], [file_size] is its
    length, and the document has no [url] member.  The path is
    [output_path] when one is given; otherwise it is the stem derived from
    that item's title, followed by ["_"], the art type and the extension
    for the response's [content-type]: [".png"] when it names png and
    neither jpeg nor jpg, [".jpg"] otherwise. *)
Theorem media_get_artwork_saves_fetched_image
    self now r media_title media_id library_name art_type output_path doc :
  snd (media_get_artwork repr isalnum b64encode requests_get write_file
         self now r media_title media_id library_name art_type true output_path)
    = Ok doc ->
  field "status" doc = Some (VStr "success") ->
  exists plex media response file_path,
    snd (acquire self now r) = Ok plex /\
    ArtworkName.found plex media_title media_id library_name media /\
    requests_get (Tools._plex_url self
                    +:+ str repr (ArtworkName.artwork_url art_type media)
                    +:+ "?X-Plex-Token=" +:+ Tools._plex_token self) = Ok response /\
    write_file file_path (Requests.content response) = Ok () /\
    field "file_path" doc = Some (VStr file_path) /\
    field "file_size" doc =
      Some (VInt (Z.of_nat (String.length (Requests.content response)))) /\
    field "url" doc = None /\
    (truthy (opt_str output_path) = true -> output_path = Some file_path) /\
    (truthy (opt_str output_path) = false ->
     exists title stem,
       media_title_attr media = Ok title /\
       safe_title isalnum title = Ok stem /\
       file_path =
         stem +:+ "_" +:+ art_type
           +:+ ArtworkName.extension
                 (default "" (Requests.headers response "content-type"))).
Proof.
  rewrite EnvelopeFacts.media_get_artwork_snd. intros Hdoc Hstatus.
  destruct (artwork_body _ _ _ _ _ _ _ _ _ _ _ _ _ _) as [doc'|e] eqn:Hbody;
    cbn in Hdoc; [|by injection Hdoc as <-].
  injection Hdoc as ->. unfold artwork_body in Hbody.
  destruct (snd (acquire self now r)) as [plex|e]; [|done]. cbn [bind] in Hbody.
  destruct (no_identifier media_title media_id);
    [by destruct (error_not_success _ _ Hbody)|].
  destruct (negb (valid_art_type art_type));
    [by destruct (error_not_success _ _ Hbody)|].
  destruct (find_media_found _ _ _ _ _ _ Hbody Hstatus) as (media & Hfound & Hmedia).
  clear Hbody. exists plex, media.
  unfold artwork_of in Hmedia. cbv zeta in Hmedia.
  fold (ArtworkName.artwork_url art_type media) in Hmedia.
  destruct (negb (truthy (ArtworkName.artwork_url art_type media)));
    [by destruct (error_not_success _ _ Hmedia)|].
  destruct (requests_get _) as [response|e] eqn:Hget; [|done].
  exists response. cbn [bind] in Hmedia.
  destruct (Requests.raise_for_status response); [|done]. cbn [bind] in Hmedia.
  fold (ArtworkName.extension
          (default "" (Requests.headers response "content-type"))) in Hmedia.
  destruct (truthy (opt_str output_path)) eqn:Hout; cbn [negb] in Hmedia.
  - cbn [bind] in Hmedia.
    destruct (write_file _ _) as [[]|e] eqn:Hwrite; [|done]. cbn [bind] in Hmedia.
    destruct (media_title_attr media) as [title|e]; [|done]. cbn [bind] in Hmedia.
    apply SearchFacts.json_dumps_inv in Hmedia. subst doc.
    exists (default "" output_path). do 7 (split; [done|]). split; [|done].
    intros _. by destruct output_path.
  - destruct (media_title_attr media) as [title|e] eqn:Htitle; [|done].
    cbn [bind] in Hmedia.
    destruct (safe_title isalnum title) as [stem|e] eqn:Hstem; [|done].
    cbn [bind] in Hmedia.
    destruct (write_file _ _) as [[]|e] eqn:Hwrite; [|done]. cbn [bind] in Hmedia.
    apply SearchFacts.json_dumps_inv in Hmedia. subst doc.
    eexists. do 7 (split; [done|]). split; [done|].
    intros _. by exists title, stem.
Qed.

End Facts.

Lemma media_get_artwork_returns_fetched_image_witness :
  exists doc,
    snd (media_get_artwork Examples.repr Examples.isalnum Examples.b64encode
           ArtworkExamples.serves Examples.read_only
           Examples.media_tools 0 (PlexClient.Probed ArtworkExamples.gallery 100)
           None (Some 101%Z) None "poster" false None) = Ok doc /\
    field "url" doc =
      Some (VStr "http://plex:32400/library/metadata/101/thumb?X-Plex-Token=secret").
Proof.
  destruct (media_get_artwork_returns_fetched_image
              Examples.repr Examples.isalnum Examples.b64encode
              ArtworkExamples.serves Examples.read_only
              Examples.media_tools 0
              (PlexClient.Probed ArtworkExamples.gallery 100)
              None (Some 101%Z) None "poster" None
              _ eq_refl eq_refl)
    as (plex & media & response & Hconn & Hfound & _ & _ & _ & Hurl & _).
  injection Hconn as <-. injection Hfound as <-.
  eexists. split; [reflexivity | exact Hurl].
Defined.

Lemma media_list_available_artwork_counts_entries_witness :
  exists doc entries,
    snd (media_list_available_artwork Examples.repr
           Examples.media_tools 0 (PlexClient.Probed ArtworkExamples.gallery 100)
           None (Some 101%Z) None "poster") = Ok doc /\
    field "available_artwork" doc = Some (VList entries) /\
    field "available_count" doc = Some (VInt (Z.of_nat (length entries))).
Proof.
  destruct (media_list_available_artwork_counts_entries
              Examples.repr
              Examples.media_tools 0
              (PlexClient.Probed ArtworkExamples.gallery 100)
              None (Some 101%Z) None "poster"
              _ eq_refl eq_refl)
    as (entries & Hentries & Hcount & _).
  eexists _, entries. split; [reflexivity|]. split; [exact Hentries | exact Hcount].
Defined.

Lemma media_get_artwork_saves_fetched_image_witness :
  exists doc,
    snd (media_get_artwork Examples.repr Examples.isalnum Examples.b64encode
           ArtworkExamples.serves ArtworkExamples.stores
           Examples.media_tools 0 (PlexClient.Probed ArtworkExamples.gallery 100)
           None (Some 101%Z) None "poster" true None) = Ok doc /\
    field "file_path" doc = Some (VStr "Alien_poster.jpg") /\
    field "url" doc = None.
Proof.
  destruct (media_get_artwork_saves_fetched_image
              Examples.repr Examples.isalnum Examples.b64encode
              ArtworkExamples.serves ArtworkExamples.stores
              Examples.media_tools 0
              (PlexClient.Probed ArtworkExamples.gallery 100)
              None (Some 101%Z) None "poster" None
              _ eq_refl eq_refl)
    as (plex & media & response & file_path & Hconn & Hfound & Hget & _
        & Hpath & _ & Hurl & _ & Hname).
  injection Hconn as <-. injection Hfound as <-. injection Hget as <-.
  destruct (Hname eq_refl) as (title & stem & Htitle & Hstem & ->).
  injection Htitle as <-. injection Hstem as <-.
  eexists. split; [reflexivity|]. split; [exact Hpath | exact Hurl].
Defined.

End ArtworkFacts.

(** ** Lookups by title in the playlist tools *)

Module PlaylistLookupFacts.
Import Tools MediaLookup Effects Envelope PlaylistList PlaylistDelete PlaylistLookup.

(** Runs a suite whose steps are known. *)
Ltac run_suite :=
  cbn [finish and_then step act returned pure Effects.bind Effects.try_except
       Py.bind Py.try_except try_return answer app fst snd].

Section Facts.
Variable repr : val -> string.
Variable str_lower : string -> string.
Variable truth : obj -> bool.

Lemma find_by_title_none plex title playlists :
  Plex.playlists plex None = Ok playlists ->
  matching str_lower playlists title = Ok [] ->
  find_by_title str_lower plex (Some title) =
  Ok (Return (VDict [("error", VStr ("No playlist found with title '" +:+ title +:+ "'"))])).
Proof.
  intros Hplaylists Hnone. unfold find_by_title.
  rewrite Hplaylists. cbn [Py.bind].
  change (default "" (Some title)) with title. by rewrite Hnone.
Qed.

Lemma edit_find_by_title_none plex title playlists :
  Plex.playlists plex None = Ok playlists ->
  matching str_lower playlists title = Ok [] ->
  PlaylistEdit.find_by_title str_lower plex (Some title) =
  Ok (Return (VDict [("error", VStr ("No playlist found with title '" +:+ title +:+ "'"))])).
Proof.
  intros Hplaylists Hnone. unfold PlaylistEdit.find_by_title.
  rewrite Hplaylists. cbn [Py.bind].
  change (default "" (Some title)) with title. by rewrite Hnone.
Qed.

Lemma by_title_lookup title playlist_id :
  by_title (Some title) playlist_id = true ->
  truthy (opt_int playlist_id) = false /\
  no_identifier (Some title) playlist_id = false.
Proof.
  unfold by_title, no_identifier. intros [Hid Ht]%andb_true_iff.
  apply negb_true_iff in Hid. by rewrite Hid, Ht.
Qed.

(** X26.  A lookup of a playlist by title that matches no playlist (no
    identifier given, [p.title.lower() == playlist_title.lower()] for none
    of the server's playlists) is answered by each of [playlist_edit],
    [playlist_upload_poster], [playlist_copy_to_user], [playlist_add_to],
    [playlist_remove_from], [playlist_delete] and [playlist_get_contents]
    with [{"error": "No playlist found with title '<title>'"}], an object
    without [status], once the arguments have passed the checks that come
    before the lookup; no call that changes the library is made. *)
Theorem playlist_lookup_without_match self now r plex playlists title playlist_id :
  by_title (Some title) playlist_id = true ->
  snd (acquire self now r) = Ok plex ->
  Plex.playlists plex None = Ok playlists ->
  matching str_lower playlists title = Ok [] ->
  let message := "No playlist found with title '" +:+ title +:+ "'" in
  let answer := VDict [("error", VStr message)] in
  contains title message /\
  field "status" answer = None /\
  snd (PlaylistGetContents.playlist_get_contents str_lower truth
         self now r (Some title) playlist_id) = Ok answer /\
  (forall outcome,
      snd (playlist_delete repr str_lower truth outcome
             self now r (Some title) playlist_id) = ([], Ok answer)) /\
  (forall outcome leaves new_title new_summary,
      snd (PlaylistEdit.playlist_edit repr str_lower truth outcome leaves
             self now r (Some title) playlist_id new_title new_summary)
      = ([], Ok answer)) /\
  (forall session_get path_exists read_file outcome leaves poster_url poster_filepath,
      xorb (truthy (opt_str poster_url)) (truthy (opt_str poster_filepath)) = true ->
      snd (PlaylistUploadPoster.playlist_upload_poster repr str_lower truth
             session_get path_exists read_file outcome leaves
             self now r (Some title) playlist_id poster_url poster_filepath)
      = ([], Ok answer)) /\
  (forall myPlexAccount outcome leaves username,
      truthy (opt_str username) = true ->
      snd (PlaylistCopyToUser.playlist_copy_to_user repr str_lower truth
             myPlexAccount outcome leaves
             self now r (Some title) playlist_id username)
      = ([], Ok answer)) /\
  (forall library_search outcome leaves item_titles (item_ids : option (list Z)),
      (default [] item_titles = [] <-> default [] item_ids <> []) ->
      snd (PlaylistAddTo.playlist_add_to repr str_lower truth library_search
             outcome leaves
             self now r (Some title) playlist_id item_titles item_ids)
      = ([], Ok answer)) /\
  (forall outcome leaves item_titles,
      default [] item_titles <> [] ->
      snd (PlaylistRemoveFrom.playlist_remove_from repr str_lower truth
             outcome leaves self now r (Some title) playlist_id item_titles)
      = ([], Ok answer)).
Proof.
  intros [Hid Hno]%by_title_lookup Hconn Hplaylists Hnone message answer.
  pose proof (find_by_title_none _ _ _ Hplaylists Hnone) as Hfind.
  pose proof (edit_find_by_title_none _ _ _ Hplaylists Hnone) as Hedit.
  assert (locate str_lower truth plex (Some title) playlist_id =
          Ok (Return answer)) as Hlocate.
  { unfold locate. by rewrite Hid. }
  split; [apply StringFacts.contains_middle|].
  split; [done|].
  split.
  { unfold PlaylistGetContents.playlist_get_contents.
    destruct (acquire self now r) as [self' connection].
    cbn [snd] in Hconn. subst connection.
    unfold PlaylistGetContents.contents_body. run_suite.
    by rewrite Hno, Hlocate. }
  split.
  { intros outcome. unfold playlist_delete.
    destruct (acquire self now r) as [self' connection].
    cbn [snd] in Hconn. subst connection.
    unfold delete_body, find_playlist. run_suite.
    by rewrite Hno, Hid, Hfind. }
  split.
  { intros outcome leaves new_title new_summary.
    unfold PlaylistEdit.playlist_edit.
    destruct (acquire self now r) as [self' connection].
    cbn [snd] in Hconn. subst connection.
    unfold PlaylistEdit.edit_body. run_suite.
    by rewrite Hno, Hid, Hedit. }
  split.
  { intros session_get path_exists read_file outcome leaves poster_url
      poster_filepath Hsource.
    unfold PlaylistUploadPoster.playlist_upload_poster.
    destruct (acquire self now r) as [self' connection].
    cbn [snd] in Hconn. subst connection.
    unfold PlaylistUploadPoster.upload_body. run_suite.
    rewrite Hno, Hlocate.
    by destruct (truthy (opt_str poster_url)), (truthy (opt_str poster_filepath)). }
  split.
  { intros myPlexAccount outcome leaves username Hname.
    unfold PlaylistCopyToUser.playlist_copy_to_user.
    destruct (acquire self now r) as [self' connection].
    cbn [snd] in Hconn. subst connection.
    unfold PlaylistCopyToUser.copy_body. run_suite.
    by rewrite Hno, Hname, Hlocate. }
  split.
  { intros library_search outcome leaves item_titles item_ids Hitems.
    unfold PlaylistAddTo.playlist_add_to.
    destruct (acquire self now r) as [self' connection].
    cbn [snd] in Hconn. subst connection.
    unfold PlaylistAddTo.add_body. run_suite.
    rewrite Hno, Hlocate.
    destruct (default [] item_titles), (default [] item_ids); try done.
    - by destruct Hitems as [Hitems _]; destruct (Hitems eq_refl).
    - by destruct Hitems as [_ Hitems]; discriminate Hitems. }
  intros outcome leaves item_titles Hitems.
  unfold PlaylistRemoveFrom.playlist_remove_from.
  destruct (acquire self now r) as [self' connection].
  cbn [snd] in Hconn. subst connection.
  unfold PlaylistRemoveFrom.remove_body. run_suite.
  rewrite Hno, Hlocate.
  by destruct (default [] item_titles).
Qed.

Section Items.
Variable library_search : Plex.PlexServer -> string -> result (list obj).

Lemma create_find_items_none plex library_name found title rest items :
  Forall (fun t => exists first others,
              PlaylistCreate.search_title library_search plex library_name t
              = Ok (first :: others)) found ->
  PlaylistCreate.search_title library_search plex library_name title = Ok [] ->
  PlaylistCreate.find_items library_search plex library_name
    (found ++ title :: rest) items =
  Ok (Return (VDict [("status", VStr "error");
                     ("message", VStr ("Item '" +:+ title +:+ "' not found"))])).
Proof.
  intros Hfound Hnone. revert items.
  induction Hfound as [|t found (first & others & Ht) _ IH]; intros items;
    cbn [PlaylistCreate.find_items app].
  - by rewrite Hnone.
  - rewrite Ht. cbn [Py.bind]. apply IH.
Qed.

Lemma items_by_title_none plex found title rest items_to_add :
  Forall (fun t => exists first others,
              library_search plex t = Ok (first :: others)) found ->
  library_search plex title = Ok [] ->
  PlaylistAddTo.items_by_title library_search plex (found ++ title :: rest)
    items_to_add =
  Ok (Return (VDict [("error", VStr ("Item '" +:+ title +:+ "' not found"))])).
Proof.
  intros Hfound Hnone. revert items_to_add.
  induction Hfound as [|t found (first & others & Ht) _ IH]; intros items_to_add;
    cbn [PlaylistAddTo.items_by_title app].
  - by rewrite Hnone.
  - rewrite Ht. cbn [Py.bind]. apply IH.
Qed.

Lemma remove_find_items_none current_items items found title rest items_to_remove :
  iter current_items = Ok items ->
  Forall (fun t => exists item others,
              PlaylistRemoveFrom.found_items str_lower items t
              = Ok (item :: others)) found ->
  PlaylistRemoveFrom.found_items str_lower items title = Ok [] ->
  PlaylistRemoveFrom.find_items str_lower current_items (found ++ title :: rest)
    items_to_remove =
  Ok (Return (VDict [("error",
                      VStr ("Item '" +:+ title +:+ "' not found in playlist"))])).
Proof.
  intros Hiter Hfound Hnone. revert items_to_remove.
  induction Hfound as [|t found (item & others & Ht) _ IH]; intros items_to_remove;
    cbn [PlaylistRemoveFrom.find_items app]; rewrite Hiter; cbn [Py.bind].
  - by rewrite Hnone.
  - rewrite Ht. cbn [Py.bind]. apply IH.
Qed.

(** X27.  A lookup of an item by title that matches nothing, after the
    titles before it have each matched something:
    - [playlist_create] answers [status = "error"] with the message
      ["Item '<title>' not found"];
    - [playlist_add_to], with the playlist found and no [item_ids],
      answers [{"error": "Item '<title>' not found"}];
    - [playlist_remove_from], with the playlist found and its items read,
      answers [{"error": "Item '<title>' not found in playlist"}] when no
      item of the playlist has that title up to [lower()].
    None of them makes a call that changes the library: no playlist is
    created, nothing is added or removed, also for the titles that did
    match. *)
Theorem item_lookup_without_match
    self now r plex found title rest playlist_title playlist_id :
  snd (acquire self now r) = Ok plex ->
  (forall outcome new_title library_name summary,
      Forall (fun t => exists first others,
                  PlaylistCreate.search_title library_search plex library_name t
                  = Ok (first :: others)) found ->
      PlaylistCreate.search_title library_search plex library_name title = Ok [] ->
      snd (PlaylistCreate.playlist_create library_search outcome self now r
             new_title (found ++ title :: rest) library_name summary) =
      ([], Ok (VDict [("status", VStr "error");
                      ("message", VStr ("Item '" +:+ title +:+ "' not found"))]))) /\
  (forall outcome leaves playlist item_ids,
      no_identifier playlist_title playlist_id = false ->
      locate str_lower truth plex playlist_title playlist_id = Ok (Continue playlist) ->
      default [] item_ids = [] ->
      Forall (fun t => exists first others,
                  library_search plex t = Ok (first :: others)) found ->
      library_search plex title = Ok [] ->
      snd (PlaylistAddTo.playlist_add_to repr str_lower truth library_search
             outcome leaves self now r playlist_title playlist_id
             (Some (found ++ title :: rest)) item_ids) =
      ([], Ok (VDict [("error", VStr ("Item '" +:+ title +:+ "' not found"))]))) /\
  (forall outcome leaves playlist current_items items,
      no_identifier playlist_title playlist_id = false ->
      locate str_lower truth plex playlist_title playlist_id = Ok (Continue playlist) ->
      call_method playlist "items" = Ok current_items ->
      iter current_items = Ok items ->
      Forall (fun t => exists item others,
                  PlaylistRemoveFrom.found_items str_lower items t
                  = Ok (item :: others)) found ->
      PlaylistRemoveFrom.found_items str_lower items title = Ok [] ->
      snd (PlaylistRemoveFrom.playlist_remove_from repr str_lower truth
             outcome leaves self now r playlist_title playlist_id
             (Some (found ++ title :: rest))) =
      ([], Ok (VDict [("error",
                       VStr ("Item '" +:+ title +:+ "' not found in playlist"))]))).
Proof.
  intros Hconn. split; [|split].
  - intros outcome new_title library_name summary Hfound Hnone.
    unfold PlaylistCreate.playlist_create.
    destruct (acquire self now r) as [self' connection].
    cbn [snd] in Hconn. subst connection.
    unfold PlaylistCreate.create_body. run_suite.
    by rewrite (create_find_items_none _ _ _ _ _ _ Hfound Hnone).
  - intros outcome leaves playlist item_ids Hno Hlocate Hids Hfound Hnone.
    unfold PlaylistAddTo.playlist_add_to.
    destruct (acquire self now r) as [self' connection].
    cbn [snd] in Hconn. subst connection.
    unfold PlaylistAddTo.add_body, PlaylistAddTo.find_items. run_suite.
    rewrite Hno, Hids.
    change (default [] (Some (found ++ title :: rest))) with (found ++ title :: rest).
    destruct (found ++ title :: rest) as [|t titles] eqn:Htitles;
      [by destruct found|].
    rewrite Hlocate. run_suite. rewrite <- Htitles.
    by rewrite (items_by_title_none _ _ _ _ _ Hfound Hnone).
  - intros outcome leaves playlist current_items items Hno Hlocate Hitems Hiter
      Hfound Hnone.
    unfold PlaylistRemoveFrom.playlist_remove_from.
    destruct (acquire self now r) as [self' connection].
    cbn [snd] in Hconn. subst connection.
    unfold PlaylistRemoveFrom.remove_body. run_suite.
    rewrite Hno.
    change (default [] (Some (found ++ title :: rest))) with (found ++ title :: rest).
    destruct (found ++ title :: rest) as [|t titles] eqn:Htitles;
      [by destruct found|].
    rewrite Hlocate. run_suite. rewrite Hitems. run_suite. rewrite <- Htitles.
    by rewrite (remove_find_items_none _ _ _ _ _ _ Hiter Hfound Hnone).
Qed.

End Items.

End Facts.

Lemma playlist_lookup_without_match_witness :
  let answer := VDict [("error", VStr "No playlist found with title 'Zardoz'")] in
  let jukebox := PlexClient.Probed PlaylistExamples.jukebox 100 in
  snd (PlaylistGetContents.playlist_get_contents Py.lower ToolExamples.truth
         Examples.playlist_tools 0 jukebox (Some "Zardoz") None) = Ok answer /\
  snd (PlaylistDelete.playlist_delete Examples.repr Py.lower ToolExamples.truth
         ChangeExamples.accepts
         Examples.playlist_tools 0 jukebox (Some "Zardoz") None) = ([], Ok answer) /\
  snd (PlaylistEdit.playlist_edit Examples.repr Py.lower ToolExamples.truth
         ChangeExamples.accepts ToolExamples.leaves
         Examples.playlist_tools 0 jukebox
         (Some "Zardoz") None (Some "Zardoz II") None) = ([], Ok answer) /\
  snd (PlaylistUploadPoster.playlist_upload_poster Examples.repr Py.lower
         ToolExamples.truth ToolExamples.session_get ChangeExamples.on_disk
         ToolExamples.read_file ChangeExamples.accepts ToolExamples.leaves
         Examples.playlist_tools 0 jukebox
         (Some "Zardoz") None None (Some "poster.jpg")) = ([], Ok answer) /\
  snd (PlaylistCopyToUser.playlist_copy_to_user Examples.repr Py.lower
         ToolExamples.truth ToolExamples.myPlexAccount
         ChangeExamples.accepts ToolExamples.leaves
         Examples.playlist_tools 0 jukebox
         (Some "Zardoz") None (Some "ripley")) = ([], Ok answer) /\
  snd (PlaylistAddTo.playlist_add_to Examples.repr Py.lower ToolExamples.truth
         ToolExamples.library_search ChangeExamples.accepts ToolExamples.leaves
         Examples.playlist_tools 0 jukebox
         (Some "Zardoz") None (Some ["Alien"]) None) = ([], Ok answer) /\
  snd (PlaylistRemoveFrom.playlist_remove_from Examples.repr Py.lower
         ToolExamples.truth ChangeExamples.accepts ToolExamples.leaves
         Examples.playlist_tools 0 jukebox
         (Some "Zardoz") None (Some ["Alien"])) = ([], Ok answer).
Proof.
  destruct (playlist_lookup_without_match Examples.repr Py.lower ToolExamples.truth
              Examples.playlist_tools 0 (PlexClient.Probed PlaylistExamples.jukebox 100)
              PlaylistExamples.jukebox
              [PlaylistExamples.road_trip; PlaylistExamples.broken] "Zardoz" None)
    as (_ & _ & Hcontents & Hdelete & Hedit & Hupload & Hcopy & Hadd & Hremove).
  - reflexivity.
  - reflexivity.
  - reflexivity.
  - reflexivity.
  - split; [exact Hcontents|].
    split; [apply Hdelete|].
    split; [apply Hedit|].
    split; [by apply Hupload|].
    split; [by apply Hcopy|].
    split; [apply Hadd; split; [discriminate | done]|].
    by apply Hremove.
Defined.

Lemma item_lookup_without_match_witness :
  snd (PlaylistCreate.playlist_create ToolExamples.library_search
         ChangeExamples.accepts
         Examples.playlist_tools 0 (PlexClient.Probed ToolExamples.club 100)
         "Films" ["Alien"; "Zardoz"; "Aliens"] None None) =
  ([], Ok (VDict [("status", VStr "error");
                  ("message", VStr "Item 'Zardoz' not found")])) /\
  snd (PlaylistAddTo.playlist_add_to Examples.repr Py.lower ToolExamples.truth
         ToolExamples.library_search ChangeExamples.accepts ToolExamples.leaves
         Examples.playlist_tools 0 (PlexClient.Probed ToolExamples.club 100)
         (Some "space") None (Some ["Alien"; "Zardoz"; "Aliens"]) None) =
  ([], Ok (VDict [("error", VStr "Item 'Zardoz' not found")])) /\
  snd (PlaylistRemoveFrom.playlist_remove_from Examples.repr Py.lower
         ToolExamples.truth ChangeExamples.accepts ToolExamples.leaves
         Examples.playlist_tools 0 (PlexClient.Probed ToolExamples.club 100)
         (Some "space") None (Some ["Alien"; "Zardoz"; "Aliens"])) =
  ([], Ok (VDict [("error", VStr "Item 'Zardoz' not found in playlist")])).
Proof.
  destruct (item_lookup_without_match Examples.repr Py.lower ToolExamples.truth
              ToolExamples.library_search
              Examples.playlist_tools 0 (PlexClient.Probed ToolExamples.club 100)
              ToolExamples.club ["Alien"] "Zardoz" ["Aliens"] (Some "space") None)
    as (Hcreate & Hadd & Hremove).
  - reflexivity.
  - split; [|split].
    + apply Hcreate; [|reflexivity].
      constructor; [|constructor]. by exists Examples.alien, [].
    + apply (Hadd _ _ ToolExamples.space); [reflexivity..| |reflexivity].
      constructor; [|constructor]. by exists Examples.alien, [].
    + apply (Hremove _ _ ToolExamples.space (VList [of_obj Examples.alien])
               [of_obj Examples.alien]); [reflexivity..| |reflexivity].
      constructor; [|constructor]. by exists (of_obj Examples.alien), [].
Defined.

End PlaylistLookupFacts.
